(** * Face swap gateway: validation, normalisation, provider adapters and
      the fallback-and-retry orchestrator of [services/face_swap_gateway.py].

    The development follows the Python module top to bottom.  Python values
    that travel in result dictionaries and JSON bodies are [pyval]s, a [dict]
    is a [gmap string pyval], exceptions (instances of [Exception]) are an
    explicit [outcome], and everything that talks to the outside (provider
    calls, [asyncio.sleep], HTTP, the clock) threads a world through a small
    state-and-exception monad.  [print] calls write to the console only and
    are left out. *)

From stdpp Require Import gmap strings list pretty sorting.
From Stdlib Require Import ZArith.
From Stdlib.Strings Require Import Ascii String Byte.
From Equations Require Import Equations.

Local Set Warnings "-register-all".
Local Open Scope string_scope.
Local Open Scope list_scope.

(** ** Python values *)

Inductive pyval :=
| PyNone
| PyBool (b : bool)
| PyInt (n : Z)
| PyStr (s : string)
| PyList (l : list pyval)
| PyDict (d : gmap string pyval).

(** Truth value testing, as [if v:] does it. *)
Definition truthy (v : pyval) : bool :=
  match v with
  | PyNone => false
  | PyBool b => b
  | PyInt n => negb (n =? 0)%Z
  | PyStr s => negb (String.eqb s "")
  | PyList l => negb (bool_decide (l = []))
  | PyDict d => negb (bool_decide (d = ∅))
  end.

(** [d.get(k)]: the value, or [None] when the key is absent. *)
Definition dict_get (d : gmap string pyval) (k : string) : pyval :=
  default PyNone (d !! k).

(** ** Exceptions and fallible results *)

(** Instances of [Exception].  [asyncio.TimeoutError] is singled out because
    the adapters have a handler of its own for it. *)
Inductive exn :=
| TimeoutError
| Error (name msg : string).

(** [str(e)]. *)
Definition str_exn (e : exn) : string :=
  match e with
  | TimeoutError => ""
  | Error _ msg => msg
  end.

Inductive outcome (A : Type) :=
| Return (a : A)
| Raise (e : exn).
Arguments Return {A} a.
Arguments Raise {A} e.

#[export] Instance outcome_ret : MRet outcome := λ A a, Return a.
#[export] Instance outcome_bind : MBind outcome := λ A B f m,
  match m with
  | Return a => f a
  | Raise e => Raise e
  end.

Definition returned {A} (o : outcome A) : bool :=
  match o with
  | Return _ => true
  | Raise _ => false
  end.

(** ** Strings: [str.startswith] and a small regular-expression matcher *)

Inductive FaceSwapMediaType := IMAGE | VIDEO.

(** [media_type.value] *)
Definition media_value (m : FaceSwapMediaType) : string :=
  match m with
  | IMAGE => "image"
  | VIDEO => "video"
  end.

Definition startswith (data pre : string) : bool := String.prefix pre data.

Definition lower_ascii (c : ascii) : ascii :=
  let n := N_of_ascii c in
  if ((65 <=? n) && (n <=? 90))%N then ascii_of_N (n + 32) else c.

(** The fragment of [re] the module uses: literals, alternation and
    concatenation, matched with [re.IGNORECASE].  Strings are sequences of
    characters with codes below 256, on which ignoring case is ASCII case
    folding for the letters of these patterns. *)
Inductive regex :=
| Lit (s : string)
| Alt (r1 r2 : regex)
| Cat (r1 r2 : regex).

Fixpoint strip_literal (lit s : string) : option string :=
  match lit, s with
  | EmptyString, _ => Some s
  | String a lit', String b s' =>
      if Ascii.eqb (lower_ascii a) (lower_ascii b) then strip_literal lit' s'
      else None
  | String _ _, EmptyString => None
  end.

(** Every way to match [r] at the start of [s], as the list of what is left
    of [s] after the match. *)
Fixpoint residuals (r : regex) (s : string) : list string :=
  match r with
  | Lit l => match strip_literal l s with Some s' => [s'] | None => [] end
  | Alt r1 r2 => residuals r1 s ++ residuals r2 s
  | Cat r1 r2 => flat_map (residuals r2) (residuals r1 s)
  end.

(** [re.match(pattern, data, re.IGNORECASE)] as a truth value: [re.match]
    anchors at the start, so the leading [^] of the patterns adds nothing. *)
Definition re_match (pattern : regex) (data : string) : bool :=
  match residuals pattern data with
  | [] => false
  | _ :: _ => true
  end.

Fixpoint alternatives (first : string) (others : list string) : regex :=
  match others with
  | [] => Lit first
  | o :: os => Alt (Lit first) (alternatives o os)
  end.

(** [r'^data:(image|video)/(jpeg|jpg|png|gif|webp|bmp|mp4|avi|mov|webm);base64,']
    of [_validate_input], video branch *)
Definition validate_pattern_video : regex :=
  Cat (Lit "data:")
   (Cat (alternatives "image" ["video"])
    (Cat (Lit "/")
     (Cat (alternatives "jpeg"
             ["jpg"; "png"; "gif"; "webp"; "bmp"; "mp4"; "avi"; "mov"; "webm"])
          (Lit ";base64,")))).

(** [r'^data:image/(jpeg|jpg|png|gif|webp|bmp);base64,'] of
    [_validate_input], image branch *)
Definition validate_pattern_image : regex :=
  Cat (Lit "data:image/")
   (Cat (alternatives "jpeg" ["jpg"; "png"; "gif"; "webp"; "bmp"])
        (Lit ";base64,")).

(** [r'^data:(image|video)/(jpeg|jpg|png|gif|webp|bmp|mp4|avi|mov);base64,']
    of [_normalize_base64] *)
Definition normalize_pattern : regex :=
  Cat (Lit "data:")
   (Cat (alternatives "image" ["video"])
    (Cat (Lit "/")
     (Cat (alternatives "jpeg"
             ["jpg"; "png"; "gif"; "webp"; "bmp"; "mp4"; "avi"; "mov"])
          (Lit ";base64,")))).

(** ** [base64.b64decode]

    The standard library's decoder in its default, non-strict mode, after
    CPython's [binascii.a2b_base64]: a [str] argument must be ASCII,
    characters outside the alphabet are skipped, a pad sequence that
    completes a quad ends the input, and leftover sextets are an error. *)

Definition table_a2b_base64 (c : ascii) : option N :=
  let n := N_of_ascii c in
  if ((65 <=? n) && (n <=? 90))%N then Some (n - 65)%N
  else if ((97 <=? n) && (n <=? 122))%N then Some (n - 71)%N
  else if ((48 <=? n) && (n <=? 57))%N then Some (n + 4)%N
  else if (n =? 43)%N then Some 62%N
  else if (n =? 47)%N then Some 63%N
  else None.

Definition byte_of_N (n : N) : byte := byte_of_ascii (ascii_of_N n).

Fixpoint a2b_base64 (s : string) (quad_pos : nat) (leftchar : N) (pads : nat)
    (bin_data : list byte) : outcome (list byte) :=
  match s with
  | EmptyString =>
      match quad_pos with
      | 0 => Return (rev bin_data)
      | 1 => Raise (Error "binascii.Error"
               "Invalid base64-encoded string: number of data characters cannot be 1 more than a multiple of 4")
      | _ => Raise (Error "binascii.Error" "Incorrect padding")
      end
  | String c rest =>
      if Ascii.eqb c "=" then
        if ((2 <=? quad_pos) && (4 <=? quad_pos + S pads))%nat
        then Return (rev bin_data)
        else a2b_base64 rest quad_pos leftchar
               (if (2 <=? quad_pos)%nat then S pads else pads) bin_data
      else
        match table_a2b_base64 c with
        | None => a2b_base64 rest quad_pos leftchar pads bin_data
        | Some this_ch =>
            match quad_pos with
            | 0 => a2b_base64 rest 1 this_ch 0 bin_data
            | 1 => a2b_base64 rest 2 (N.land this_ch 15) 0
                     (byte_of_N (N.lor (N.shiftl leftchar 2) (N.shiftr this_ch 4))
                      :: bin_data)
            | 2 => a2b_base64 rest 3 (N.land this_ch 3) 0
                     (byte_of_N (N.lor (N.shiftl leftchar 4) (N.shiftr this_ch 2))
                      :: bin_data)
            | _ => a2b_base64 rest 0 0 0
                     (byte_of_N (N.lor (N.shiftl leftchar 6) this_ch) :: bin_data)
            end
        end
  end.

Fixpoint is_ascii_str (s : string) : bool :=
  match s with
  | EmptyString => true
  | String c rest => (N_of_ascii c <? 128)%N && is_ascii_str rest
  end.

Definition b64decode (data : string) : outcome (list byte) :=
  if is_ascii_str data then a2b_base64 data 0 0 0 []
  else Raise (Error "ValueError"
                "string argument should contain only ASCII characters").

(** ** [FaceSwapGateway._validate_input] and [_normalize_base64] *)

Definition _validate_input (data : string) (media_type : FaceSwapMediaType)
    : bool * option string :=
  if startswith data "http://" || startswith data "https://" then (true, None)
  else
    let data_uri_pattern :=
      match media_type with
      | VIDEO => validate_pattern_video
      | IMAGE => validate_pattern_image
      end in
    if re_match data_uri_pattern data then (true, None)
    else
      match b64decode data with
      | Return _ => (true, None)
      | Raise _ =>
          let media_name :=
            match media_type with VIDEO => "video" | IMAGE => "image" end in
          (false,
           Some ("Invalid input: must be URL or base64 encoded " +:+ media_name))
      end.

Definition format_map : gmap string string :=
  {[ "JPEG" := "jpeg"; "PNG" := "png"; "GIF" := "gif"; "WEBP" := "webp";
     "BMP" := "bmp" ]}.

(** [x or d] on an optional string: [None] and the empty string are falsy. *)
Definition str_or (x : option string) (d : string) : string :=
  match x with
  | Some s => if String.eqb s "" then d else s
  | None => d
  end.

Section Normalize.

(** [Image.open(io.BytesIO(img_bytes))] of Pillow, then [img.format]: the
    call raises on bytes it cannot identify, and the format of an opened
    image is a name such as ["PNG"] or [None]. *)
Variable Image_open : list byte → outcome (option string).

Definition _normalize_base64 (data : string) : string :=
  if startswith data "http://" || startswith data "https://" then data
  else if re_match normalize_pattern data then data
  else
    let tagged : outcome string :=
      img_bytes ← b64decode data;
      img_format_attr ← Image_open img_bytes;
      let img_format :=
        default "jpeg" (format_map !! str_or img_format_attr "JPEG") in
      mret ("data:image/" +:+ img_format +:+ ";base64," +:+ data) in
    match tagged with
    | Return uri => uri
    | Raise _ => "data:image/jpeg;base64," +:+ data
    end.

End Normalize.

(** ** Providers, observable events and the monad of effects *)

(** The keyword arguments of one [provider.swap_face(...)] call. *)
Record call_args := CallArgs {
  arg_target : string;
  arg_source : string;
  arg_media_type : FaceSwapMediaType;
  arg_webhook_url : option string;
  arg_kwargs : gmap string pyval
}.

(** [class FaceSwapProvider(ABC)]: [swap_face] acts on the world and either
    returns a result dictionary or raises. *)
Record FaceSwapProvider (World : Type) := Provider {
  swap_face : call_args → World → outcome (gmap string pyval) * World;
  get_name : string;
  get_timeout : Z;
  (** [isinstance(provider, PiAPIProvider)] *)
  is_PiAPIProvider : bool
}.
Arguments Provider {World}.
Arguments swap_face {World}.
Arguments get_name {World}.
Arguments get_timeout {World}.
Arguments is_PiAPIProvider {World}.

(** A computation reads and updates the world, returns or raises, and emits
    the events it performed, in order. *)
Definition M (World Ev A : Type) : Type := World → outcome A * World * list Ev.

Section Monad.
Context {World Ev : Type}.

Definition ret {A} (a : A) : M World Ev A := λ w, (Return a, w, []).

Definition bind {A B} (m : M World Ev A) (f : A → M World Ev B)
    : M World Ev B :=
  λ w, match m w with
       | (Return a, w1, tr1) =>
           let '(o, w2, tr2) := f a w1 in (o, w2, tr1 ++ tr2)
       | (Raise e, w1, tr1) => (Raise e, w1, tr1)
       end.

(** [try: body / except Exception as e: handler e] *)
Definition try_except {A} (body : M World Ev A) (handler : exn → M World Ev A)
    : M World Ev A :=
  λ w, match body w with
       | (Return a, w1, tr1) => (Return a, w1, tr1)
       | (Raise e, w1, tr1) =>
           let '(o, w2, tr2) := handler e w1 in (o, w2, tr1 ++ tr2)
       end.

(** A pure step that may raise. *)
Definition lift {A} (o : outcome A) : M World Ev A := λ w, (o, w, []).
End Monad.

#[export] Instance M_ret {World Ev} : MRet (M World Ev) := @ret World Ev.
#[export] Instance M_bind {World Ev} : MBind (M World Ev) :=
  λ A B f m, bind m f.

(** ** The outside the adapters talk to *)

(** What [replicate.run] gives back: nothing, a URL string, a list (items by
    their [str()]), or a [FileOutput] object with a [url] attribute. *)
Inductive replicate_output :=
| OutNone
| OutStr (s : string)
| OutList (items : list string)
| OutFile (url : string).

Inductive net_event :=
| ReplicateRun (model : string) (input : gmap string pyval)
| HttpPost (url : string) (json : pyval) (headers : gmap string string)
| HttpGet (url : string) (headers : gmap string string)
| Slept (seconds : Z).

(** The network as the adapters see it: the wall clock in whole seconds, and
    for each kind of outbound call the replies still to come, each with the
    time it takes.  A reply of an HTTP call is the decoded JSON body, or the
    exception [requests] raised (connection error, timeout,
    [raise_for_status]).  [net_log] keeps what was sent, in order. *)
Record Net := MkNet {
  clock : Z;
  replicate_replies : list (N * outcome replicate_output);
  post_replies : list (N * outcome pyval);
  get_replies : list (N * outcome pyval);
  net_log : list net_event
}.

Definition unreachable : exn := Error "ConnectionError" "no reply".

(** [await asyncio.wait_for(loop.run_in_executor(None, _run), timeout)] with
    [_run] calling [replicate.run(model, input=input)]. *)
Definition replicate_run (model : string) (input : gmap string pyval)
    (timeout : Z) : M Net net_event replicate_output :=
  λ w, match replicate_replies w with
       | [] => (Raise unreachable, w, [ReplicateRun model input])
       | (took, reply) :: rest =>
           if (timeout <? Z.of_N took)%Z
           then (Raise TimeoutError,
                 MkNet (clock w + timeout) rest (post_replies w) (get_replies w)
                   (net_log w),
                 [ReplicateRun model input])
           else (reply,
                 MkNet (clock w + Z.of_N took) rest (post_replies w)
                   (get_replies w) (net_log w),
                 [ReplicateRun model input])
       end.

(** [requests.post(url, json=..., headers=..., timeout=30)], then
    [raise_for_status()] and [resp.json()]. *)
Definition requests_post (url : string) (json : pyval)
    (headers : gmap string string) : M Net net_event pyval :=
  λ w, match post_replies w with
       | [] => (Raise unreachable, w, [HttpPost url json headers])
       | (took, reply) :: rest =>
           (reply,
            MkNet (clock w + Z.of_N took) (replicate_replies w) rest
              (get_replies w) (net_log w),
            [HttpPost url json headers])
       end.

(** [requests.get(url, headers=..., timeout=30)], then [raise_for_status()]
    and [resp.json()]. *)
Definition requests_get (url : string) (headers : gmap string string)
    : M Net net_event pyval :=
  λ w, match get_replies w with
       | [] => (Raise unreachable, w, [HttpGet url headers])
       | (took, reply) :: rest =>
           (reply,
            MkNet (clock w + Z.of_N took) (replicate_replies w)
              (post_replies w) rest (net_log w),
            [HttpGet url headers])
       end.

(** [time.time()] *)
Definition time_time : M Net net_event Z := λ w, (Return (clock w), w, []).

(** [await asyncio.sleep(seconds)] inside an adapter *)
Definition net_sleep (seconds : Z) : M Net net_event unit :=
  λ w, (Return tt,
        MkNet (clock w + Z.max 0 seconds) (replicate_replies w) (post_replies w)
          (get_replies w) (net_log w),
        [Slept seconds]).

(** Running an adapter as a provider of the chain: what it sent is appended
    to the log of the network. *)
Definition run_adapter (m : M Net net_event (gmap string pyval))
    : Net → outcome (gmap string pyval) * Net :=
  λ w, let '(o, w', evs) := m w in
       (o, MkNet (clock w') (replicate_replies w') (post_replies w')
             (get_replies w') (net_log w' ++ evs)).

(** [await asyncio.sleep(seconds)] in the gateway, over the same network. *)
Definition asyncio_sleep_net (seconds : Z) (w : Net) : Net :=
  MkNet (clock w + Z.max 0 seconds) (replicate_replies w) (post_replies w)
    (get_replies w) (net_log w ++ [Slept seconds]).

(** [if output:] *)
Definition output_truthy (output : replicate_output) : bool :=
  match output with
  | OutNone => false
  | OutStr s => negb (String.eqb s "")
  | OutList items => match items with [] => false | _ :: _ => true end
  | OutFile _ => true
  end.

(** The [result_url] both Replicate-backed adapters take from an output:
    the first item of a non-empty list, else the [url] attribute, else
    [str(output)]. *)
Definition output_url (output : replicate_output) : string :=
  match output with
  | OutList (first :: _) => first
  | OutFile url => url
  | OutStr s => s
  | OutList [] => "[]"
  | OutNone => "None"
  end.

(** ** [class NanoBananaProvider] *)

Module NanoBananaProvider.

Definition MODEL_NAME : string := "google/nano-banana".
Definition TIMEOUT : Z := 60.

Definition get_name : string := "Nano-Banana".
Definition get_timeout : Z := TIMEOUT.

Definition prompt : string :=
  "Swap the face from the second image onto the person in the first image. "
  +:+ "Maintain the original pose, lighting, background, and body of the first image. "
  +:+ "Keep facial features, skin tone, and expression from the second image's face. "
  +:+ "Make the result look natural and seamless.".

Definition swap_face (target source : string) (media_type : FaceSwapMediaType)
    : M Net net_event (gmap string pyval) :=
  match media_type with
  | VIDEO =>
      ret {[ "success" := PyBool false;
             "error" := PyStr "Nano-Banana does not support video face swap";
             "provider" := PyStr get_name ]}
  | IMAGE =>
      try_except
        (let params : gmap string pyval :=
           {[ "prompt" := PyStr prompt;
              "image_input" := PyList [PyStr target; PyStr source];
              "aspect_ratio" := PyStr "match_input_image";
              "output_format" := PyStr "jpg" ]} in
         output ← replicate_run MODEL_NAME params TIMEOUT;
         if output_truthy output then
           let result_url := output_url output in
           ret {[ "success" := PyBool true;
                  "result_url" := PyStr result_url;
                  "message" :=
                    PyStr "Face swap completed via Nano-Banana (Gemini 2.5 Flash Image)";
                  "provider" := PyStr get_name;
                  "model" := PyStr MODEL_NAME;
                  "watermark" := PyStr "SynthID (invisible)" ]}
         else
           ret {[ "success" := PyBool false;
                  "error" := PyStr "No output from Nano-Banana";
                  "provider" := PyStr get_name ]})
        (λ e,
           match e with
           | TimeoutError =>
               ret {[ "success" := PyBool false;
                      "error" :=
                        PyStr ("Nano-Banana timeout (" +:+ pretty TIMEOUT +:+ "s)");
                      "provider" := PyStr get_name ]}
           | _ =>
               ret {[ "success" := PyBool false;
                      "error" := PyStr (str_exn e);
                      "provider" := PyStr get_name ]}
           end)
  end.

(** [NanoBananaProvider(api_token)] as a member of the chain. *)
Definition provider : FaceSwapProvider Net :=
  Provider
    (λ args, run_adapter
               (swap_face (arg_target args) (arg_source args)
                  (arg_media_type args)))
    get_name get_timeout false.

End NanoBananaProvider.

(** ** [class ReplicateProvider] *)

Module ReplicateProvider.

Record model_config := ModelConfig {
  name : string;
  version : option string;
  params : gmap string pyval;
  timeout : Z;
  priority : Z
}.

(** [MODELS], in the order the dictionary lists them. *)
Definition MODELS : list (string * model_config) :=
  [ ("easel",
     {| name := "easel/advanced-face-swap";
        version := None;
        params := {[ "target_image" := PyNone; "swap_image" := PyNone;
                     "hair_source" := PyStr "target" ]};
        timeout := 90;
        priority := 1 |});
    ("omniedge",
     {| name := "omniedgeio/face-swap";
        version := None;
        params := {[ "input_image" := PyNone; "target_image" := PyNone;
                     "swap_image" := PyNone ]};
        timeout := 60;
        priority := 2 |}) ].

Definition get_name : string := "Replicate".

(** [max(model["timeout"] for model in self.MODELS.values())] *)
Definition get_timeout : Z :=
  match MODELS with
  | [] => 0
  | (_, m) :: rest => foldr (λ km acc, Z.max (timeout km.2) acc) (timeout m) rest
  end.

Definition by_priority (a b : string * model_config) : Prop :=
  (priority a.2 ≤ priority b.2)%Z.

#[local] Instance by_priority_dec a b : Decision (by_priority a b).
Proof. unfold by_priority. apply _. Defined.

(** [sorted(self.MODELS.items(), key=lambda x: x[1]["priority"])] *)
Definition sorted_models : list (string * model_config) :=
  merge_sort by_priority MODELS.

(** [if key in params: params[key] = value] *)
Definition set_if_present (key : string) (value : pyval)
    (ps : gmap string pyval) : gmap string pyval :=
  match ps !! key with
  | Some _ => <[key := value]> ps
  | None => ps
  end.

Definition is_none (v : pyval) : bool :=
  match v with
  | PyNone => true
  | _ => false
  end.

Definition prepare_params (config : model_config) (target source : string)
    : gmap string pyval :=
  let ps := params config in
  let ps := set_if_present "target_image" (PyStr target) ps in
  let ps := set_if_present "input_image" (PyStr target) ps in
  let ps := set_if_present "swap_image" (PyStr source) ps in
  filter (λ kv, is_none kv.2 = false) ps.

Definition all_models_failed : gmap string pyval :=
  {[ "success" := PyBool false;
     "error" := PyStr "All Replicate models failed or timed out";
     "provider" := PyStr get_name ]}.

(** The loop over the models: a model that times out, raises or returns
    no output is skipped ([continue]). *)
Fixpoint try_models (models : list (string * model_config))
    (target source : string) : M Net net_event (gmap string pyval) :=
  match models with
  | [] => ret all_models_failed
  | (model_key, config) :: rest =>
      r ← try_except
            (let last_model_name := name config in
             let last_timeout := timeout config in
             let ps := prepare_params config target source in
             output ← replicate_run last_model_name ps last_timeout;
             if output_truthy output then
               let result_url := output_url output in
               ret (Some
                 ({[ "success" := PyBool true;
                     "result_url" := PyStr result_url;
                     "message" :=
                       PyStr ("Face swap completed via " +:+ last_model_name);
                     "provider" := PyStr get_name;
                     "model" := PyStr last_model_name ]}
                  : gmap string pyval))
             else ret None)
            (λ e, ret None);
      match r with
      | Some result => ret result
      | None => try_models rest target source
      end
  end.

Definition swap_face (target source : string) (media_type : FaceSwapMediaType)
    : M Net net_event (gmap string pyval) :=
  match media_type with
  | VIDEO =>
      ret {[ "success" := PyBool false;
             "error" :=
               PyStr "Replicate provider does not support video face swap";
             "provider" := PyStr get_name ]}
  | IMAGE => try_models sorted_models target source
  end.

(** [ReplicateProvider(api_token)] as a member of the chain. *)
Definition provider : FaceSwapProvider Net :=
  Provider
    (λ args, run_adapter
               (swap_face (arg_target args) (arg_source args)
                  (arg_media_type args)))
    get_name get_timeout false.

End ReplicateProvider.

(** ** Reading JSON bodies *)

(** [v[key]] with a string key: [KeyError] on a dictionary without the key,
    [TypeError] on anything that is not a dictionary. *)
Definition subscript (v : pyval) (key : string) : outcome pyval :=
  match v with
  | PyDict d =>
      match d !! key with
      | Some x => Return x
      | None => Raise (Error "KeyError" key)
      end
  | _ => Raise (Error "TypeError" "indices must be integers")
  end.

(** [v.get(key, dflt)]: [AttributeError] when [v] is not a dictionary. *)
Definition method_get (v : pyval) (key : string) (dflt : pyval)
    : outcome pyval :=
  match v with
  | PyDict d => Return (default dflt (d !! key))
  | _ => Raise (Error "AttributeError" "object has no attribute 'get'")
  end.

(** [v == n] for an integer literal [n]; [True] and [False] compare as 1
    and 0. *)
Definition py_eq_int (v : pyval) (n : Z) : bool :=
  match v with
  | PyInt m => (m =? n)%Z
  | PyBool b => ((if b then 1 else 0) =? n)%Z
  | _ => false
  end.

(** [v == s] for a string literal [s] *)
Definition py_eq_str (v : pyval) (s : string) : bool :=
  match v with
  | PyStr t => String.eqb t s
  | _ => false
  end.

(** [if webhook_url:] *)
Definition webhook_given (webhook_url : option string) : bool :=
  match webhook_url with
  | Some url => negb (String.eqb url "")
  | None => false
  end.

(** ** [class PiAPIProvider] *)

(** A value together with the proof that it is what the expression
    evaluates to, for the termination argument of the polling loop. *)
Definition inspect {A} (a : A) : {b : A | a = b} := exist _ a eq_refl.

Module PiAPIProvider.

Definition BASE_URL : string := "https://api.piapi.ai/api/v1".

Record model_config := ModelConfig {
  model : string;
  task_type : string;
  timeout : Z
}.

Definition MODELS : gmap string model_config :=
  {[ "image" := {| model := "Qubico/image-toolkit";
                   task_type := "face-swap";
                   timeout := 60 |};
     "video" := {| model := "Qubico/video-toolkit";
                   task_type := "face-swap";
                   timeout := 120 |} ]}.

Definition get_name : string := "PiAPI".
Definition get_timeout : Z := 120.

Section Adapter.
(** [str(v)], as the f-strings apply it to JSON values *)
Variable py_str : pyval → string.
(** [hashlib.sha256(s.encode()).hexdigest()] *)
Variable sha256_hexdigest : string → string.
(** [self.api_key] *)
Variable api_key : string.

Definition headers : gmap string string :=
  {[ "x-api-key" := api_key; "Content-Type" := "application/json" ]}.

Definition unsupported (media_type : FaceSwapMediaType)
    : gmap string pyval :=
  {[ "success" := PyBool false;
     "error" := PyStr ("Unsupported media type: " +:+ media_value media_type);
     "provider" := PyStr get_name ]}.

Definition base_payload (config : model_config) (target source : string)
    (media_type : FaceSwapMediaType) : gmap string pyval :=
  let target_key :=
    match media_type with
    | IMAGE => "target_image"
    | VIDEO => "target_video"
    end in
  {[ "model" := PyStr (model config);
     "task_type" := PyStr (task_type config);
     "input" := PyDict {[ target_key := PyStr target;
                          "swap_image" := PyStr source ]} ]}.

(** [payload["config"] = {"webhook_config": {...}}]; [now] is the
    reading of [time.time()] that goes into the secret. *)
Definition webhook_config (webhook_url : string) (now : Z) : pyval :=
  PyDict {[ "webhook_config" :=
    PyDict {[ "endpoint" := PyStr webhook_url;
              "secret" :=
                PyStr (substring 0 32
                         (sha256_hexdigest (api_key +:+ py_str (PyInt now)))) ]} ]}.

Definition create_failed (create_response : pyval) : gmap string pyval :=
  {[ "success" := PyBool false;
     "error" := PyStr ("Failed to create task: " +:+ py_str create_response);
     "provider" := PyStr get_name ]}.

Definition task_pending (task_id : pyval) : gmap string pyval :=
  {[ "success" := PyBool true;
     "task_id" := task_id;
     "status" := PyStr "pending";
     "message" :=
       PyStr "Task created, webhook will be called when complete";
     "provider" := PyStr get_name;
     "async" := PyBool true ]}.

Definition task_completed (media_type : FaceSwapMediaType)
    (result_url task_id : pyval) : gmap string pyval :=
  {[ "success" := PyBool true;
     "result_url" := result_url;
     "message" :=
       PyStr ("Face swap completed via PiAPI (" +:+ media_value media_type +:+ ")");
     "provider" := PyStr get_name;
     "task_id" := task_id ]}.

Definition task_failed (error task_id : pyval) : gmap string pyval :=
  {[ "success" := PyBool false;
     "error" := PyStr ("Task failed: " +:+ py_str error);
     "provider" := PyStr get_name;
     "task_id" := task_id ]}.

Definition task_timeout (timeout : Z) (task_id : pyval)
    : gmap string pyval :=
  {[ "success" := PyBool false;
     "error" := PyStr ("Task timeout after " +:+ pretty timeout +:+ "s");
     "provider" := PyStr get_name;
     "task_id" := task_id ]}.

Definition errored (e : exn) : gmap string pyval :=
  {[ "success" := PyBool false;
     "error" := PyStr (str_exn e);
     "provider" := PyStr get_name ]}.

Section Poll.
Variable media_type : FaceSwapMediaType.
Variable task_id : pyval.
Variable timeout start_time : Z.

(** One pass through the body of [while time.time() - start_time <
    timeout]: [Some result] when the function returns from it, [None]
    when it slept and goes round again. *)
Definition poll_body : M Net net_event (option (gmap string pyval)) :=
  result ← requests_get (BASE_URL +:+ "/task/" +:+ py_str task_id) headers;
  data ← lift (subscript result "data");
  status ← lift (subscript data "status");
  if py_eq_str status "completed" then
    let output_key :=
      match media_type with
      | IMAGE => "image_url"
      | VIDEO => "video_url"
      end in
    output ← lift (subscript data "output");
    result_url ← lift (method_get output output_key PyNone);
    ret (Some (task_completed media_type result_url task_id))
  else if py_eq_str status "failed" then
    error ← lift (method_get data "error" (PyStr "Unknown error"));
    ret (Some (task_failed error task_id))
  else
    net_sleep 3;;
    ret None.

Equations? poll (w : Net)
    : outcome (gmap string pyval) * Net * list net_event
    by wf (Z.to_nat (start_time + timeout - clock w)) lt :=
  poll w with inspect (clock w - start_time <? timeout)%Z := {
    | exist _ false _ => (Return (task_timeout timeout task_id), w, []);
    | exist _ true _ with inspect (poll_body w) := {
        | exist _ (Return (Some result), w1, tr1) _ =>
            (Return result, w1, tr1);
        | exist _ (Raise e, w1, tr1) _ => (Raise e, w1, tr1);
        | exist _ (Return None, w1, tr1) _ =>
            let '(o, w2, tr2) := poll w1 in (o, w2, tr1 ++ tr2) } }.
Proof.
  assert (clock w + 3 ≤ clock w1)%Z; [|lia].
  revert e0. unfold poll_body, requests_get, lift, net_sleep.
  unfold mbind, M_bind, bind, mret, M_ret, ret.
  destruct (get_replies w) as [|[took reply] rest]; [done|].
  destruct reply as [result|]; [|done].
  destruct (subscript result "data") as [data|]; [|done].
  destruct (subscript data "status") as [status|]; [|done].
  destruct (py_eq_str status "completed").
  { destruct (subscript data "output") as [output|]; [|done].
    by destruct (method_get output _ PyNone). }
  destruct (py_eq_str status "failed").
  { by destruct (method_get data "error" _). }
  intros [= <- <-]. simpl. lia.
Qed.
End Poll.

(** The body of the [try] in [swap_face]. *)
Definition create_and_wait (config : model_config) (target source : string)
    (media_type : FaceSwapMediaType) (webhook_url : option string)
    : M Net net_event (gmap string pyval) :=
  payload ←
    match webhook_url with
    | Some url =>
        if webhook_given webhook_url then
          now ← time_time;
          ret (<["config" := webhook_config url now]>
                 (base_payload config target source media_type))
        else ret (base_payload config target source media_type)
    | None => ret (base_payload config target source media_type)
    end;
  create_response ← requests_post (BASE_URL +:+ "/task") (PyDict payload) headers;
  code ← lift (method_get create_response "code" PyNone);
  if negb (py_eq_int code 200) then ret (create_failed create_response)
  else
    data ← lift (subscript create_response "data");
    task_id ← lift (subscript data "task_id");
    if webhook_given webhook_url then ret (task_pending task_id)
    else
      start_time ← time_time;
      poll media_type task_id (timeout config) start_time.

Definition swap_face (target source : string)
    (media_type : FaceSwapMediaType) (webhook_url : option string)
    : M Net net_event (gmap string pyval) :=
  match MODELS !! media_value media_type with
  | None => ret (unsupported media_type)
  | Some config =>
      try_except
        (create_and_wait config target source media_type webhook_url)
        (λ e, ret (errored e))
  end.

(** [PiAPIProvider(api_key)] as a member of the chain. *)
Definition provider : FaceSwapProvider Net :=
  Provider
    (λ args, run_adapter
               (swap_face (arg_target args) (arg_source args)
                  (arg_media_type args) (arg_webhook_url args)))
    get_name get_timeout true.

End Adapter.

End PiAPIProvider.

(** ** [class FaceSwapGateway] *)

(** What an attempt of the orchestrator does to the outside, in order: the
    backoff delays it awaits and the provider calls it makes.  A call is
    recorded with the position of the provider in the chain, the attempt
    number, the arguments passed and what came back. *)
Inductive event :=
| Sleep (seconds : Z)
| Call (provider : nat) (attempt : Z) (args : call_args)
       (result : outcome (gmap string pyval)).

Definition is_call (ev : event) : bool :=
  match ev with
  | Call _ _ _ _ => true
  | Sleep _ => false
  end.

Definition is_call_to (i : nat) (ev : event) : bool :=
  match ev with
  | Call j _ _ _ => bool_decide (i = j)
  | Sleep _ => false
  end.

(** Number of attempts made against the provider at position [i]. *)
Definition calls_to (i : nat) (tr : list event) : nat :=
  List.length (filter (λ ev, is_call_to i ev = true) tr).

Definition total_calls (tr : list event) : nat :=
  List.length (filter (λ ev, is_call ev = true) tr).

(** [range(n)] *)
Definition range (n : Z) : list Z := Z.of_nat <$> seq 0 (Z.to_nat n).

Definition opt_str (o : option string) : pyval :=
  match o with
  | Some s => PyStr s
  | None => PyNone
  end.

(** How one pass through the body of the retry loop ends. *)
Inductive control :=
| Returned (result : gmap string pyval)
| Broke
| Continued.

Module FaceSwapGateway.
Section Gateway.
Context {World : Type}.
(** [await asyncio.sleep(seconds)] *)
Variable asyncio_sleep : Z → World → World.
Variable Image_open : list byte → outcome (option string).

Definition sleep (seconds : Z) : M World event unit :=
λ w, (Return tt, asyncio_sleep seconds w, [Sleep seconds]).

Definition invoke (provider : FaceSwapProvider World) (i : nat) (attempt : Z)
  (args : call_args) : M World event (gmap string pyval) :=
λ w, let '(o, w') := swap_face provider args w in
     (o, w', [Call i attempt args o]).

(** The arguments of [provider.swap_face(target=..., source=...,
  media_type=..., webhook_url=webhook_url if isinstance(provider,
  PiAPIProvider) else None, **kwargs)]. *)
Definition args_for (provider : FaceSwapProvider World) (target source : string)
  (media_type : FaceSwapMediaType) (webhook_url : option string)
  (kwargs : gmap string pyval) : call_args :=
{| arg_target := target;
   arg_source := source;
   arg_media_type := media_type;
   arg_webhook_url :=
     if is_PiAPIProvider provider then webhook_url else None;
   arg_kwargs := kwargs |}.

(** The body of [for attempt in range(retry_count + 1)]. *)
Definition attempt_body (provider : FaceSwapProvider World) (i : nat)
  (args : call_args) (attempt : Z) : M World event control :=
try_except
  ((if (0 <? attempt)%Z then sleep (2 ^ attempt) else ret tt);;
   result ← invoke provider i attempt args;
   if truthy (dict_get result "success") then ret (Returned result)
   else ret Broke)
  (λ e, ret Continued).

(** The inner loop: [Some result] when the function returned from inside
  it, [None] when it was left by [break] or ran out of attempts. *)
Fixpoint retry_loop (provider : FaceSwapProvider World) (i : nat)
  (args : call_args) (attempts : list Z)
  : M World event (option (gmap string pyval)) :=
match attempts with
| [] => ret None
| attempt :: rest =>
    c ← attempt_body provider i args attempt;
    match c with
    | Returned result => ret (Some result)
    | Broke => ret None
    | Continued => retry_loop provider i args rest
    end
end.

(** The outer loop, [for provider in self.providers], from position [i]. *)
Fixpoint provider_loop (providers : list (FaceSwapProvider World)) (i : nat)
  (target source : string) (media_type : FaceSwapMediaType)
  (retry_count : Z) (webhook_url : option string)
  (kwargs : gmap string pyval) : M World event (option (gmap string pyval)) :=
match providers with
| [] => ret None
| provider :: rest =>
    r ← retry_loop provider i
          (args_for provider target source media_type webhook_url kwargs)
          (range (retry_count + 1));
    match r with
    | Some result => ret (Some result)
    | None =>
        provider_loop rest (S i) target source media_type retry_count
          webhook_url kwargs
    end
end.

Definition validation_failed (error : option string) : gmap string pyval :=
{[ "success" := PyBool false; "error" := opt_str error ]}.

Definition no_providers : gmap string pyval :=
{[ "success" := PyBool false;
   "error" := PyStr "No face swap providers configured (missing API keys)" ]}.

Definition all_providers_failed : gmap string pyval :=
{[ "success" := PyBool false;
   "error" := PyStr "All face swap providers failed after retries";
   "error_code" := PyStr "ALL_PROVIDERS_FAILED" ]}.

(** [FaceSwapGateway.swap_face]; [providers] is [self.providers]. *)
Definition swap_face (providers : list (FaceSwapProvider World))
  (target source : string) (media_type : FaceSwapMediaType)
  (retry_count : Z) (webhook_url : option string)
  (kwargs : gmap string pyval) : M World event (gmap string pyval) :=
let '(target_valid, target_error) := _validate_input target media_type in
if negb target_valid then ret (validation_failed target_error)
else
  let '(source_valid, source_error) := _validate_input source IMAGE in
  if negb source_valid then ret (validation_failed source_error)
  else
    let target := _normalize_base64 Image_open target in
    let source := _normalize_base64 Image_open source in
    match providers with
    | [] => ret no_providers
    | _ :: _ =>
        r ← provider_loop providers 0 target source media_type retry_count
              webhook_url kwargs;
        match r with
        | Some result => ret result
        | None => ret all_providers_failed
        end
    end.

End Gateway.

(** [os.environ.get(...)] as a truth value: set and not empty. *)
Definition configured (value : option string) : bool :=
  match value with
  | Some s => negb (String.eqb s "")
  | None => false
  end.

(** [__init__]: the chain [self.providers], built from the two
    credentials of the environment. *)
Definition __init__ (py_str : pyval → string)
    (sha256_hexdigest : string → string)
    (replicate_token piapi_key : option string)
    : list (FaceSwapProvider Net) :=
  (if configured replicate_token then [NanoBananaProvider.provider] else [])
  ++ (if configured piapi_key
      then [PiAPIProvider.provider py_str sha256_hexdigest
              (default "" piapi_key)]
      else [])
  ++ (if configured replicate_token then [ReplicateProvider.provider] else []).

End FaceSwapGateway.

(** ** The shape of a run of the two loops

    The relations below describe, attempt by attempt, what the retry loop
    and the loop over the chain do; the functions are shown further down to
    follow them, and the properties of traces are then proved by induction
    on the relations. *)

Section Runs.
Context {World : Type}.
Variable asyncio_sleep : Z → World → World.

(** The delay before attempt [n]: none for the first attempt. *)
Definition backoff (n : Z) : list event :=
  if (0 <? n)%Z then [Sleep (2 ^ n)] else [].

Definition after_backoff (n : Z) (w : World) : World :=
  if (0 <? n)%Z then asyncio_sleep (2 ^ n) w else w.

Inductive retry_run (p : FaceSwapProvider World) (i : nat) (args : call_args)
  : list Z → World → option (gmap string pyval) → World → list event → Prop :=
| retry_exhausted w :
    retry_run p i args [] w None w []
| retry_raised n rest w e w1 r w2 tr :
    swap_face p args (after_backoff n w) = (Raise e, w1) →
    retry_run p i args rest w1 r w2 tr →
    retry_run p i args (n :: rest) w r w2
      (backoff n ++ Call i n args (Raise e) :: tr)
| retry_failed n rest w d w1 :
    swap_face p args (after_backoff n w) = (Return d, w1) →
    truthy (dict_get d "success") = false →
    retry_run p i args (n :: rest) w None w1
      (backoff n ++ [Call i n args (Return d)])
| retry_succeeded n rest w d w1 :
    swap_face p args (after_backoff n w) = (Return d, w1) →
    truthy (dict_get d "success") = true →
    retry_run p i args (n :: rest) w (Some d) w1
      (backoff n ++ [Call i n args (Return d)]).

Section Chain.
Variables (target source : string) (media_type : FaceSwapMediaType).
Variables (retry_count : Z) (webhook_url : option string).
Variable kwargs : gmap string pyval.

Inductive chain_run
  : nat → list (FaceSwapProvider World) → World →
    option (gmap string pyval) → World → list event → Prop :=
| chain_end i w :
    chain_run i [] w None w []
| chain_stop i p ps w d w1 tr :
    retry_run p i
      (FaceSwapGateway.args_for p target source media_type webhook_url kwargs)
      (range (retry_count + 1)) w (Some d) w1 tr →
    chain_run i (p :: ps) w (Some d) w1 tr
| chain_next i p ps w w1 tr1 r w2 tr2 :
    retry_run p i
      (FaceSwapGateway.args_for p target source media_type webhook_url kwargs)
      (range (retry_count + 1)) w None w1 tr1 →
    chain_run (S i) ps w1 r w2 tr2 →
    chain_run i (p :: ps) w r w2 (tr1 ++ tr2).
End Chain.
End Runs.

(** A provider that raises whatever it is called with. *)
Definition always_raises {World} (p : FaceSwapProvider World) : Prop :=
  ∀ args w, ∃ e, (swap_face p args w).1 = Raise e.

(** An input the gateway accepts. *)
Definition valid (data : string) (media_type : FaceSwapMediaType) : Prop :=
  (_validate_input data media_type).1 = true.

(** A stand-in for Pillow in examples: the format is read off the leading
    magic number, and bytes with none of them are not identified. *)
Definition sniff_magic (img_bytes : list byte) : outcome (option string) :=
  match img_bytes with
  | xff :: xd8 :: xff :: _ => Return (Some "JPEG")
  | x89 :: x50 :: x4e :: x47 :: _ => Return (Some "PNG")
  | x47 :: x49 :: x46 :: x38 :: _ => Return (Some "GIF")
  | x42 :: x4d :: _ => Return (Some "BMP")
  | x49 :: x49 :: x2a :: x00 :: _ => Return (Some "TIFF")
  | _ => Raise (Error "UnidentifiedImageError" "cannot identify image file")
  end.

(** ** Statements and examples the properties refer to *)

(** A network in which Replicate answers the first run with a URL. *)
Definition replicate_answers : Net :=
  MkNet 0 [(9%N, Return (OutStr "https://replicate.delivery/out.jpg"))] [] [] [].

(** The event just before a call of attempt [n]: the backoff delay when
    [n] is positive, and no delay otherwise. *)
Definition preceded_by_backoff (n : Z) (pre : list event) : Prop :=
  if (0 <? n)%Z then last pre = Some (Sleep (2 ^ n))
  else ∀ seconds, last pre ≠ Some (Sleep seconds).

(** The provider of the examples: it raises as long as the world, a count
    of the calls made so far, is below [faults], and from then on returns
    [result]. *)
Definition flaky (faults : nat) (result : gmap string pyval)
    : FaceSwapProvider nat :=
  Provider
    (λ _ calls,
       (if (calls <? faults)%nat then Raise (Error "ConnectionError" "reset")
        else Return result,
        S calls))
    "flaky" 30 false.

(** A provider that raises on every call. *)
Definition broken : FaceSwapProvider nat :=
  Provider (λ _ calls, (Raise (Error "ConnectionError" "refused"), S calls))
    "broken" 30 false.

(** C1, as the specification words it, for runs that reach the chain: with
    every provider raising on every attempt, each provider is called
    [retry_count + 1] times and the result carries the error code
    [ALL_PROVIDERS_FAILED], for every chain. *)
Definition exhaustion_claim : Prop :=
  ∀ (World : Type) (asyncio_sleep : Z → World → World)
    (Image_open : list byte → outcome (option string))
    (providers : list (FaceSwapProvider World)) (target source : string)
    (media_type : FaceSwapMediaType) (retry_count : Z)
    (webhook_url : option string) (kwargs : gmap string pyval) (w : World),
    valid target media_type → valid source IMAGE → (0 ≤ retry_count)%Z →
    Forall always_raises providers →
    ∃ d w' tr,
      FaceSwapGateway.swap_face asyncio_sleep Image_open providers target
        source media_type retry_count webhook_url kwargs w = (Return d, w', tr)
      ∧ (∀ i, (i < List.length providers)%nat →
              Z.of_nat (calls_to i tr) = (retry_count + 1)%Z)
      ∧ Z.of_nat (total_calls tr)
          = (Z.of_nat (List.length providers) * (retry_count + 1))%Z
      ∧ d !! "success" = Some (PyBool false)
      ∧ d !! "error_code" = Some (PyStr "ALL_PROVIDERS_FAILED").

(** A raw string: not a URL, and matched by none of the data-URI patterns
    of the module. *)
Definition raw (data : string) : Prop :=
  startswith data "http://" = false
  ∧ startswith data "https://" = false
  ∧ re_match validate_pattern_image data = false
  ∧ re_match validate_pattern_video data = false
  ∧ re_match normalize_pattern data = false.

(** [s.lower()] *)
Fixpoint lower (s : string) : string :=
  match s with
  | EmptyString => EmptyString
  | String c rest => String (lower_ascii c) (lower rest)
  end.

(** The tag C8 promises: the format Pillow sniffed, and [jpeg] when
    decoding or sniffing fails or no format is reported. *)
Definition sniffed_tag (Image_open : list byte → outcome (option string))
    (data : string) : string :=
  match b64decode data with
  | Return img_bytes =>
      match Image_open img_bytes with
      | Return (Some format) => lower format
      | Return None => "jpeg"
      | Raise _ => "jpeg"
      end
  | Raise _ => "jpeg"
  end.

(** The tag the code gives: the sniffed format when it is one of the five
    the gateway knows, and [jpeg] in every other case. *)
Definition known_tag (Image_open : list byte → outcome (option string))
    (data : string) : string :=
  match b64decode data with
  | Return img_bytes =>
      match Image_open img_bytes with
      | Return (Some format) =>
          if String.eqb format "PNG" then "png"
          else if String.eqb format "GIF" then "gif"
          else if String.eqb format "WEBP" then "webp"
          else if String.eqb format "BMP" then "bmp"
          else "jpeg"
      | Return None => "jpeg"
      | Raise _ => "jpeg"
      end
  | Raise _ => "jpeg"
  end.

(** C8 as the specification words it. *)
Definition sniffing_claim : Prop :=
  ∀ (Image_open : list byte → outcome (option string)) (data : string)
    (media_type : FaceSwapMediaType),
    raw data →
    ((_validate_input data media_type).1 = true
     ↔ returned (b64decode data) = true)
    ∧ _normalize_base64 Image_open data
      = "data:image/" +:+ sniffed_tag Image_open data +:+ ";base64," +:+ data.

(** The three shapes of a result dictionary, by the keys it has. *)
Definition sync_success (d : gmap string pyval) : Prop :=
  d !! "success" = Some (PyBool true)
  ∧ is_Some (d !! "result_url")
  ∧ d !! "async" = None.

Definition async_accepted (d : gmap string pyval) : Prop :=
  d !! "success" = Some (PyBool true)
  ∧ d !! "async" = Some (PyBool true)
  ∧ is_Some (d !! "task_id")
  ∧ d !! "result_url" = None.

Definition reported_failure (d : gmap string pyval) : Prop :=
  d !! "success" = Some (PyBool false)
  ∧ (∃ msg, d !! "error" = Some (PyStr msg))
  ∧ d !! "result_url" = None
  ∧ d !! "async" = None.

(** A result of the Replicate-backed adapters carries no task id. *)
Definition untracked (d : gmap string pyval) : Prop := d !! "task_id" = None.

(** A value is present under [key]: the key is there and holds something
    other than [None]. *)
Definition present (d : gmap string pyval) (key : string) : Prop :=
  ∃ v, d !! key = Some v ∧ v ≠ PyNone.

(** The shapes C4 speaks of: a synchronous success has a result URL that
    is present, an accepted asynchronous task a task id that is present. *)
Definition synchronous_success (d : gmap string pyval) : Prop :=
  d !! "success" = Some (PyBool true)
  ∧ present d "result_url"
  ∧ d !! "async" = None.

Definition asynchronous_acceptance (d : gmap string pyval) : Prop :=
  d !! "success" = Some (PyBool true)
  ∧ d !! "async" = Some (PyBool true)
  ∧ present d "task_id"
  ∧ d !! "result_url" = None.

Definition exactly_one_shape (d : gmap string pyval) : Prop :=
  (synchronous_success d ∧ ¬ asynchronous_acceptance d ∧ ¬ reported_failure d)
  ∨ (¬ synchronous_success d ∧ asynchronous_acceptance d ∧ ¬ reported_failure d)
  ∨ (¬ synchronous_success d ∧ ¬ asynchronous_acceptance d ∧ reported_failure d).

(** Neither the result URL nor the task id of a result is [None]. *)
Definition without_null (d : gmap string pyval) : Prop :=
  d !! "result_url" ≠ Some PyNone ∧ d !! "task_id" ≠ Some PyNone.

(** A result some adapter produced. *)
Definition produced_by_adapter (d : gmap string pyval) : Prop :=
  (∃ target source media_type w w' evs,
     NanoBananaProvider.swap_face target source media_type w
       = (Return d, w', evs))
  ∨ (∃ target source media_type w w' evs,
       ReplicateProvider.swap_face target source media_type w
         = (Return d, w', evs))
  ∨ (∃ py_str sha256_hexdigest api_key target source media_type webhook_url
       w w' evs,
       PiAPIProvider.swap_face py_str sha256_hexdigest api_key target source
         media_type webhook_url w = (Return d, w', evs)).

(** C4 as the specification words it. *)
Definition result_contract_claim : Prop :=
  ∀ d, produced_by_adapter d →
    exactly_one_shape d
    ∧ ¬ (present d "result_url" ∧ present d "task_id")
    ∧ (d !! "success" = Some (PyBool true) →
       present d "result_url" ∨ present d "task_id").

(** [str(v)] for the examples: a string is itself. *)
Definition str_plain (v : pyval) : string :=
  match v with
  | PyStr s => s
  | PyInt n => pretty n
  | _ => ""
  end.

(** A network in which PiAPI creates task [t-1] and reports it completed
    at the first poll. *)
Definition piapi_completes : Net :=
  MkNet 1000 []
    [(1%N, Return (PyDict {[ "code" := PyInt 200;
                             "data" := PyDict {[ "task_id" := PyStr "t-1" ]} ]}))]
    [(2%N, Return (PyDict {[ "data" := PyDict
         {[ "status" := PyStr "completed";
            "output" := PyDict {[ "image_url" := PyStr "https://img.example/out.jpg" ]} ]} ]}))]
    [].

(** ** Notions the further properties refer to *)

(** The finite language of a pattern: the literal words it can spell. *)
Fixpoint words (r : regex) : list string :=
  match r with
  | Lit l => [l]
  | Alt r1 r2 => words r1 ++ words r2
  | Cat r1 r2 => flat_map (λ x, (λ y, x +:+ y) <$> words r2) (words r1)
  end.

(** The two forms in which a media reference may reach an adapter: a URL,
    or a data URI of the normaliser's pattern. *)
Definition canonical (data : string) : Prop :=
  startswith data "http://" = true
  ∨ startswith data "https://" = true
  ∨ re_match normalize_pattern data = true.

(** A string of characters of the base-64 alphabet only: no padding, no
    white space. *)
Fixpoint all_alphabet (s : string) : bool :=
  match s with
  | EmptyString => true
  | String c rest =>
      match table_a2b_base64 c with
      | Some _ => all_alphabet rest
      | None => false
      end
  end.

(** Whether a literal of a pattern has a colon in it. *)
Fixpoint has_colon (lit : string) : bool :=
  match lit with
  | EmptyString => false
  | String a rest => Ascii.eqb ":" (lower_ascii a) || has_colon rest
  end.

(** The provider and attempt number of each call of a trace, in order. *)
Definition attempts_made (tr : list event) : list (nat * Z) :=
  omap (λ ev, match ev with
              | Call i n _ _ => Some (i, n)
              | Sleep _ => None
              end) tr.

(** Chain order: an earlier provider, or the same provider and an earlier
    attempt. *)
Definition earlier (a b : nat * Z) : Prop :=
  (a.1 < b.1)%nat ∨ (a.1 = b.1 ∧ (a.2 < b.2)%Z).

(** The seconds of backoff awaited in a trace. *)
Definition slept (tr : list event) : Z :=
  foldr (λ ev acc, match ev with
                   | Sleep seconds => (seconds + acc)%Z
                   | Call _ _ _ _ => acc
                   end) 0%Z tr.

(** A provider that returns a result whatever it is called with. *)
Definition never_raises {World} (p : FaceSwapProvider World) : Prop :=
  ∀ args w, ∃ d, (swap_face p args w).1 = Return d.

(** The status polls among the requests of an adapter. *)
Definition is_get (ev : net_event) : bool :=
  match ev with
  | HttpGet _ _ => true
  | _ => false
  end.

Definition gets (evs : list net_event) : nat :=
  List.length (filter (λ ev, is_get ev = true) evs).

(** A network in which PiAPI creates task [t-1] and reports it completed
    with an output that has no URL in it. *)
Definition piapi_completes_without_url : Net :=
  MkNet 1000 []
    [(1%N, Return (PyDict {[ "code" := PyInt 200;
                             "data" := PyDict {[ "task_id" := PyStr "t-1" ]} ]}))]
    [(2%N, Return (PyDict {[ "data" := PyDict
         {[ "status" := PyStr "completed"; "output" := PyDict ∅ ]} ]}))]
    [].

(** A run of a Replicate model that answers: the next reply comes within
    [budget] seconds and is a truthy output, whose URL is [url]. *)
Definition answers_in_time (budget : Z)
    (replies : list (N * outcome replicate_output)) (url : string) : Prop :=
  ∃ took output rest,
    replies = (took, Return output) :: rest
    ∧ (Z.of_N took ≤ budget)%Z
    ∧ output_truthy output = true
    ∧ url = output_url output.

(** * Properties *)

Local Open Scope nat_scope.

Ltac adapter_steps :=
  unfold try_except, mbind, M_bind, bind, mret, M_ret, ret, lift;
  cbn beta iota zeta.

(** ** Running the monad *)

Section MonadFacts.
Context {World Ev : Type}.
Implicit Types w : World.

Lemma run_ret {A} (a : A) w : (mret a : M World Ev A) w = (Return a, w, []).
Proof. reflexivity. Qed.

Lemma run_bind {A B} (m : M World Ev A) (f : A → M World Ev B) w :
  (m ≫= f) w =
    match m w with
    | (Return a, w1, tr1) =>
        let '(o, w2, tr2) := f a w1 in (o, w2, tr1 ++ tr2)
    | (Raise e, w1, tr1) => (Raise e, w1, tr1)
    end.
Proof. reflexivity. Qed.
End MonadFacts.

(** ** The loops follow the run relations *)

Section LoopFacts.
Context {World : Type}.
Variable asyncio_sleep : Z → World → World.
Implicit Types (p : FaceSwapProvider World) (w : World) (tr : list event).

(** One pass through the loop body: the backoff, one call, and the way
    the pass ends; it never raises. *)
Lemma attempt_body_run p i args n w :
  FaceSwapGateway.attempt_body asyncio_sleep p i args n w =
    let '(o, w1) := swap_face p args (after_backoff asyncio_sleep n w) in
    (Return match o with
            | Return d =>
                if truthy (dict_get d "success") then Returned d else Broke
            | Raise _ => Continued
            end,
     w1, backoff n ++ [Call i n args o]).
Proof.
  unfold FaceSwapGateway.attempt_body, try_except, after_backoff, backoff.
  unfold mbind, M_bind, bind, FaceSwapGateway.invoke, FaceSwapGateway.sleep.
  destruct (0 <? n)%Z; cbn beta iota delta [ret];
    destruct (swap_face p args _) as [[d|e] w1];
    cbn beta iota; try destruct (truthy (dict_get d "success"));
    reflexivity.
Qed.

Lemma retry_loop_run p i args attempts w :
  ∃ r w' tr,
    FaceSwapGateway.retry_loop asyncio_sleep p i args attempts w
      = (Return r, w', tr)
    ∧ retry_run asyncio_sleep p i args attempts w r w' tr.
Proof.
  revert w. induction attempts as [|n rest IH]; intros w.
  - eexists _, _, _. split; [reflexivity | constructor].
  - cbn [FaceSwapGateway.retry_loop]. rewrite run_bind, attempt_body_run.
    destruct (swap_face p args _) as [[d|e] w1] eqn:Hcall.
    + destruct (truthy (dict_get d "success")) eqn:Hok.
      * eexists _, _, _. split; [reflexivity|].
        rewrite app_nil_r. by apply retry_succeeded.
      * eexists _, _, _. split; [reflexivity|].
        rewrite app_nil_r. by apply retry_failed.
    + destruct (IH w1) as (r & w2 & tr & -> & Hrun).
      eexists _, _, _. split; [reflexivity|].
      rewrite <- app_assoc. by eapply retry_raised.
Qed.

Section Chain.
Variables (target source : string) (media_type : FaceSwapMediaType).
Variables (retry_count : Z) (webhook_url : option string).
Variable kwargs : gmap string pyval.

Lemma provider_loop_run ps i w :
  ∃ r w' tr,
    FaceSwapGateway.provider_loop asyncio_sleep ps i target source
      media_type retry_count webhook_url kwargs w = (Return r, w', tr)
    ∧ chain_run asyncio_sleep target source media_type retry_count
        webhook_url kwargs i ps w r w' tr.
Proof.
  revert i w. induction ps as [|p ps IH]; intros i w.
  - eexists _, _, _. split; [reflexivity | constructor].
  - cbn [FaceSwapGateway.provider_loop]. rewrite run_bind.
    destruct (retry_loop_run p i
      (FaceSwapGateway.args_for p target source media_type webhook_url kwargs)
      (range (retry_count + 1)) w) as (r & w1 & tr1 & -> & Hrun).
    destruct r as [d|].
    + eexists _, _, _. split; [reflexivity|].
      rewrite app_nil_r. by apply chain_stop.
    + destruct (IH (S i) w1) as (r & w2 & tr2 & -> & Hrest).
      eexists _, _, _. split; [reflexivity|].
      by eapply chain_next.
Qed.
End Chain.
End LoopFacts.

(** ** Lists of events *)

Lemma app_split_at {A} (l1 l2 pre post : list A) (x : A) :
  l1 ++ l2 = pre ++ x :: post →
  (∃ post1, l1 = pre ++ x :: post1 ∧ post = post1 ++ l2)
  ∨ (∃ pre2, l2 = pre2 ++ x :: post ∧ pre = l1 ++ pre2).
Proof.
  revert pre. induction l1 as [|y l1 IH]; intros pre Heq.
  - right. by exists pre.
  - destruct pre as [|z pre]; cbn in Heq; injection Heq as -> Heq.
    + left. by exists l1.
    + destruct (IH _ Heq) as [(post1 & -> & ->)|(pre2 & -> & ->)].
      * left. by exists post1.
      * right. by exists pre2.
Qed.

Lemma calls_to_app i (tr1 tr2 : list event) :
  calls_to i (tr1 ++ tr2) = calls_to i tr1 + calls_to i tr2.
Proof. unfold calls_to. by rewrite filter_app, length_app. Qed.

Lemma total_calls_app (tr1 tr2 : list event) :
  total_calls (tr1 ++ tr2) = total_calls tr1 + total_calls tr2.
Proof. unfold total_calls. by rewrite filter_app, length_app. Qed.

Lemma calls_to_none i (tr : list event) :
  Forall (λ ev, is_call_to i ev = false) tr → calls_to i tr = 0.
Proof.
  unfold calls_to. induction 1 as [|ev tr Hev _ IH]; [done|].
  rewrite filter_cons_False; [done|]. by rewrite Hev.
Qed.

Lemma calls_to_backoff i n : calls_to i (backoff n) = 0.
Proof. unfold backoff. by destruct (0 <? n)%Z. Qed.

Lemma total_calls_backoff n : total_calls (backoff n) = 0.
Proof. unfold backoff. by destruct (0 <? n)%Z. Qed.

Lemma calls_to_call i j n args o :
  calls_to i [Call j n args o] = if bool_decide (i = j) then 1 else 0.
Proof.
  unfold calls_to. rewrite filter_cons, filter_nil. cbn.
  case_bool_decide; case_decide; done.
Qed.

Lemma calls_to_le_total i (tr : list event) : calls_to i tr ≤ total_calls tr.
Proof.
  unfold calls_to, total_calls. induction tr as [|ev tr IH]; [done|].
  rewrite !filter_cons. destruct ev as [|j n a o]; cbn; [done|].
  case_bool_decide; repeat case_decide; cbn; try done; lia.
Qed.

(** ** Traces of the retry loop *)

Lemma preceded_by_backoff_app n (l pre : list event) :
  (∀ seconds, last l ≠ Some (Sleep seconds)) →
  preceded_by_backoff n pre → preceded_by_backoff n (l ++ pre).
Proof.
  intros Hl. unfold preceded_by_backoff.
  destruct pre as [|ev pre _] using rev_ind.
  - rewrite app_nil_r. destruct (0 <? n)%Z; [done|]. by intros _.
  - by rewrite app_assoc, !last_snoc.
Qed.

Lemma preceded_by_backoff_here n : preceded_by_backoff n (backoff n).
Proof. unfold preceded_by_backoff, backoff. by destruct (0 <? n)%Z. Qed.

Lemma backoff_call_inv n0 (c : event) tl pre j n args o post :
  backoff n0 ++ c :: tl = pre ++ Call j n args o :: post →
  (pre = backoff n0 ∧ c = Call j n args o ∧ post = tl)
  ∨ (∃ pre2, tl = pre2 ++ Call j n args o :: post
             ∧ pre = backoff n0 ++ c :: pre2).
Proof.
  unfold backoff. destruct (0 <? n0)%Z; cbn; intros Heq.
  - destruct pre as [|x [|y pre]]; simplify_eq/=; eauto.
  - destruct pre as [|x pre]; simplify_eq/=; eauto.
Qed.

Section RetryFacts.
Context {World : Type}.
Variable asyncio_sleep : Z → World → World.
Implicit Types (p : FaceSwapProvider World) (w : World) (tr : list event).

(** Every call of the retry loop goes to the one provider, with the one
    set of arguments, for an attempt of the list. *)
Lemma retry_run_calls p i args attempts w r w' tr :
  retry_run asyncio_sleep p i args attempts w r w' tr →
  ∀ pre j n a o post, tr = pre ++ Call j n a o :: post →
    j = i ∧ a = args ∧ n ∈ attempts.
Proof.
  induction 1 as [w|n0 rest w e w1 r w2 tr Hcall Hrun IH
                 |n0 rest w d w1 Hcall Hd|n0 rest w d w1 Hcall Hd];
    intros pre j n a o post Heq.
  - by destruct pre.
  - apply backoff_call_inv in Heq as [(_ & [= <- <- <- <-] & _)|(pre2 & -> & _)].
    + repeat split. by left.
    + destruct (IH _ _ _ _ _ _ eq_refl) as (-> & -> & Hin).
      repeat split. by right.
  - apply backoff_call_inv in Heq as [(_ & [= <- <- <- <-] & _)|(pre2 & Hnil & _)].
    + repeat split. by left.
    + by destruct pre2.
  - apply backoff_call_inv in Heq as [(_ & [= <- <- <- <-] & _)|(pre2 & Hnil & _)].
    + repeat split. by left.
    + by destruct pre2.
Qed.

(** A call that returns ends the retry loop and decides how it ends. *)
Lemma retry_run_return p i args attempts w r w' tr pre j n a d post :
  retry_run asyncio_sleep p i args attempts w r w' tr →
  tr = pre ++ Call j n a (Return d) :: post →
  post = []
  ∧ r = if truthy (dict_get d "success") then Some d else None.
Proof.
  intros Hrun. revert pre.
  induction Hrun as [w|n0 rest w e w1 r w2 tr Hcall Hrun IH
                    |n0 rest w d0 w1 Hcall Hd|n0 rest w d0 w1 Hcall Hd];
    intros pre Heq.
  - by destruct pre.
  - apply backoff_call_inv in Heq as [(_ & [=] & _)|(pre2 & -> & _)].
    by eapply IH.
  - apply backoff_call_inv in Heq as [(_ & [= <- <- <- <-] & <-)|(pre2 & Hnil & _)].
    + by rewrite Hd.
    + by destruct pre2.
  - apply backoff_call_inv in Heq as [(_ & [= <- <- <- <-] & <-)|(pre2 & Hnil & _)].
    + by rewrite Hd.
    + by destruct pre2.
Qed.

(** The trace of a retry loop does not end on a delay. *)
Lemma retry_run_last p i args attempts w r w' tr seconds :
  retry_run asyncio_sleep p i args attempts w r w' tr →
  last tr ≠ Some (Sleep seconds).
Proof.
  induction 1 as [w|n0 rest w e w1 r w2 tr Hcall Hrun IH
                 |n0 rest w d w1 Hcall Hd|n0 rest w d w1 Hcall Hd].
  - done.
  - destruct tr as [|ev tr _] using rev_ind.
    + by rewrite last_snoc.
    + rewrite last_snoc in IH.
      by rewrite app_comm_cons, app_assoc, last_snoc.
  - by rewrite last_snoc.
  - by rewrite last_snoc.
Qed.

(** Attempt [n] is preceded by its backoff delay, and by none when [n]
    is not positive. *)
Lemma retry_run_backoff p i args attempts w r w' tr pre j n a o post :
  retry_run asyncio_sleep p i args attempts w r w' tr →
  tr = pre ++ Call j n a o :: post →
  preceded_by_backoff n pre.
Proof.
  intros Hrun. revert pre.
  induction Hrun as [w|n0 rest w e w1 r w2 tr Hcall Hrun IH
                    |n0 rest w d w1 Hcall Hd|n0 rest w d w1 Hcall Hd];
    intros pre Heq.
  - by destruct pre.
  - apply backoff_call_inv in Heq as [(-> & [= <- <- <- <-] & _)|(pre2 & -> & ->)].
    + apply preceded_by_backoff_here.
    + replace (backoff n0 ++ Call i n0 args (Raise e) :: pre2)
        with ((backoff n0 ++ [Call i n0 args (Raise e)]) ++ pre2)
        by by rewrite <- app_assoc.
      apply preceded_by_backoff_app; [|by apply IH].
      intros seconds. by rewrite last_snoc.
  - apply backoff_call_inv in Heq as [(-> & [= <- <- <- <-] & _)|(pre2 & Hnil & _)].
    + apply preceded_by_backoff_here.
    + by destruct pre2.
  - apply backoff_call_inv in Heq as [(-> & [= <- <- <- <-] & _)|(pre2 & Hnil & _)].
    + apply preceded_by_backoff_here.
    + by destruct pre2.
Qed.

(** The call of the first attempt of the list is the first call. *)
Lemma retry_run_first p i args n0 rest w r w' tr pre j a o post :
  retry_run asyncio_sleep p i args (n0 :: rest) w r w' tr →
  tr = pre ++ Call j n0 a o :: post →
  n0 ∉ rest →
  total_calls pre = 0.
Proof.
  intros Hrun -> Hfresh.
  inversion Hrun as [|? ? ? e w1 ? ? tr' Hcall Hrest Hn Hw Hr Hw' Heq
                    |? ? ? d w1 Hcall Hd Hn Hw Hr Hw' Heq
                    |? ? ? d w1 Hcall Hd Hn Hw Hr Hw' Heq]; subst.
  - apply backoff_call_inv in Heq as [(-> & _)|(pre2 & -> & _)].
    + apply total_calls_backoff.
    + destruct (retry_run_calls _ _ _ _ _ _ _ _ Hrest _ _ _ _ _ _ eq_refl)
        as (_ & _ & Hin). done.
  - apply backoff_call_inv in Heq as [(-> & _)|(pre2 & Hnil & _)].
    + apply total_calls_backoff.
    + by destruct pre2.
  - apply backoff_call_inv in Heq as [(-> & _)|(pre2 & Hnil & _)].
    + apply total_calls_backoff.
    + by destruct pre2.
Qed.

(** With at least one attempt to make, the run opens with the call of
    the first one when that needs no backoff. *)
Lemma retry_run_starts p i args n0 rest w r w' tr :
  retry_run asyncio_sleep p i args (n0 :: rest) w r w' tr →
  (n0 ≤ 0)%Z →
  ∃ o post, tr = Call i n0 args o :: post.
Proof.
  intros Hrun Hn0.
  assert (backoff n0 = []) as Hb.
  { unfold backoff. destruct (0 <? n0)%Z eqn:E; [lia|done]. }
  inversion Hrun; subst; rewrite Hb; cbn; eauto.
Qed.

(** The retry loop returns from the function only with a result whose
    [success] is true. *)
Lemma retry_run_some p i args attempts w r w' tr d :
  retry_run asyncio_sleep p i args attempts w r w' tr →
  r = Some d → truthy (dict_get d "success") = true.
Proof.
  induction 1 as [w|n0 rest w e w1 r w2 tr Hcall Hrun IH
                 |n0 rest w d0 w1 Hcall Hd|n0 rest w d0 w1 Hcall Hd];
    intros Hr; [done|by apply IH|done|by injection Hr as <-].
Qed.
End RetryFacts.

(** ** [range] *)

Lemma range_succ (r : Z) :
  (0 ≤ r)%Z → range (r + 1) = 0%Z :: (Z.of_nat <$> seq 1 (Z.to_nat r)).
Proof.
  intros Hr. unfold range.
  replace (Z.to_nat (r + 1)) with (S (Z.to_nat r)) by lia. done.
Qed.

Lemma range_elem (n m : Z) : n ∈ range m → (0 ≤ n < m)%Z.
Proof.
  unfold range. intros (k & -> & Hk%elem_of_seq)%list_elem_of_fmap. lia.
Qed.

Lemma range_tail_positive (k : nat) : 0%Z ∉ Z.of_nat <$> seq 1 k.
Proof. intros (j & Hj & Hin%elem_of_seq)%list_elem_of_fmap. lia. Qed.

Lemma range_length (r : Z) : List.length (range r) = Z.to_nat r.
Proof. unfold range. by rewrite length_fmap, length_seq. Qed.

(** ** Traces of the loop over the chain *)

Section ChainFacts.
Context {World : Type}.
Variable asyncio_sleep : Z → World → World.
Variables (target source : string) (media_type : FaceSwapMediaType).
Variables (retry_count : Z) (webhook_url : option string).
Variable kwargs : gmap string pyval.
Implicit Types (p : FaceSwapProvider World) (w : World) (tr : list event).

Local Abbreviation chain := (chain_run asyncio_sleep target source media_type
                     retry_count webhook_url kwargs).
Local Abbreviation args_of p := (FaceSwapGateway.args_for p target source media_type
                         webhook_url kwargs).

(** Every call goes to a provider of the chain, at or after the position
    the loop started from, with the arguments made for that provider. *)
Lemma chain_run_calls i ps w r w' tr :
  chain i ps w r w' tr →
  ∀ pre j n a o post, tr = pre ++ Call j n a o :: post →
    (i ≤ j)%nat ∧ n ∈ range (retry_count + 1)
    ∧ ∃ p, ps !! (j - i) = Some p ∧ a = args_of p.
Proof.
  induction 1 as [i w|i p ps w d w1 tr Hretry
                 |i p ps w w1 tr1 r w2 tr2 Hretry Hrest IH];
    intros pre j n a o post Heq.
  - by destruct pre.
  - destruct (retry_run_calls _ _ _ _ _ _ _ _ _ Hretry _ _ _ _ _ _ Heq)
      as (-> & -> & Hn).
    split; [lia|]. split; [done|]. exists p. by rewrite Nat.sub_diag.
  - apply app_split_at in Heq as [(post1 & Heq & _)|(pre2 & Heq & _)].
    + destruct (retry_run_calls _ _ _ _ _ _ _ _ _ Hretry _ _ _ _ _ _ Heq)
        as (-> & -> & Hn).
      split; [lia|]. split; [done|]. exists p. by rewrite Nat.sub_diag.
    + destruct (IH _ _ _ _ _ _ Heq) as (Hj & Hn & q & Hq & ->).
      split; [lia|]. split; [done|]. exists q.
      by replace (j - i) with (S (j - S i)) by lia.
Qed.

Lemma chain_run_no_calls_before i ps w r w' tr j :
  chain i ps w r w' tr → (j < i)%nat → calls_to j tr = 0.
Proof.
  intros Hrun Hj. apply calls_to_none, Forall_forall. intros ev Hin.
  apply list_elem_of_split in Hin as (pre & post & ->).
  destruct ev as [|k n a o]; [done|].
  destruct (chain_run_calls _ _ _ _ _ _ Hrun _ _ _ _ _ _ eq_refl) as (Hk & _).
  cbn. case_bool_decide; [lia|done].
Qed.

Lemma chain_run_last i ps w r w' tr seconds :
  chain i ps w r w' tr → last tr ≠ Some (Sleep seconds).
Proof.
  induction 1 as [i w|i p ps w d w1 tr Hretry
                 |i p ps w w1 tr1 r w2 tr2 Hretry Hrest IH].
  - done.
  - by eapply retry_run_last.
  - destruct tr2 as [|ev tr2 _] using rev_ind.
    + rewrite app_nil_r. by eapply retry_run_last.
    + rewrite last_snoc in IH. by rewrite app_assoc, last_snoc.
Qed.

Lemma chain_run_backoff i ps w r w' tr pre j n a o post :
  chain i ps w r w' tr →
  tr = pre ++ Call j n a o :: post →
  preceded_by_backoff n pre.
Proof.
  intros Hrun. revert pre.
  induction Hrun as [i w|i p ps w d w1 tr Hretry
                    |i p ps w w1 tr1 r w2 tr2 Hretry Hrest IH];
    intros pre Heq.
  - by destruct pre.
  - by eapply retry_run_backoff.
  - apply app_split_at in Heq as [(post1 & Heq & _)|(pre2 & Heq & ->)].
    + by eapply retry_run_backoff.
    + apply preceded_by_backoff_app; [|by apply IH].
      intros seconds. by eapply retry_run_last.
Qed.

(** With a non-negative retry count, the loop over a non-empty chain
    opens with attempt 0 of its first provider. *)
Lemma chain_run_starts i p ps w r w' tr :
  chain i (p :: ps) w r w' tr →
  (0 ≤ retry_count)%Z →
  ∃ o post, tr = Call i 0 (args_of p) o :: post.
Proof.
  intros Hrun Hr.
  inversion Hrun as [|? ? ? ? ? ? ? Hretry|? ? ? ? ? tr1 ? ? tr2 Hretry Hrest];
    subst; rewrite range_succ in Hretry by done;
    apply retry_run_starts in Hretry as (o & post & ->); try done;
    cbn; eauto.
Qed.

(** After a call that returned a result without success: no later call
    to that provider, none before it when it was attempt 0, and the next
    thing that happens is attempt 0 of the next provider, if there is
    one. *)
Lemma chain_run_handled_failure i ps w r w' tr pre j n a d post :
  chain i ps w r w' tr →
  tr = pre ++ Call j n a (Return d) :: post →
  truthy (dict_get d "success") = false →
  calls_to j post = 0
  ∧ (n = 0%Z → calls_to j pre = 0)
  ∧ match ps !! (S j - i) with
    | Some q => ∃ o post', post = Call (S j) 0 (args_of q) o :: post'
    | None => post = []
    end.
Proof.
  intros Hrun. revert pre post.
  induction Hrun as [i w|i p ps w d0 w1 tr Hretry
                    |i p ps w w1 tr1 r w2 tr2 Hretry Hrest IH];
    intros pre post Heq Hd.
  - by destruct pre.
  - destruct (retry_run_return _ _ _ _ _ _ _ _ _ _ _ _ _ _ _ Hretry Heq)
      as (_ & Hr). by rewrite Hd in Hr.
  - apply app_split_at in Heq as [(post1 & Heq & ->)|(pre2 & Heq & ->)].
    + destruct (retry_run_calls _ _ _ _ _ _ _ _ _ Hretry _ _ _ _ _ _ Heq)
        as (-> & -> & Hn).
      destruct (retry_run_return _ _ _ _ _ _ _ _ _ _ _ _ _ _ _ Hretry Heq)
        as (-> & _).
      assert (0 ≤ retry_count)%Z as Hr by (apply range_elem in Hn; lia).
      cbn [app]. split; [|split].
      * eapply chain_run_no_calls_before; [done|lia].
      * intros ->. rewrite range_succ in Hretry by done.
        pose proof (retry_run_first _ _ _ _ _ _ _ _ _ _ _ _ _ _ _
                      Hretry Heq (range_tail_positive _)) as Hnone.
        pose proof (calls_to_le_total i pre). lia.
      * replace (S i - i) with 1 by lia. cbn.
        destruct ps as [|q ps]; cbn.
        -- by inversion Hrest.
        -- by eapply chain_run_starts.
    + destruct (IH _ _ Heq Hd) as (Hpost & Hpre & Hnext).
      destruct (chain_run_calls _ _ _ _ _ _ Hrest _ _ _ _ _ _ Heq)
        as (Hj & _).
      split; [done|]. split.
      * intros Hn. rewrite calls_to_app, (Hpre Hn), Nat.add_0_r.
        apply calls_to_none, Forall_forall. intros ev Hin.
        apply list_elem_of_split in Hin as (pre1 & post1 & Hsplit).
        destruct ev as [|k m a' o']; [done|].
        destruct (retry_run_calls _ _ _ _ _ _ _ _ _ Hretry _ _ _ _ _ _ Hsplit)
          as (-> & _).
        cbn. case_bool_decide; [lia|done].
      * by replace (S j - i) with (S (S j - S i)) by lia.
Qed.

Lemma chain_run_some i ps w r w' tr d :
  chain i ps w r w' tr →
  r = Some d → truthy (dict_get d "success") = true.
Proof.
  induction 1 as [i w|i p ps w d0 w1 tr Hretry
                 |i p ps w w1 tr1 r w2 tr2 Hretry Hrest IH];
    intros Hr; [done| |by apply IH].
  by eapply retry_run_some.
Qed.
End ChainFacts.

(** ** Runs of [FaceSwapGateway.swap_face] *)

Section GatewayFacts.
Context {World : Type}.
Variable asyncio_sleep : Z → World → World.
Variable Image_open : list byte → outcome (option string).
Variable providers : list (FaceSwapProvider World).
Variables (target source : string) (media_type : FaceSwapMediaType).
Variables (retry_count : Z) (webhook_url : option string).
Variable kwargs : gmap string pyval.

Local Abbreviation gateway_swap_face :=
  (FaceSwapGateway.swap_face asyncio_sleep Image_open providers target source
     media_type retry_count webhook_url kwargs).
Local Abbreviation normalized data := (_normalize_base64 Image_open data).

(** The two ways a run goes: it is turned away before the loop, with no
    event and the world untouched, or it is a run of the loop over the
    chain on the normalised inputs. *)
Lemma swap_face_run w :
  (∃ d, gateway_swap_face w = (Return d, w, [])
        ∧ (¬ valid target media_type ∨ ¬ valid source IMAGE ∨ providers = [])
        ∧ d !! "success" = Some (PyBool false)
        ∧ is_Some (d !! "error")
        ∧ d !! "error_code" = None)
  ∨ (∃ r w' tr,
        gateway_swap_face w
          = (Return (default FaceSwapGateway.all_providers_failed r), w', tr)
        ∧ valid target media_type ∧ valid source IMAGE ∧ providers ≠ []
        ∧ chain_run asyncio_sleep (normalized target) (normalized source)
            media_type retry_count webhook_url kwargs 0 providers w r w' tr).
Proof.
  unfold FaceSwapGateway.swap_face, valid.
  destruct (_validate_input target media_type) as [[] target_error]; cbn.
  2: { left. eexists. split; [reflexivity|].
       split; [left; by intros ?|].
       unfold FaceSwapGateway.validation_failed.
       by destruct target_error. }
  destruct (_validate_input source IMAGE) as [[] source_error]; cbn.
  2: { left. eexists. split; [reflexivity|].
       split; [right; left; by intros ?|].
       unfold FaceSwapGateway.validation_failed.
       by destruct source_error. }
  destruct providers as [|p ps] eqn:Hps.
  { left. eexists. split; [reflexivity|]. split; [by right; right|done]. }
  right. rewrite run_bind.
  destruct (provider_loop_run asyncio_sleep (normalized target)
              (normalized source) media_type retry_count webhook_url kwargs
              (p :: ps) 0 w) as (r & w' & tr & -> & Hrun).
  exists r, w', tr.
  split; [destruct r; cbn; by rewrite app_nil_r|done].
Qed.
End GatewayFacts.

(** ** A chain whose providers all raise *)

Section AllRaise.
Context {World : Type}.
Variable asyncio_sleep : Z → World → World.
Implicit Types (p : FaceSwapProvider World) (w : World).

Lemma retry_loop_all_raise p i args attempts w :
  always_raises p →
  ∃ w' tr,
    FaceSwapGateway.retry_loop asyncio_sleep p i args attempts w
      = (Return None, w', tr)
    ∧ total_calls tr = List.length attempts
    ∧ ∀ j, calls_to j tr = if bool_decide (j = i) then List.length attempts else 0.
Proof.
  intros Hp. revert w. induction attempts as [|n rest IH]; intros w.
  - eexists _, _. split; [reflexivity|]. split; [done|].
    intros j. by case_bool_decide.
  - cbn [FaceSwapGateway.retry_loop]. rewrite run_bind, attempt_body_run.
    destruct (Hp args (after_backoff asyncio_sleep n w)) as [e He].
    destruct (swap_face p args _) as [o w1]. cbn in He. subst o.
    destruct (IH w1) as (w2 & tr & -> & Htotal & Hcalls).
    eexists _, _. split; [reflexivity|]. split.
    + rewrite !total_calls_app, total_calls_backoff, Htotal. done.
    + intros j. rewrite !calls_to_app, calls_to_backoff, calls_to_call, Hcalls.
      cbn. by case_bool_decide.
Qed.

Lemma provider_loop_all_raise ps i target source media_type retry_count
    webhook_url kwargs w :
  Forall always_raises ps →
  ∃ w' tr,
    FaceSwapGateway.provider_loop asyncio_sleep ps i target source media_type
      retry_count webhook_url kwargs w = (Return None, w', tr)
    ∧ total_calls tr = List.length ps * Z.to_nat (retry_count + 1)
    ∧ ∀ j, calls_to j tr =
             if bool_decide (i ≤ j < i + List.length ps)
             then Z.to_nat (retry_count + 1) else 0.
Proof.
  intros Hps. revert i w.
  induction Hps as [|p ps Hp Hps IH]; intros i w.
  - eexists _, _. split; [reflexivity|]. split; [done|].
    intros j. case_bool_decide; [cbn in *; lia|done].
  - cbn [FaceSwapGateway.provider_loop]. rewrite run_bind.
    destruct (retry_loop_all_raise p i
      (FaceSwapGateway.args_for p target source media_type webhook_url kwargs)
      (range (retry_count + 1)) w Hp) as (w1 & tr1 & -> & Htotal1 & Hcalls1).
    destruct (IH (S i) w1) as (w2 & tr2 & -> & Htotal2 & Hcalls2).
    rewrite range_length in *.
    eexists _, _. split; [reflexivity|]. split.
    + rewrite total_calls_app, Htotal1, Htotal2. cbn. lia.
    + intros j. rewrite calls_to_app, Hcalls1, Hcalls2. cbn [List.length].
      repeat case_bool_decide; lia.
Qed.
End AllRaise.

(** ** The claims about the orchestrator *)

(** C1 (counterexample): with the empty chain the gateway answers "no
    providers configured", a result without any error code, so the claim
    does not hold for every chain. *)
Lemma exhaustion_claim_fails_on_empty_chain : ¬ exhaustion_claim.
Proof.
  intros Hclaim.
  destruct (Hclaim unit (λ _ w, w) sniff_magic [] "https://example.com/a.jpg"
              "https://example.com/face.jpg" IMAGE 2%Z None ∅ tt)
    as (d & w' & tr & Hrun & _ & _ & _ & Hcode); try done.
  assert (FaceSwapGateway.swap_face (λ _ w, w) sniff_magic [] "https://example.com/a.jpg"
            "https://example.com/face.jpg" IMAGE 2%Z None ∅ tt
          = (Return FaceSwapGateway.no_providers, tt, [])) as Hempty
    by reflexivity.
  rewrite Hempty in Hrun. injection Hrun as <- _ _.
  discriminate Hcode.
Qed.

(** C1 (amended): for a non-empty chain and inputs that pass validation,
    with every provider raising on every attempt, [swap_face] calls each
    provider exactly [retry_count + 1] times, [N * (retry_count + 1)] times
    in all, and returns the failure result whose error code is
    [ALL_PROVIDERS_FAILED]. *)
Theorem all_raising_chain_is_exhausted
    {World : Type} (asyncio_sleep : Z → World → World)
    (Image_open : list byte → outcome (option string))
    (providers : list (FaceSwapProvider World)) (target source : string)
    (media_type : FaceSwapMediaType) (retry_count : Z)
    (webhook_url : option string) (kwargs : gmap string pyval) (w : World) :
  providers ≠ [] →
  valid target media_type → valid source IMAGE → (0 ≤ retry_count)%Z →
  Forall always_raises providers →
  ∃ w' tr,
    FaceSwapGateway.swap_face asyncio_sleep Image_open providers target
      source media_type retry_count webhook_url kwargs w
      = (Return FaceSwapGateway.all_providers_failed, w', tr)
    ∧ (∀ i, i < List.length providers →
            Z.of_nat (calls_to i tr) = (retry_count + 1)%Z)
    ∧ Z.of_nat (total_calls tr)
        = (Z.of_nat (List.length providers) * (retry_count + 1))%Z
    ∧ FaceSwapGateway.all_providers_failed !! "success" = Some (PyBool false)
    ∧ FaceSwapGateway.all_providers_failed !! "error_code"
        = Some (PyStr "ALL_PROVIDERS_FAILED").
Proof.
  intros Hne Htarget Hsource Hr Hraise.
  unfold FaceSwapGateway.swap_face. unfold valid in Htarget, Hsource.
  destruct (_validate_input target media_type) as [target_valid target_error].
  destruct (_validate_input source IMAGE) as [source_valid source_error].
  cbn in Htarget, Hsource. subst. cbn [negb].
  destruct providers as [|p ps] eqn:Hps; [done|]. rewrite <- Hps in *.
  rewrite run_bind.
  destruct (provider_loop_all_raise asyncio_sleep providers 0
              (_normalize_base64 Image_open target)
              (_normalize_base64 Image_open source) media_type retry_count
              webhook_url kwargs w Hraise) as (w' & tr & -> & Htotal & Hcalls).
  exists w', tr. cbn beta iota zeta delta [ret]. rewrite app_nil_r.
  split; [done|]. split; [|split; [|done]].
  - intros i Hi. rewrite Hcalls. case_bool_decide; lia.
  - rewrite Htotal. lia.
Qed.

Lemma all_raising_chain_is_exhausted_witness :
  ∃ w' tr,
    FaceSwapGateway.swap_face (λ _ w, w) sniff_magic
      [broken; broken] "https://example.com/a.jpg"
      "https://example.com/face.jpg" IMAGE 2%Z None ∅ 0
      = (Return FaceSwapGateway.all_providers_failed, w', tr)
    ∧ (∀ i, i < 2 → Z.of_nat (calls_to i tr) = 3%Z)
    ∧ Z.of_nat (total_calls tr) = 6%Z
    ∧ FaceSwapGateway.all_providers_failed !! "success" = Some (PyBool false)
    ∧ FaceSwapGateway.all_providers_failed !! "error_code"
        = Some (PyStr "ALL_PROVIDERS_FAILED").
Proof.
  apply (all_raising_chain_is_exhausted (λ _ w, w) sniff_magic
           [broken; broken] "https://example.com/a.jpg"
           "https://example.com/face.jpg" IMAGE 2%Z None ∅ 0).
  - done.
  - reflexivity.
  - reflexivity.
  - lia.
  - repeat constructor; intros args calls; eexists; reflexivity.
Defined.

(** C2: in every run of [swap_face], once an attempt against a provider
    returns a result whose [success] is not true, no further attempt is
    made against that provider (so exactly one when it was the first
    attempt), and the next thing the gateway does is attempt 0 of the next
    provider of the chain, if there is one. *)
Theorem handled_failure_moves_to_next_provider
    {World : Type} (asyncio_sleep : Z → World → World)
    (Image_open : list byte → outcome (option string))
    (providers : list (FaceSwapProvider World)) (target source : string)
    (media_type : FaceSwapMediaType) (retry_count : Z)
    (webhook_url : option string) (kwargs : gmap string pyval) (w : World)
    o w' tr pre i n args d post :
  FaceSwapGateway.swap_face asyncio_sleep Image_open providers target source
    media_type retry_count webhook_url kwargs w = (o, w', tr) →
  tr = pre ++ Call i n args (Return d) :: post →
  truthy (dict_get d "success") = false →
  calls_to i post = 0
  ∧ (n = 0%Z → calls_to i tr = 1)
  ∧ match providers !! S i with
    | Some next =>
        ∃ o' post',
          post = Call (S i) 0
                   (FaceSwapGateway.args_for next
                      (_normalize_base64 Image_open target)
                      (_normalize_base64 Image_open source)
                      media_type webhook_url kwargs) o' :: post'
    | None => post = []
    end.
Proof.
  intros Hrun Htr Hd.
  destruct (swap_face_run asyncio_sleep Image_open providers target source
              media_type retry_count webhook_url kwargs w)
    as [(d0 & Hrun0 & _)|(r & w1 & tr1 & Hrun1 & _ & _ & _ & Hchain)].
  { rewrite Hrun0 in Hrun. injection Hrun as _ _ <-. by destruct pre. }
  rewrite Hrun1 in Hrun. injection Hrun as _ _ ->.
  destruct (chain_run_handled_failure _ _ _ _ _ _ _ _ _ _ _ _ _ _ _ _ _ _ _
              Hchain Htr Hd) as (Hpost & Hpre & Hnext).
  split; [done|]. split.
  - intros Hn. rewrite Htr, calls_to_app. rewrite (Hpre Hn).
    change (Call i n args (Return d) :: post)
      with ([Call i n args (Return d)] ++ post).
    rewrite calls_to_app, calls_to_call, Hpost. by case_bool_decide.
  - by replace (S i - 0) with (S i) in Hnext by lia.
Qed.

Lemma handled_failure_moves_to_next_provider_witness :
  let bad : gmap string pyval :=
    {[ "success" := PyBool false; "error" := PyStr "unsupported" ]} in
  let ok : gmap string pyval :=
    {[ "success" := PyBool true; "result_url" := PyStr "https://cdn/x.jpg" ]} in
  let args := CallArgs "https://example.com/a.jpg" "https://example.com/face.jpg"
                IMAGE None ∅ in
  calls_to 0 [Call 1 0 args (Return ok)] = 0
  ∧ (0%Z = 0%Z →
     calls_to 0 [Call 0 0 args (Return bad); Call 1 0 args (Return ok)] = 1)
  ∧ ∃ o' post', [Call 1 0 args (Return ok)] = Call 1 0 args o' :: post'.
Proof.
  intros bad ok args.
  apply (handled_failure_moves_to_next_provider
           (λ _ (calls : nat), calls) sniff_magic [flaky 0 bad; flaky 0 ok]
           "https://example.com/a.jpg" "https://example.com/face.jpg" IMAGE 2%Z
           None ∅ 0 (Return ok) 2
           [Call 0 0 args (Return bad); Call 1 0 args (Return ok)]
           [] 0 0%Z args bad [Call 1 0 args (Return ok)]).
  - reflexivity.
  - reflexivity.
  - reflexivity.
Defined.

(** C3: when the first provider raises on attempt 0 and returns a success
    on attempt 1, the run is exactly: the call that raised, one delay of
    [2 ^ 1], the call that succeeded; that result is returned and no other
    provider is called.  And in every run, the call of attempt [n ≥ 1]
    comes right after a delay of [2 ^ n], and the call of attempt 0 does
    not come right after a delay. *)
Theorem second_attempt_success_after_one_backoff
    {World : Type} (asyncio_sleep : Z → World → World)
    (Image_open : list byte → outcome (option string))
    (providers : list (FaceSwapProvider World)) (target source : string)
    (media_type : FaceSwapMediaType) (retry_count : Z)
    (webhook_url : option string) (kwargs : gmap string pyval) (w : World) :
  (∀ first others e w1 d w2,
     providers = first :: others →
     valid target media_type → valid source IMAGE → (1 ≤ retry_count)%Z →
     let args :=
       FaceSwapGateway.args_for first (_normalize_base64 Image_open target)
         (_normalize_base64 Image_open source) media_type webhook_url kwargs in
     swap_face first args w = (Raise e, w1) →
     swap_face first args (asyncio_sleep (2 ^ 1)%Z w1) = (Return d, w2) →
     truthy (dict_get d "success") = true →
     FaceSwapGateway.swap_face asyncio_sleep Image_open providers target source
       media_type retry_count webhook_url kwargs w
     = (Return d, w2,
        [Call 0 0 args (Raise e); Sleep (2 ^ 1); Call 0 1 args (Return d)]))
  ∧ (∀ o w' tr pre i n args o' post,
       FaceSwapGateway.swap_face asyncio_sleep Image_open providers target
         source media_type retry_count webhook_url kwargs w = (o, w', tr) →
       tr = pre ++ Call i n args o' :: post →
       ((1 ≤ n)%Z → last pre = Some (Sleep (2 ^ n)))
       ∧ (n = 0%Z → ∀ seconds, last pre ≠ Some (Sleep seconds))).
Proof.
  split.
  - intros first others e w1 d w2 -> Htarget Hsource Hr args Hfault Hok Hd.
    unfold FaceSwapGateway.swap_face. unfold valid in Htarget, Hsource.
    destruct (_validate_input target media_type) as [target_valid target_error].
    destruct (_validate_input source IMAGE) as [source_valid source_error].
    cbn in Htarget, Hsource. subst. cbn [negb].
    rewrite run_bind. cbn [FaceSwapGateway.provider_loop]. rewrite run_bind.
    fold args.
    replace (range (retry_count + 1))
      with (0%Z :: 1%Z :: (Z.of_nat <$> seq 2 (Z.to_nat (retry_count - 1)))).
    2: { unfold range.
         replace (Z.to_nat (retry_count + 1))
           with (S (S (Z.to_nat (retry_count - 1)))) by lia. done. }
    cbn [FaceSwapGateway.retry_loop].
    rewrite run_bind, attempt_body_run.
    change (after_backoff asyncio_sleep 0 w) with w. rewrite Hfault.
    cbn beta iota zeta. rewrite run_bind, attempt_body_run.
    change (after_backoff asyncio_sleep 1 w1) with (asyncio_sleep (2 ^ 1)%Z w1).
    rewrite Hok, Hd. reflexivity.
  - intros o w' tr pre i n args o' post Hrun Htr.
    destruct (swap_face_run asyncio_sleep Image_open providers target source
                media_type retry_count webhook_url kwargs w)
      as [(d0 & Hrun0 & _)|(r & w1 & tr1 & Hrun1 & _ & _ & _ & Hchain)].
    { rewrite Hrun0 in Hrun. injection Hrun as _ _ <-. by destruct pre. }
    rewrite Hrun1 in Hrun. injection Hrun as _ _ ->.
    pose proof (chain_run_backoff _ _ _ _ _ _ _ _ _ _ _ _ _ _ _ _ _ _ _
                  Hchain Htr) as Hpre.
    unfold preceded_by_backoff in Hpre. split.
    + intros Hn. destruct (0 <? n)%Z eqn:E; [done|lia].
    + intros ->. done.
Qed.

Lemma second_attempt_success_after_one_backoff_witness :
  let ok : gmap string pyval :=
    {[ "success" := PyBool true; "result_url" := PyStr "https://cdn/x.jpg" ]} in
  let args := CallArgs "https://example.com/a.jpg" "https://example.com/face.jpg"
                IMAGE None ∅ in
  FaceSwapGateway.swap_face (λ _ (calls : nat), calls) sniff_magic
    [flaky 1 ok; broken] "https://example.com/a.jpg"
    "https://example.com/face.jpg" IMAGE 2%Z None ∅ 0
  = (Return ok, 2,
     [Call 0 0 args (Raise (Error "ConnectionError" "reset")); Sleep (2 ^ 1);
      Call 0 1 args (Return ok)]).
Proof.
  intros ok args.
  apply (proj1 (second_attempt_success_after_one_backoff
                  (λ _ (calls : nat), calls) sniff_magic [flaky 1 ok; broken]
                  "https://example.com/a.jpg" "https://example.com/face.jpg"
                  IMAGE 2%Z None ∅ 0)
           (flaky 1 ok) [broken] (Error "ConnectionError" "reset") 1 ok 2).
  - reflexivity.
  - reflexivity.
  - reflexivity.
  - lia.
  - reflexivity.
  - reflexivity.
  - reflexivity.
Defined.

(** C6: [swap_face] never raises: every run returns a result dictionary
    with a [success] entry; and when the target or the source fails
    validation, or the chain is empty, that result is a failure with an
    error message, returned with no provider called and the world
    untouched. *)
Theorem swap_face_always_returns
    {World : Type} (asyncio_sleep : Z → World → World)
    (Image_open : list byte → outcome (option string))
    (providers : list (FaceSwapProvider World)) (target source : string)
    (media_type : FaceSwapMediaType) (retry_count : Z)
    (webhook_url : option string) (kwargs : gmap string pyval) (w : World) :
  ∃ d w' tr,
    FaceSwapGateway.swap_face asyncio_sleep Image_open providers target source
      media_type retry_count webhook_url kwargs w = (Return d, w', tr)
    ∧ is_Some (d !! "success")
    ∧ (¬ valid target media_type ∨ ¬ valid source IMAGE ∨ providers = [] →
       tr = [] ∧ w' = w
       ∧ d !! "success" = Some (PyBool false) ∧ is_Some (d !! "error")).
Proof.
  destruct (swap_face_run asyncio_sleep Image_open providers target source
              media_type retry_count webhook_url kwargs w)
    as [(d & Hrun & _ & Hfalse & Herror & _)
       |(r & w' & tr & Hrun & Htarget & Hsource & Hne & Hchain)].
  - exists d, w, []. split; [done|]. split; [by rewrite Hfalse|done].
  - eexists _, w', tr. split; [done|]. split.
    + destruct r as [d|]; [|done]. cbn.
      pose proof (chain_run_some _ _ _ _ _ _ _ _ _ _ _ _ _ _ Hchain eq_refl)
        as Hd.
      unfold dict_get in Hd. by destruct (d !! "success").
    + intros [?|[?|?]]; done.
Qed.

(** ** The claims about validation and normalisation *)

Lemma format_map_tags (format tag : string) :
  format_map !! format = Some tag →
  tag ∈ ["jpeg"; "png"; "gif"; "webp"; "bmp"].
Proof.
  unfold format_map. rewrite !lookup_insert_Some, lookup_singleton_Some.
  intros H. repeat destruct H as [[_ <-]|[_ H]]; [..|destruct H as [_ <-]];
    repeat first [by left | right].
Qed.

(** C7: a string that starts with [http://] or [https://] is returned by
    normalisation as it is. *)
Theorem url_is_returned_unchanged
    (Image_open : list byte → outcome (option string)) (data : string) :
  startswith data "http://" = true ∨ startswith data "https://" = true →
  _normalize_base64 Image_open data = data.
Proof.
  intros Hurl. unfold _normalize_base64.
  destruct Hurl as [-> | ->]; [done|]. by rewrite orb_true_r.
Qed.

Lemma url_is_returned_unchanged_witness :
  _normalize_base64 sniff_magic "https://example.com/a.jpg"
  = "https://example.com/a.jpg".
Proof.
  apply (url_is_returned_unchanged sniff_magic "https://example.com/a.jpg").
  right. reflexivity.
Defined.

(** C5 (the failing input): the data URI [data:video/webm;base64,AAAA]
    passes validation as a video, since the validation pattern lists
    [webm]; the pattern of the normaliser does not, so the string is taken
    for raw base-64 and comes back wrapped in a second, [data:image/...]
    prefix, whatever Pillow makes of the bytes. *)
Theorem webm_data_uri_is_rewritten
    (Image_open : list byte → outcome (option string)) :
  let data := "data:video/webm;base64,AAAA" in
  _validate_input data VIDEO = (true, None)
  ∧ re_match validate_pattern_video data = true
  ∧ re_match normalize_pattern data = false
  ∧ _normalize_base64 Image_open data ≠ data
  ∧ ∃ tag, tag ∈ ["jpeg"; "png"; "gif"; "webp"; "bmp"]
           ∧ _normalize_base64 Image_open data
             = "data:image/" +:+ tag +:+ ";base64," +:+ data.
Proof.
  intros data.
  assert (∃ tag, tag ∈ ["jpeg"; "png"; "gif"; "webp"; "bmp"]
                 ∧ _normalize_base64 Image_open data
                   = "data:image/" +:+ tag +:+ ";base64," +:+ data) as Htag.
  { unfold _normalize_base64.
    change (startswith data "http://" || startswith data "https://") with false.
    change (re_match normalize_pattern data) with false. cbn beta iota.
    destruct (b64decode data) as [img_bytes|]; cbn; [|exists "jpeg"; split; [by left|done]].
    destruct (Image_open img_bytes) as [img_format|]; cbn;
      [|exists "jpeg"; split; [by left|done]].
    destruct (format_map !! str_or img_format "JPEG") as [tag|] eqn:Hlookup;
      cbn; [|exists "jpeg"; split; [by left|done]].
    exists tag. split; [by eapply format_map_tags|done]. }
  repeat split; try reflexivity; [|done].
  destruct Htag as (tag & _ & ->). discriminate.
Qed.

(** The data URIs normalisation does keep: every media type and format of
    the normaliser's own pattern, which is the whitelist without [webm]. *)
Lemma listed_data_uri_is_kept
    (Image_open : list byte → outcome (option string))
    (media format payload : string) :
  media ∈ ["image"; "video"] →
  format ∈ ["jpeg"; "jpg"; "png"; "gif"; "webp"; "bmp"; "mp4"; "avi"; "mov"] →
  let data := "data:" +:+ media +:+ "/" +:+ format +:+ ";base64," +:+ payload in
  _validate_input data VIDEO = (true, None)
  ∧ _normalize_base64 Image_open data = data.
Proof.
  intros Hmedia Hformat.
  repeat (apply elem_of_cons in Hmedia as [->|Hmedia]);
    [| |by apply elem_of_nil in Hmedia];
    repeat (apply elem_of_cons in Hformat as [->|Hformat]);
    try (by apply elem_of_nil in Hformat); by split.
Qed.

Lemma image_data_uri_is_kept
    (Image_open : list byte → outcome (option string))
    (format payload : string) :
  format ∈ ["jpeg"; "jpg"; "png"; "gif"; "webp"; "bmp"] →
  let data := "data:image/" +:+ format +:+ ";base64," +:+ payload in
  _validate_input data IMAGE = (true, None)
  ∧ _normalize_base64 Image_open data = data.
Proof.
  intros Hformat.
  repeat (apply elem_of_cons in Hformat as [->|Hformat]);
    try (by apply elem_of_nil in Hformat); by split.
Qed.

(** C8 (counterexample): the base-64 of a TIFF header decodes, is sniffed
    as TIFF without any failure, and is tagged [jpeg] all the same. *)
Lemma sniffing_claim_fails_on_tiff : ¬ sniffing_claim.
Proof.
  intros Hclaim.
  destruct (Hclaim sniff_magic "SUkqAAgAAAA=" IMAGE) as [_ Hnorm].
  { by repeat split. }
  vm_compute in Hnorm. discriminate.
Qed.

(** C8 (amended): for a raw string, validation succeeds exactly when the
    string decodes as base-64, and normalisation prefixes it with
    [data:image/<tag>;base64,] where the tag is the sniffed format if that
    is JPEG, PNG, GIF, WEBP or BMP, and [jpeg] in every other case: another
    or no format, sniffing raising, or the string not decoding. *)
Theorem raw_base64_is_validated_and_tagged
    (Image_open : list byte → outcome (option string)) (data : string)
    (media_type : FaceSwapMediaType) :
  raw data →
  ((_validate_input data media_type).1 = true
   ↔ returned (b64decode data) = true)
  ∧ _normalize_base64 Image_open data
    = "data:image/" +:+ known_tag Image_open data +:+ ";base64," +:+ data.
Proof.
  intros (Hhttp & Hhttps & Himage & Hvideo & Hnorm). split.
  - unfold _validate_input. rewrite Hhttp, Hhttps. cbn [orb].
    destruct media_type; rewrite ?Himage, ?Hvideo;
      by destruct (b64decode data).
  - unfold _normalize_base64, known_tag. rewrite Hhttp, Hhttps, Hnorm.
    cbn [orb]. destruct (b64decode data) as [img_bytes|]; cbn; [|done].
    destruct (Image_open img_bytes) as [[format|]|]; cbn; [|done..].
    destruct (String.eqb_spec format "") as [->|Hempty]; [done|].
    destruct (String.eqb_spec format "PNG") as [->|HPNG]; [done|].
    destruct (String.eqb_spec format "GIF") as [->|HGIF]; [done|].
    destruct (String.eqb_spec format "WEBP") as [->|HWEBP]; [done|].
    destruct (String.eqb_spec format "BMP") as [->|HBMP]; [done|].
    destruct (decide (format = "JPEG")) as [->|HJPEG]; [done|].
    unfold format_map.
    by rewrite !lookup_insert_ne, lookup_singleton_ne.
Qed.

Lemma raw_base64_is_validated_and_tagged_witness :
  ((_validate_input "iVBORw0KGgo=" IMAGE).1 = true
   ↔ returned (b64decode "iVBORw0KGgo=") = true)
  ∧ _normalize_base64 sniff_magic "iVBORw0KGgo="
    = "data:image/" +:+ known_tag sniff_magic "iVBORw0KGgo=" +:+ ";base64,"
      +:+ "iVBORw0KGgo=".
Proof.
  apply (raw_base64_is_validated_and_tagged sniff_magic "iVBORw0KGgo=" IMAGE).
  repeat split; reflexivity.
Defined.

Example normalize_png_signature :
  _normalize_base64 sniff_magic "iVBORw0KGgo=" = "data:image/png;base64,iVBORw0KGgo=".
Proof. reflexivity. Qed.



Example empty_target_reaches_the_provider :
  (FaceSwapGateway.swap_face (λ _ (calls : nat), calls) sniff_magic
     [flaky 0 {[ "success" := PyBool true ]}] "" "" IMAGE 0%Z None ∅ 0).2
  = [Call 0 0
       (CallArgs "data:image/jpeg;base64," "data:image/jpeg;base64," IMAGE None ∅)
       (Return {[ "success" := PyBool true ]})].
Proof. reflexivity. Qed.

(** ** The webhook URL *)


(** ** The results of the adapters *)

Lemma nano_banana_result target source media_type w :
  ∃ d w' evs,
    NanoBananaProvider.swap_face target source media_type w = (Return d, w', evs)
    ∧ (sync_success d ∨ reported_failure d) ∧ untracked d.
Proof.
  unfold NanoBananaProvider.swap_face. destruct media_type.
  - adapter_steps. unfold replicate_run.
    destruct (replicate_replies w) as [|[took reply] rest].
    { eexists _, _, _. split; [reflexivity|]. split; [right|]; by repeat split; eauto. }
    destruct (_ <? _)%Z.
    { eexists _, _, _. split; [reflexivity|]. split; [right|]; by repeat split; eauto. }
    destruct reply as [output|e].
    + destruct (output_truthy output);
        eexists _, _, _; (split; [reflexivity|]); (split; [|done]);
        [left|right]; by repeat split; eauto.
    + destruct e; eexists _, _, _; (split; [reflexivity|]);
        (split; [right|]); by repeat split; eauto.
  - eexists _, _, _. split; [reflexivity|]. split; [right|]; by repeat split; eauto.
Qed.

Lemma replicate_models_result models target source w :
  ∃ d w' evs,
    ReplicateProvider.try_models models target source w = (Return d, w', evs)
    ∧ (sync_success d ∨ reported_failure d) ∧ untracked d.
Proof.
  revert w. induction models as [|[model_key config] rest IH]; intros w.
  - eexists _, _, _. split; [reflexivity|]. split; [right|]; by repeat split; eauto.
  - cbn [ReplicateProvider.try_models]. adapter_steps. unfold replicate_run.
    destruct (replicate_replies w) as [|[took reply] replies].
    { destruct (IH w) as (d & w' & evs & -> & Hd). eauto 10. }
    destruct (_ <? _)%Z.
    { match goal with |- context [ReplicateProvider.try_models rest _ _ ?w1] =>
        destruct (IH w1) as (d & w' & evs & -> & Hd) end. eauto 10. }
    destruct reply as [output|e].
    + destruct (output_truthy output).
      * eexists _, _, _. split; [reflexivity|]. split; [left|];
          by repeat split; eauto.
      * match goal with |- context [ReplicateProvider.try_models rest _ _ ?w1] =>
          destruct (IH w1) as (d & w' & evs & -> & Hd) end. eauto 10.
    + match goal with |- context [ReplicateProvider.try_models rest _ _ ?w1] =>
        destruct (IH w1) as (d & w' & evs & -> & Hd) end. eauto 10.
Qed.

Lemma replicate_result target source media_type w :
  ∃ d w' evs,
    ReplicateProvider.swap_face target source media_type w = (Return d, w', evs)
    ∧ (sync_success d ∨ reported_failure d) ∧ untracked d.
Proof.
  unfold ReplicateProvider.swap_face. destruct media_type.
  - apply replicate_models_result.
  - eexists _, _, _. split; [reflexivity|]. split; [right|]; by repeat split; eauto.
Qed.

Section PiAPIFacts.
Variable py_str : pyval → string.
Variable sha256_hexdigest : string → string.
Variable api_key : string.

Lemma poll_body_result media_type task_id w d w1 tr1 :
  PiAPIProvider.poll_body py_str api_key media_type task_id w
    = (Return (Some d), w1, tr1) →
  (sync_success d ∨ reported_failure d) ∧ d !! "task_id" = Some task_id
  ∧ d !! "provider" = Some (PyStr "PiAPI").
Proof.
  unfold PiAPIProvider.poll_body, requests_get, net_sleep. adapter_steps.
  destruct (get_replies w) as [|[took reply] rest]; [done|].
  destruct reply as [result|]; [|done].
  destruct (subscript result "data") as [data|]; [|done].
  destruct (subscript data "status") as [status|]; [|done].
  destruct (py_eq_str status "completed").
  { destruct (subscript data "output") as [output|]; [|done].
    destruct (method_get output _ PyNone) as [result_url|]; [|done].
    intros [= <- _ _]. split; [left|]; by repeat split; eauto. }
  destruct (py_eq_str status "failed"); [|done].
  destruct (method_get data "error" _) as [error|]; [|done].
  intros [= <- _ _]. split; [right|]; by repeat split; eauto.
Qed.

(** What the polling loop hands back: a completed task, with the result
    URL and the task id; a failed or timed-out task, with the task id; or
    the exception of a poll that went wrong. *)
Lemma poll_result media_type task_id timeout start_time w :
  match (PiAPIProvider.poll py_str api_key media_type task_id timeout
           start_time w).1.1 with
  | Return d =>
      (sync_success d ∨ reported_failure d) ∧ d !! "task_id" = Some task_id
      ∧ d !! "provider" = Some (PyStr "PiAPI")
  | Raise _ => True
  end.
Proof.
  funelim (PiAPIProvider.poll py_str api_key media_type task_id timeout
             start_time w); cbn.
  - split; [right|]; by repeat split; eauto.
  - by eapply poll_body_result.
  - destruct (PiAPIProvider.poll _ _ _ _ _ _ w1) as [[o w2] tr2]. by cbn in *.
  - done.
Qed.

Lemma piapi_result target source media_type webhook_url w :
  ∃ d w' evs,
    PiAPIProvider.swap_face py_str sha256_hexdigest api_key target source
      media_type webhook_url w = (Return d, w', evs)
    ∧ (sync_success d ∨ async_accepted d ∨ reported_failure d)
    ∧ (is_Some (d !! "result_url") ∨ d !! "async" = Some (PyBool true) →
       is_Some (d !! "task_id"))
    ∧ d !! "provider" = Some (PyStr "PiAPI").
Proof.
  unfold PiAPIProvider.swap_face.
  assert (∃ config, PiAPIProvider.MODELS !! media_value media_type = Some config)
    as [config ->] by (destruct media_type; eexists; reflexivity).
  unfold try_except.
  destruct (PiAPIProvider.create_and_wait py_str sha256_hexdigest api_key
              config target source media_type webhook_url w)
    as [[[d|e] w1] evs] eqn:Hbody.
  2: { eexists _, _, _. split; [reflexivity|]. split.
       - right; right. by repeat split; eauto.
       - split; [|done]. intros [[? [=]]|[=]]. }
  exists d, w1, evs. split; [done|].
  revert Hbody. unfold PiAPIProvider.create_and_wait.
  set (payload := match webhook_url with Some _ => _ | None => _ end).
  adapter_steps.
  destruct (payload w) as [[[p|] w0] evs0]; [|done].
  unfold requests_post.
  destruct (post_replies w0) as [|[took reply] rest]; [done|].
  destruct reply as [create_response|]; [|done].
  destruct (method_get create_response "code" PyNone) as [code|]; [|done].
  destruct (py_eq_int code 200); cbn [negb].
  2: { intros [= <- _ _]. split.
       - right; right. by repeat split; eauto.
       - split; [|done]. intros [[? [=]]|[=]]. }
  destruct (subscript create_response "data") as [data|]; [|done].
  destruct (subscript data "task_id") as [task_id|]; [|done].
  destruct (webhook_given webhook_url).
  { intros [= <- _ _]. split; [right; left|]; by repeat split; eauto. }
  unfold time_time.
  match goal with |- context [PiAPIProvider.poll ?a ?b ?c ?d ?e ?f ?g] =>
    pose proof (poll_result c d e f g) as Hpoll;
    destruct (PiAPIProvider.poll a b c d e f g) as [[o w2] evs2] end.
  cbn in Hpoll. intros [= -> _ _].
  destruct Hpoll as ([Hd|Hd] & Htask & Hprovider).
  - split; [by left|]. split; [|done]. intros _. by rewrite Htask.
  - split; [by right; right|]. split; [|done]. intros _. by rewrite Htask.
Qed.
End PiAPIFacts.

Example piapi_polled_completion :
  (PiAPIProvider.swap_face str_plain id "key" "https://example.com/a.jpg"
     "https://example.com/face.jpg" IMAGE None piapi_completes).1.1
  = Return (PiAPIProvider.task_completed IMAGE
              (PyStr "https://img.example/out.jpg") (PyStr "t-1")).
Proof. vm_compute. reflexivity. Qed.

(** C4 (counterexample): the result PiAPI returns for a task it polled to
    completion carries the result URL and the task id together. *)
Lemma result_contract_claim_fails_on_polled_completion :
  ¬ result_contract_claim.
Proof.
  intros Hclaim.
  destruct (Hclaim (PiAPIProvider.task_completed IMAGE
                      (PyStr "https://img.example/out.jpg") (PyStr "t-1")))
    as (_ & Hmix & _).
  - right; right.
    exists str_plain, id, "key", "https://example.com/a.jpg",
      "https://example.com/face.jpg", IMAGE, None, piapi_completes.
    eexists _, _. vm_compute. reflexivity.
  - apply Hmix. split; eexists; (split; [reflexivity|discriminate]).
Qed.

(** What is left out of C4: a task reported as completed with no URL in its
    output is passed on as a success whose result URL is [None]. *)
Example piapi_completed_without_url :
  (PiAPIProvider.swap_face str_plain id "key" "https://example.com/a.jpg"
     "https://example.com/face.jpg" IMAGE None piapi_completes_without_url).1.1
  = Return (PiAPIProvider.task_completed IMAGE PyNone (PyStr "t-1")).
Proof. vm_compute. reflexivity. Qed.

Lemma shapes_exclude_each_other (d : gmap string pyval) :
  synchronous_success d ∨ asynchronous_acceptance d ∨ reported_failure d →
  exactly_one_shape d.
Proof.
  unfold exactly_one_shape, synchronous_success, asynchronous_acceptance,
    reported_failure.
  intros [(Hs & Hu & Ha)|[(Hs & Ha & Ht & Hu)|(Hs & He & Hu & Ha)]].
  - left. split; [done|]. split.
    + intros (_ & Ha' & _). congruence.
    + intros (Hs' & _). congruence.
  - right; left. split; [|split; [done|]].
    + intros (_ & _ & Ha'). congruence.
    + intros (Hs' & _). congruence.
  - right; right. split; [|split; [|done]].
    + intros (Hs' & _). congruence.
    + intros (Hs' & _). congruence.
Qed.

Lemma present_is_Some (d : gmap string pyval) (key : string) :
  is_Some (d !! key) → d !! key ≠ Some PyNone → present d key.
Proof. intros [v Hv] Hnull. exists v. split; [done|]. congruence. Qed.

(** The keys of a result, adapter by adapter: one of the three shapes,
    and a task id next to a result URL only from PiAPI. *)
Lemma adapter_result_keys (d : gmap string pyval) :
  produced_by_adapter d →
  (sync_success d ∨ async_accepted d ∨ reported_failure d)
  ∧ (is_Some (d !! "result_url") ∧ is_Some (d !! "task_id") →
     d !! "provider" = Some (PyStr "PiAPI")).
Proof.
  intros [(target & source & media_type & w & w' & evs & Hrun)
         |[(target & source & media_type & w & w' & evs & Hrun)
          |(py_str & sha & api_key & target & source & media_type & webhook_url
            & w & w' & evs & Hrun)]].
  - destruct (nano_banana_result target source media_type w)
      as (d0 & w0 & evs0 & Hrun0 & Hshape & Hno).
    rewrite Hrun0 in Hrun. injection Hrun as -> _ _.
    split; [tauto|]. unfold untracked in Hno. rewrite Hno.
    intros [_ [? [=]]].
  - destruct (replicate_result target source media_type w)
      as (d0 & w0 & evs0 & Hrun0 & Hshape & Hno).
    rewrite Hrun0 in Hrun. injection Hrun as -> _ _.
    split; [tauto|]. unfold untracked in Hno. rewrite Hno.
    intros [_ [? [=]]].
  - destruct (piapi_result py_str sha api_key target source media_type
                webhook_url w)
      as (d0 & w0 & evs0 & Hrun0 & Hshape & Htask & Hprovider).
    rewrite Hrun0 in Hrun. injection Hrun as -> _ _. by split.
Qed.

(** C4 (amended): every result an adapter produces, in which neither the
    result URL nor the task id is [None], has exactly one of the three
    shapes -- a synchronous success with a result URL present and no async
    flag, an accepted asynchronous task with [async] true, a task id present
    and no result URL, or a failure with an error message and no result
    URL -- and every successful one carries a result URL or a task id.  A
    result URL and a task id are not exclusive: they come together, and
    only so, in a synchronous success of the PiAPI adapter. *)
Theorem adapter_results_have_one_shape (d : gmap string pyval) :
  produced_by_adapter d → without_null d →
  exactly_one_shape d
  ∧ (d !! "success" = Some (PyBool true) →
     present d "result_url" ∨ present d "task_id")
  ∧ (present d "result_url" ∧ present d "task_id" →
     synchronous_success d ∧ d !! "provider" = Some (PyStr "PiAPI")).
Proof.
  intros Hd [Hurl Htask].
  destruct (adapter_result_keys d Hd) as [Hshape Hboth].
  assert (synchronous_success d ∨ asynchronous_acceptance d ∨ reported_failure d)
    as Hstrong.
  { destruct Hshape as [(Hok & Hu & Ha)|[(Hok & Ha & Ht & Hu)|Hfail]].
    - left. split; [done|]. split; [by apply present_is_Some|done].
    - right; left. split; [done|]. split; [done|].
      split; [by apply present_is_Some|done].
    - by right; right. }
  split; [by apply shapes_exclude_each_other|]. split.
  - intros Hok.
    destruct Hstrong as [(_ & Hu & _)|[(_ & _ & Ht & _)|(Hfail & _)]];
      [by left|by right|].
    rewrite Hfail in Hok. discriminate.
  - intros [(url & Hu & Hreal) (task_id & Ht & _)]. split.
    + destruct Hstrong as [Hsync|[(_ & _ & _ & Hnone)|(_ & _ & Hnone & _)]];
        [done|congruence..].
    + apply Hboth. split; by eexists.
Qed.

Lemma adapter_results_have_one_shape_witness :
  let d := PiAPIProvider.task_completed IMAGE
             (PyStr "https://img.example/out.jpg") (PyStr "t-1") in
  exactly_one_shape d
  ∧ (d !! "success" = Some (PyBool true) →
     present d "result_url" ∨ present d "task_id")
  ∧ (present d "result_url" ∧ present d "task_id" →
     synchronous_success d ∧ d !! "provider" = Some (PyStr "PiAPI")).
Proof.
  apply (adapter_results_have_one_shape
           (PiAPIProvider.task_completed IMAGE
              (PyStr "https://img.example/out.jpg") (PyStr "t-1"))).
  - right; right.
    exists str_plain, id, "key", "https://example.com/a.jpg",
      "https://example.com/face.jpg", IMAGE, None, piapi_completes.
    eexists _, _. vm_compute. reflexivity.
  - split; discriminate.
Defined.



(** ** Examples *)

Example b64decode_TWFu : b64decode "TWFu" = Return ["M"; "a"; "n"]%byte.
Proof. reflexivity. Qed.

Example b64decode_padded : b64decode "TWE=" = Return ["M"; "a"]%byte.
Proof. reflexivity. Qed.

Example b64decode_short : returned (b64decode "TWF") = false.
Proof. reflexivity. Qed.

Example b64decode_skips_other_characters :
  b64decode "data:video/webm;base64,AAAA"
  = Return [x75; xab; x5a; xbe; x27; x5e; xa3; xfc; x1e; x6e; x66; xda; xb1;
            xee; xb8; x00; x00; x00].
Proof. reflexivity. Qed.

Example validate_png_uri :
  _validate_input "data:image/PNG;base64,AAAA" IMAGE = (true, None).
Proof. reflexivity. Qed.

Example validate_rejects_text :
  _validate_input "hello" IMAGE
  = (false, Some "Invalid input: must be URL or base64 encoded image").
Proof. reflexivity. Qed.

(** The image-only adapters turn a video request down with a failure
    result, without sending anything. *)
Example image_only_adapters_refuse_video (target source : string) (w : Net) :
  NanoBananaProvider.swap_face target source VIDEO w
  = (Return {[ "success" := PyBool false;
               "error" := PyStr "Nano-Banana does not support video face swap";
               "provider" := PyStr "Nano-Banana" ]}, w, [])
  ∧ ReplicateProvider.swap_face target source VIDEO w
    = (Return {[ "success" := PyBool false;
                 "error" :=
                   PyStr "Replicate provider does not support video face swap";
                 "provider" := PyStr "Replicate" ]}, w, []).
Proof. split; reflexivity. Qed.

(** A whole request through the chain of a gateway that has the Replicate
    credential only: a URL as target, the raw base-64 of a PNG signature as
    source, no retry.  The first provider answers, and the source it was
    given carries the tag [png]. *)
Example request_through_the_gateway :
  let source := "data:image/png;base64,iVBORw0KGgo=" in
  let args := CallArgs "https://example.com/a.jpg" source IMAGE None ∅ in
  let result : gmap string pyval :=
    {[ "success" := PyBool true;
       "result_url" := PyStr "https://replicate.delivery/out.jpg";
       "message" :=
         PyStr "Face swap completed via Nano-Banana (Gemini 2.5 Flash Image)";
       "provider" := PyStr "Nano-Banana";
       "model" := PyStr "google/nano-banana";
       "watermark" := PyStr "SynthID (invisible)" ]} in
  let sent : gmap string pyval :=
    {[ "prompt" := PyStr NanoBananaProvider.prompt;
       "image_input" := PyList [PyStr "https://example.com/a.jpg"; PyStr source];
       "aspect_ratio" := PyStr "match_input_image";
       "output_format" := PyStr "jpg" ]} in
  map get_name (FaceSwapGateway.__init__ str_plain id (Some "r8_token") None)
    = ["Nano-Banana"; "Replicate"]
  ∧ FaceSwapGateway.swap_face asyncio_sleep_net sniff_magic
      (FaceSwapGateway.__init__ str_plain id (Some "r8_token") None)
      "https://example.com/a.jpg" "iVBORw0KGgo=" IMAGE 0%Z None ∅
      replicate_answers
    = (Return result,
       MkNet 9 [] [] [] [ReplicateRun "google/nano-banana" sent],
       [Call 0 0 args (Return result)]).
Proof. split; vm_compute; reflexivity. Qed.

Example replicate_timeout_is_the_longest : ReplicateProvider.get_timeout = 90%Z.
Proof. reflexivity. Qed.

Example replicate_models_in_priority_order :
  fst <$> ReplicateProvider.sorted_models = ["easel"; "omniedge"].
Proof. reflexivity. Qed.

(** * Further properties of the module *)

(** ** The pattern matcher against the words of a pattern *)

Lemma strip_literal_app (x y s : string) :
  strip_literal (x +:+ y) s = strip_literal x s ≫= strip_literal y.
Proof.
  revert s. induction x as [|a x IH]; intros s; [done|].
  change (String a x +:+ y) with (String a (x +:+ y)).
  destruct s as [|b s]; cbn; [done|].
  destruct (Ascii.eqb _ _); [apply IH|done].
Qed.

(** What is left after a match of [r] is what is left after stripping one
    of the words of [r], ignoring case. *)
Lemma residuals_words (r : regex) (s s' : string) :
  s' ∈ residuals r s ↔ ∃ l, l ∈ words r ∧ strip_literal l s = Some s'.
Proof.
  revert s s'. induction r as [l|r1 IH1 r2 IH2|r1 IH1 r2 IH2]; intros s s'; cbn.
  - destruct (strip_literal l s) as [t|] eqn:Hl.
    + rewrite list_elem_of_singleton. split.
      * intros ->. exists l. split; [by left|done].
      * intros (l' & ->%list_elem_of_singleton & Hl'). congruence.
    + split; [by intros ?%elem_of_nil|].
      intros (l' & ->%list_elem_of_singleton & Hl'). congruence.
  - rewrite elem_of_app, IH1, IH2. split.
    + intros [(l & Hl & Hs)|(l & Hl & Hs)]; exists l;
        (split; [|done]); apply elem_of_app; auto.
    + intros (l & [Hl|Hl]%elem_of_app & Hs); [left|right]; eauto.
  - rewrite list_elem_of_In, in_flat_map. split.
    + intros (t & Ht%list_elem_of_In%IH1 & Hs'%list_elem_of_In%IH2).
      destruct Ht as (x & Hx & Hxs), Hs' as (y & Hy & Hyt).
      exists (x +:+ y). split.
      * apply list_elem_of_In, in_flat_map. exists x.
        split; [by apply list_elem_of_In|].
        apply list_elem_of_In, list_elem_of_fmap. eauto.
      * by rewrite strip_literal_app, Hxs.
    + intros (l & (x & Hx%list_elem_of_In & Hl%list_elem_of_In)%list_elem_of_In%in_flat_map & Hs).
      apply list_elem_of_fmap in Hl as (y & -> & Hy).
      rewrite strip_literal_app in Hs.
      destruct (strip_literal x s) as [t|] eqn:Hxs; [|done]. cbn in Hs.
      exists t. split; apply list_elem_of_In; [apply IH1|apply IH2]; eauto.
Qed.

(** [re.match] succeeds exactly when the string starts, ignoring case, with
    one of the words of the pattern. *)
Lemma re_match_words (r : regex) (s : string) :
  re_match r s = true ↔ ∃ l, l ∈ words r ∧ is_Some (strip_literal l s).
Proof.
  unfold re_match. destruct (residuals r s) as [|s' rest] eqn:Hres.
  - split; [done|]. intros (l & Hl & [s' Hs']).
    assert (s' ∈ residuals r s) as Hin by (apply residuals_words; eauto).
    rewrite Hres in Hin. by apply elem_of_nil in Hin.
  - split; [|done]. intros _.
    assert (s' ∈ residuals r s) as Hin by (rewrite Hres; by left).
    apply residuals_words in Hin as (l & Hl & Hs'). eauto.
Qed.

Lemma re_match_included (r1 r2 : regex) (s : string) :
  words r1 ⊆ words r2 → re_match r1 s = true → re_match r2 s = true.
Proof.
  intros Hsub (l & Hl & Hs)%re_match_words. apply re_match_words. eauto.
Qed.

(** ** Validation and normalisation *)

Lemma words_included (r1 r2 : regex) :
  forallb (λ l, bool_decide (l ∈ words r2)) (words r1) = true →
  words r1 ⊆ words r2.
Proof.
  intros Hall l Hl. rewrite forallb_forall in Hall.
  apply list_elem_of_In, Hall in Hl. by apply bool_decide_eq_true in Hl.
Qed.

(** X1: whatever is valid as an image is valid as a video: the two kinds
    differ only in the data URIs they accept, and the video pattern spells
    every word of the image pattern. *)
Theorem valid_image_is_valid_video (data : string) :
  valid data IMAGE → valid data VIDEO.
Proof.
  unfold valid, _validate_input.
  destruct (startswith data "http://" || startswith data "https://"); [done|].
  destruct (re_match validate_pattern_image data) eqn:Himage.
  - intros _.
    rewrite (re_match_included validate_pattern_image validate_pattern_video);
      [done| |done].
    apply words_included. by vm_compute.
  - destruct (re_match validate_pattern_video data); [done|].
    by destruct (b64decode data).
Qed.

Lemma valid_image_is_valid_video_witness : valid "iVBORw0KGgo=" VIDEO.
Proof. apply (valid_image_is_valid_video "iVBORw0KGgo="). reflexivity. Defined.

Lemma validation_error_names_the_kind (data : string)
    (media_type : FaceSwapMediaType) :
  _validate_input data media_type = (true, None)
  ∨ _validate_input data media_type
    = (false, Some ("Invalid input: must be URL or base64 encoded "
                    +:+ media_value media_type))
      ∧ startswith data "http://" = false
      ∧ startswith data "https://" = false
      ∧ returned (b64decode data) = false.
Proof.
  unfold _validate_input.
  destruct (startswith data "http://"); [by left|].
  destruct (startswith data "https://"); [by left|]. cbn [orb].
  destruct (re_match _ data); [by left|].
  destruct (b64decode data); [by left|]. right. by destruct media_type.
Qed.

Lemma canonical_is_fixed
    (Image_open : list byte → outcome (option string)) (data : string) :
  canonical data → _normalize_base64 Image_open data = data.
Proof.
  unfold canonical, _normalize_base64. intros [->|[->|Hm]]; [done| |].
  - by rewrite orb_true_r.
  - rewrite Hm. by destruct (_ || _).
Qed.

Lemma normalize_canonical
    (Image_open : list byte → outcome (option string)) (data : string) :
  canonical (_normalize_base64 Image_open data).
Proof.
  unfold canonical, _normalize_base64.
  destruct (startswith data "http://") eqn:Hhttp; [by left|].
  destruct (startswith data "https://") eqn:Hhttps; [by right; left|].
  cbn [orb]. right; right.
  destruct (re_match normalize_pattern data) eqn:Hm; [done|].
  destruct (b64decode data) as [img_bytes|]; cbn; [|done].
  destruct (Image_open img_bytes) as [img_format|]; cbn; [|done].
  destruct (format_map !! str_or img_format "JPEG") as [tag|] eqn:Hlookup;
    cbn; [|done].
  apply format_map_tags in Hlookup.
  repeat (apply elem_of_cons in Hlookup as [->|Hlookup]); try done.
  by apply elem_of_nil in Hlookup.
Qed.

(** X2: what normalisation returns is a URL or a data URI of its own
    pattern, for every input string and whatever Pillow answers. *)
Theorem normalized_is_canonical
    (Image_open : list byte → outcome (option string)) (data : string) :
  canonical (_normalize_base64 Image_open data).
Proof. apply normalize_canonical. Qed.

(** X3: normalising twice is normalising once. *)
Theorem normalize_is_idempotent
    (Image_open : list byte → outcome (option string)) (data : string) :
  _normalize_base64 Image_open (_normalize_base64 Image_open data)
  = _normalize_base64 Image_open data.
Proof. apply canonical_is_fixed, normalize_canonical. Qed.

(** X4: a data URI that validation accepts comes through normalisation
    unchanged unless its format is [webm]: the two patterns differ in the
    two [webm] words and in nothing else. *)
Theorem accepted_data_uri_is_kept_unless_webm
    (Image_open : list byte → outcome (option string)) (data : string)
    (media_type : FaceSwapMediaType) :
  re_match (match media_type with
            | VIDEO => validate_pattern_video
            | IMAGE => validate_pattern_image
            end) data = true →
  _normalize_base64 Image_open data = data
  ∨ (media_type = VIDEO
     ∧ (is_Some (strip_literal "data:image/webm;base64," data)
        ∨ is_Some (strip_literal "data:video/webm;base64," data))).
Proof.
  intros Hm.
  destruct (re_match normalize_pattern data) eqn:Hnorm.
  { left. apply canonical_is_fixed. by right; right. }
  destruct media_type.
  - rewrite (re_match_included validate_pattern_image normalize_pattern) in Hnorm;
      [done| |done].
    apply words_included. by vm_compute.
  - right. split; [done|].
    apply re_match_words in Hm as (l & Hl & Hs).
    assert (forallb (λ l, bool_decide (l ∈ words normalize_pattern)
                          || String.eqb l "data:image/webm;base64,"
                          || String.eqb l "data:video/webm;base64,")
              (words validate_pattern_video) = true) as Hall by by vm_compute.
    rewrite forallb_forall in Hall.
    apply list_elem_of_In, Hall in Hl.
    apply orb_true_iff in Hl as [Hl|Hl];
      [apply orb_true_iff in Hl as [Hin|Hl]|];
      [apply bool_decide_eq_true in Hin
      |apply String.eqb_eq in Hl as ->; by left
      |apply String.eqb_eq in Hl as ->; by right].
    assert (re_match normalize_pattern data = true) as Hyes
      by (apply re_match_words; eauto).
    congruence.
Qed.

Lemma accepted_data_uri_is_kept_unless_webm_witness :
  _normalize_base64 sniff_magic "data:video/mp4;base64,AAAA"
    = "data:video/mp4;base64,AAAA"
  ∨ (VIDEO = VIDEO
     ∧ (is_Some (strip_literal "data:image/webm;base64," "data:video/mp4;base64,AAAA")
        ∨ is_Some (strip_literal "data:video/webm;base64," "data:video/mp4;base64,AAAA"))).
Proof.
  apply (accepted_data_uri_is_kept_unless_webm sniff_magic
           "data:video/mp4;base64,AAAA" VIDEO).
  reflexivity.
Defined.

(** X5: normalisation preserves validity: a reference that passed
    validation for a media type still passes it after normalisation, and
    whatever normalisation returns is valid as a video reference. *)
Theorem normalisation_preserves_validity
    (Image_open : list byte → outcome (option string)) (data : string)
    (media_type : FaceSwapMediaType) :
  valid (_normalize_base64 Image_open data) VIDEO
  ∧ (valid data media_type →
     valid (_normalize_base64 Image_open data) media_type).
Proof.
  assert (valid (_normalize_base64 Image_open data) VIDEO) as Hvideo.
  { unfold valid, _validate_input.
    destruct (normalize_canonical Image_open data) as [->|[->|Hm]];
      [done|by rewrite orb_true_r|].
    destruct (_ || _); [done|].
    rewrite (re_match_included normalize_pattern validate_pattern_video);
      [done| |done].
    apply words_included. by vm_compute. }
  split; [done|]. destruct media_type; [|done].
  unfold valid, _validate_input, _normalize_base64.
  destruct (startswith data "http://" || startswith data "https://") eqn:Hurl.
  { by rewrite Hurl. }
  destruct (re_match normalize_pattern data) eqn:Hm.
  { by rewrite Hurl. }
  intros _.
  assert (∀ tag, tag ∈ ["jpeg"; "png"; "gif"; "webp"; "bmp"] →
            (_validate_input ("data:image/" +:+ tag +:+ ";base64," +:+ data)
               IMAGE).1 = true) as Htag.
  { intros tag Htag.
    repeat (apply elem_of_cons in Htag as [->|Htag]); try done.
    by apply elem_of_nil in Htag. }
  destruct (b64decode data) as [img_bytes|]; cbn;
    [|by apply (Htag "jpeg"); left].
  destruct (Image_open img_bytes) as [img_format|]; cbn;
    [|by apply (Htag "jpeg"); left].
  destruct (format_map !! str_or img_format "JPEG") as [tag|] eqn:Hlookup;
    cbn; [|by apply (Htag "jpeg"); left].
  apply Htag. by eapply format_map_tags.
Qed.

Lemma normalisation_preserves_validity_witness :
  valid (_normalize_base64 sniff_magic "iVBORw0KGgo=") VIDEO
  ∧ valid (_normalize_base64 sniff_magic "iVBORw0KGgo=") IMAGE.
Proof.
  destruct (normalisation_preserves_validity sniff_magic "iVBORw0KGgo=" IMAGE)
    as [Hvideo Himage].
  split; [exact Hvideo|]. apply Himage. reflexivity.
Defined.

(** ** Raw base-64 *)

Lemma alphabet_is_ascii c n :
  table_a2b_base64 c = Some n → (N_of_ascii c <? 128)%N = true.
Proof.
  unfold table_a2b_base64. intros Hc. apply N.ltb_lt.
  repeat match type of Hc with
         | (if ?b then _ else _) = _ => destruct b eqn:?
         end; try done;
    repeat match goal with
           | H : (_ && _) = true |- _ => apply andb_true_iff in H as [? ?]
           | H : (_ <=? _)%N = true |- _ => apply N.leb_le in H
           | H : (_ =? _)%N = true |- _ => apply N.eqb_eq in H
           end; lia.
Qed.

Lemma alphabet_is_not_special c n :
  table_a2b_base64 c = Some n →
  Ascii.eqb c "=" = false ∧ Ascii.eqb ":" (lower_ascii c) = false.
Proof.
  destruct c as [[] [] [] [] [] [] [] []]; by vm_compute.
Qed.

Lemma all_alphabet_is_ascii s : all_alphabet s = true → is_ascii_str s = true.
Proof.
  induction s as [|c s IH]; [done|]. cbn.
  destruct (table_a2b_base64 c) as [n|] eqn:Hc; [|done].
  intros Hs. by rewrite (alphabet_is_ascii c n), IH.
Qed.

(** The decoder on alphabet characters: it returns exactly when the
    characters read so far and those to come make whole quads. *)
Lemma a2b_base64_alphabet s quad_pos leftchar pads bin_data :
  all_alphabet s = true → quad_pos < 4 →
  returned (a2b_base64 s quad_pos leftchar pads bin_data) = true
  ↔ ∃ k, quad_pos + String.length s = 4 * k.
Proof.
  revert quad_pos leftchar pads bin_data.
  induction s as [|c s IH]; intros quad_pos leftchar pads bin_data Hs Hq.
  - cbn. destruct quad_pos as [|[|[|[|]]]]; cbn; try lia.
    + split; [by exists 0|done].
    + split; [done|]. intros [k Hk]. lia.
    + split; [done|]. intros [k Hk]. lia.
    + split; [done|]. intros [k Hk]. lia.
  - cbn in Hs. destruct (table_a2b_base64 c) as [n|] eqn:Hc; [|done].
    destruct (alphabet_is_not_special c n Hc) as [Heq _].
    cbn [a2b_base64]. rewrite Heq, Hc.
    destruct quad_pos as [|[|[|[|]]]]; try lia; rewrite IH by (done || lia);
      cbn [String.length]; split; intros [k Hk];
      first [exists k; lia | exists (S k); lia | exists (k - 1); lia].
Qed.

Lemma strip_literal_alphabet lit s :
  all_alphabet s = true → is_Some (strip_literal lit s) → has_colon lit = false.
Proof.
  revert s. induction lit as [|a lit IH]; intros s Hs Hstrip; [done|].
  destruct s as [|b s]; cbn [has_colon strip_literal all_alphabet] in *;
    [by destruct Hstrip|].
  destruct (table_a2b_base64 b) as [n|] eqn:Hb; [|done].
  destruct (alphabet_is_not_special b n Hb) as [_ Hcolon].
  destruct (Ascii.eqb (lower_ascii a) (lower_ascii b)) eqn:Hab;
    [|by destruct Hstrip].
  apply Ascii.eqb_eq in Hab. rewrite Hab, Hcolon. by eapply IH.
Qed.

Lemma prefix_strip_literal lit s :
  String.prefix lit s = true → is_Some (strip_literal lit s).
Proof.
  revert s. induction lit as [|a lit IH]; intros s; [by eexists|].
  destruct s as [|b s]; cbn [String.prefix strip_literal]; [done|].
  destruct (ascii_dec a b) as [->|]; [|done].
  rewrite Ascii.eqb_refl. apply IH.
Qed.

Lemma alphabet_matches_no_pattern s r :
  all_alphabet s = true →
  forallb has_colon (words r) = true →
  re_match r s = false.
Proof.
  intros Hs Hwords. destruct (re_match r s) eqn:Hm; [|done].
  apply re_match_words in Hm as (lit & Hlit & Hstrip).
  rewrite forallb_forall in Hwords.
  apply list_elem_of_In, Hwords in Hlit.
  by rewrite (strip_literal_alphabet lit s) in Hlit.
Qed.

(** X6: a raw string of base-64 alphabet characters only, without
    padding, is accepted for either media type exactly when its length is
    a multiple of four. *)
Theorem unpadded_base64_is_valid_iff_whole_quads (data : string)
    (media_type : FaceSwapMediaType) :
  all_alphabet data = true →
  valid data media_type ↔ ∃ k, String.length data = 4 * k.
Proof.
  intros Hdata. unfold valid, _validate_input.
  assert (∀ lit, startswith data lit = true → has_colon lit = false) as Hurl.
  { intros lit Hlit. apply (strip_literal_alphabet lit data Hdata).
    by apply prefix_strip_literal. }
  destruct (startswith data "http://") eqn:Hhttp;
    [by apply Hurl in Hhttp|].
  destruct (startswith data "https://") eqn:Hhttps;
    [by apply Hurl in Hhttps|].
  cbn [orb].
  rewrite (alphabet_matches_no_pattern data) by (done || by destruct media_type).
  unfold b64decode. rewrite all_alphabet_is_ascii by done.
  rewrite <- (a2b_base64_alphabet data 0 0 0 []) by (done || lia).
  by destruct (a2b_base64 data 0 0 0 []).
Qed.

Lemma unpadded_base64_is_valid_iff_whole_quads_witness :
  valid "TWFu" IMAGE ↔ ∃ k, String.length "TWFu" = 4 * k.
Proof.
  apply (unpadded_base64_is_valid_iff_whole_quads "TWFu" IMAGE). reflexivity.
Defined.

(** ** The order and the number of attempts *)

Lemma attempts_made_app (tr1 tr2 : list event) :
  attempts_made (tr1 ++ tr2) = attempts_made tr1 ++ attempts_made tr2.
Proof. apply omap_app. Qed.

Lemma attempts_made_backoff n : attempts_made (backoff n) = [].
Proof. unfold backoff. by destruct (0 <? n)%Z. Qed.

Lemma attempts_made_length i (tr : list event) :
  calls_to i tr ≤ List.length (attempts_made tr)
  ∧ total_calls tr = List.length (attempts_made tr).
Proof.
  unfold calls_to, total_calls, attempts_made.
  induction tr as [|[seconds|j n a o] tr [IH1 IH2]]; [done|..].
  - by rewrite !filter_cons_False by done.
  - rewrite (filter_cons_True (λ ev, is_call ev = true)) by done.
    rewrite filter_cons. cbn in *. case_decide; cbn; lia.
Qed.

Lemma slept_app (tr1 tr2 : list event) :
  slept (tr1 ++ tr2) = (slept tr1 + slept tr2)%Z.
Proof.
  unfold slept. induction tr1 as [|[seconds|] tr1 IH]; cbn; [done| |done].
  rewrite IH. lia.
Qed.

(** The backoff a list of attempts can cost. *)
Lemma range_sorted (n : Z) : StronglySorted Z.lt (range n).
Proof.
  unfold range. generalize 0 as start.
  induction (Z.to_nat n) as [|k IH]; intros start; cbn; constructor; [done|].
  apply Forall_forall. intros m (j & -> & Hj%elem_of_seq)%list_elem_of_fmap.
  lia.
Qed.

Section AttemptFacts.
Context {World : Type}.
Variable asyncio_sleep : Z → World → World.
Implicit Types (p : FaceSwapProvider World) (w : World) (tr : list event).

(** The calls of a retry loop go through the attempts in order, up to the
    one that ends the loop; only the last of them can have returned. *)
Lemma retry_run_attempts p i args attempts w r w' tr :
  retry_run asyncio_sleep p i args attempts w r w' tr →
  ∃ k, attempts_made tr = (λ n, (i, n)) <$> take k attempts
       ∧ slept tr = slept (flat_map backoff (take k attempts)).
Proof.
  induction 1 as [w|n0 rest w e w1 r w2 tr Hcall Hrun (k & IH & IHs)
                 |n0 rest w d w1 Hcall Hd|n0 rest w d w1 Hcall Hd].
  - by exists 0.
  - exists (S k). cbn [take fmap list_fmap flat_map].
    change (Call i n0 args (Raise e) :: tr)
      with ([Call i n0 args (Raise e)] ++ tr).
    rewrite !attempts_made_app, attempts_made_backoff, IH, !slept_app, IHs.
    done.
  - exists 1. cbn [take fmap list_fmap flat_map].
    rewrite attempts_made_app, attempts_made_backoff, slept_app, app_nil_r.
    split; [done|]. cbn. lia.
  - exists 1. cbn [take fmap list_fmap flat_map].
    rewrite attempts_made_app, attempts_made_backoff, slept_app, app_nil_r.
    split; [done|]. cbn. lia.
Qed.
End AttemptFacts.

Lemma StronglySorted_take {A} (R : A → A → Prop) (l : list A) (k : nat) :
  StronglySorted R l → StronglySorted R (take k l).
Proof.
  intros Hl. revert k. induction Hl as [|x l Hl IH Hx]; intros [|k]; cbn;
    constructor; [apply IH|].
  apply Forall_forall. intros y Hy. rewrite Forall_forall in Hx.
  apply Hx. eapply elem_of_sublist; [done|apply sublist_take].
Qed.

Lemma slept_backoff_nonneg (l : list Z) : (0 ≤ slept (flat_map backoff l))%Z.
Proof.
  induction l as [|n l IH]; cbn; [done|]. rewrite slept_app.
  unfold backoff at 1. destruct (0 <? n)%Z eqn:Hn; cbn; [|lia].
  assert (0 < 2 ^ n)%Z by (apply Z.pow_pos_nonneg; lia). lia.
Qed.

Lemma slept_backoff_take (l : list Z) (k : nat) :
  (slept (flat_map backoff (take k l)) ≤ slept (flat_map backoff l))%Z.
Proof.
  revert k. induction l as [|n l IH]; intros [|k]; cbn; try done.
  - apply (slept_backoff_nonneg (n :: l)).
  - rewrite !slept_app. specialize (IH k). lia.
Qed.

(** The backoff of a whole round of attempts: 2 + 4 + ... + 2^r. *)
Lemma slept_backoff_range (r : Z) :
  (0 ≤ r)%Z → slept (flat_map backoff (range (r + 1))) = (2 ^ (r + 1) - 2)%Z.
Proof.
  intros Hr. unfold range.
  replace (Z.to_nat (r + 1)) with (S (Z.to_nat r)) by lia.
  replace r with (Z.of_nat (Z.to_nat r)) at 2 by lia.
  generalize (Z.to_nat r) as k. clear. intros k.
  induction k as [|k IH]; [done|].
  rewrite seq_S, fmap_app, flat_map_app, slept_app, IH. cbn [fmap list_fmap flat_map].
  rewrite app_nil_r. unfold backoff.
  replace (0 <? Z.of_nat (0 + S k))%Z with true by (symmetry; apply Z.ltb_lt; lia).
  cbn [slept foldr].
  replace (Z.of_nat (S k) + 1)%Z with (Z.succ (Z.of_nat (0 + S k))) by lia.
  rewrite Z.pow_succ_r by lia.
  replace (Z.of_nat k + 1)%Z with (Z.of_nat (0 + S k)) by lia. lia.
Qed.

Lemma attempts_of_one_provider_sorted (i : nat) (l : list Z) :
  StronglySorted Z.lt l → StronglySorted earlier ((λ n, (i, n)) <$> l).
Proof.
  induction 1 as [|n l Hl IH Hn]; cbn; constructor; [done|].
  apply Forall_fmap, Forall_forall. intros m Hm. rewrite Forall_forall in Hn.
  right. split; [done|]. by apply Hn.
Qed.

Lemma attempts_made_elem (tr : list event) i n :
  (i, n) ∈ attempts_made tr ↔ ∃ a o, Call i n a o ∈ tr.
Proof.
  unfold attempts_made. rewrite list_elem_of_omap. split.
  - intros ([seconds|j m a o] & Hin & Heq); [discriminate Heq|].
    injection Heq as -> ->. eauto.
  - intros (a & o & Hin). eexists. split; [done|]. done.
Qed.

Section ChainAttemptFacts.
Context {World : Type}.
Variable asyncio_sleep : Z → World → World.
Variables (target source : string) (media_type : FaceSwapMediaType).
Variables (retry_count : Z) (webhook_url : option string).
Variable kwargs : gmap string pyval.
Implicit Types (p : FaceSwapProvider World) (w : World) (tr : list event).

Local Abbreviation chain := (chain_run asyncio_sleep target source media_type
                               retry_count webhook_url kwargs).

Lemma retry_range_attempts p i w r w' tr :
  retry_run asyncio_sleep p i
    (FaceSwapGateway.args_for p target source media_type webhook_url kwargs)
    (range (retry_count + 1)) w r w' tr →
  StronglySorted earlier (attempts_made tr)
  ∧ (slept tr ≤ slept (flat_map backoff (range (retry_count + 1))))%Z
  ∧ total_calls tr ≤ Z.to_nat (retry_count + 1)
  ∧ ∀ j, calls_to j tr ≤ Z.to_nat (retry_count + 1).
Proof.
  intros Hrun.
  destruct (retry_run_attempts _ _ _ _ _ _ _ _ _ Hrun) as (k & Hmade & Hslept).
  rewrite Hmade, Hslept. split; [|split; [|split]].
  - apply attempts_of_one_provider_sorted, StronglySorted_take, range_sorted.
  - apply slept_backoff_take.
  - destruct (attempts_made_length 0 tr) as [_ ->].
    rewrite Hmade, length_fmap, length_take, range_length. lia.
  - intros j. destruct (attempts_made_length j tr) as [Hle _].
    rewrite Hmade, length_fmap, length_take, range_length in Hle. lia.
Qed.

Lemma chain_run_attempts i ps w r w' tr :
  chain i ps w r w' tr →
  StronglySorted earlier (attempts_made tr)
  ∧ (slept tr
     ≤ Z.of_nat (List.length ps) * slept (flat_map backoff (range (retry_count + 1))))%Z
  ∧ total_calls tr ≤ List.length ps * Z.to_nat (retry_count + 1)
  ∧ ∀ j, calls_to j tr ≤ Z.to_nat (retry_count + 1).
Proof.
  induction 1 as [i w|i p ps w d w1 tr Hretry
                 |i p ps w w1 tr1 r w2 tr2 Hretry Hrest (IHs & IHt & IHn & IHc)].
  - split; [constructor|]. split; [cbn; lia|]. split; [cbn; lia|].
    intros j. cbn. lia.
  - destruct (retry_range_attempts _ _ _ _ _ _ Hretry) as (Hs & Ht & Hn & Hc).
    split; [done|]. split; [|split; [|done]].
    + pose proof (slept_backoff_nonneg (range (retry_count + 1))).
      cbn [List.length]. nia.
    + cbn [List.length]. nia.
  - destruct (retry_range_attempts _ _ _ _ _ _ Hretry) as (Hs & Ht & Hn & Hc).
    split; [|split; [|split]].
    + rewrite attempts_made_app. apply StronglySorted_app_2; [|done..].
      intros [j1 n1] [j2 n2] [a1 [o1 H1]]%attempts_made_elem
        [a2 [o2 H2]]%attempts_made_elem.
      apply list_elem_of_split in H1 as (pre1 & post1 & Heq1).
      apply list_elem_of_split in H2 as (pre2 & post2 & Heq2).
      destruct (retry_run_calls _ _ _ _ _ _ _ _ _ Hretry _ _ _ _ _ _ Heq1)
        as (-> & _).
      destruct (chain_run_calls _ _ _ _ _ _ _ _ _ _ _ _ _ Hrest _ _ _ _ _ _ Heq2)
        as (Hj & _).
      left. cbn. lia.
    + rewrite slept_app. cbn [List.length]. lia.
    + rewrite total_calls_app. cbn [List.length]. lia.
    + intros j. rewrite calls_to_app.
      destruct (decide (j = i)) as [->|Hne].
      * rewrite (chain_run_no_calls_before _ _ _ _ _ _ _ _ _ _ _ _ _ _ Hrest)
          by lia.
        specialize (Hc i). lia.
      * assert (calls_to j tr1 = 0) as ->; [|apply IHc].
        apply calls_to_none, Forall_forall. intros ev Hin.
        apply list_elem_of_split in Hin as (pre1 & post1 & Hsplit).
        destruct ev as [|k m a' o']; [done|].
        destruct (retry_run_calls _ _ _ _ _ _ _ _ _ Hretry _ _ _ _ _ _ Hsplit)
          as (-> & _).
        cbn. by case_bool_decide.
Qed.
End ChainAttemptFacts.

(** ** More about runs of the gateway *)

Section GatewayRuns.
Context {World : Type}.
Variable asyncio_sleep : Z → World → World.
Variable Image_open : list byte → outcome (option string).
Variable providers : list (FaceSwapProvider World).
Variables (target source : string) (media_type : FaceSwapMediaType).
Variables (retry_count : Z) (webhook_url : option string).
Variable kwargs : gmap string pyval.
Variable w : World.

Local Abbreviation run :=
  (FaceSwapGateway.swap_face asyncio_sleep Image_open providers target source
     media_type retry_count webhook_url kwargs w).

(** X7: the calls of a run follow the chain: each call goes to a later
    provider than the one before, or to the same provider for a later
    attempt.  No provider is gone back to, no attempt is repeated. *)
Theorem attempts_follow_chain_order :
  StronglySorted earlier (attempts_made run.2).
Proof.
  destruct (swap_face_run asyncio_sleep Image_open providers target source
              media_type retry_count webhook_url kwargs w)
    as [(d & -> & _)|(r & w' & tr & -> & _ & _ & _ & Hchain)];
    [constructor|].
  by destruct (chain_run_attempts _ _ _ _ _ _ _ _ _ _ _ _ _ Hchain).
Qed.

(** X8: with a retry count [r ≥ 0] and a chain of [N] providers, a run
    makes at most [r + 1] calls to any provider, at most [N * (r + 1)] calls
    in all, and awaits at most [N * (2^(r+1) - 2)] seconds of backoff. *)
Theorem attempts_and_backoff_are_bounded :
  (0 ≤ retry_count)%Z →
  (∀ i, Z.of_nat (calls_to i run.2) ≤ retry_count + 1)%Z
  ∧ (Z.of_nat (total_calls run.2)
     ≤ Z.of_nat (List.length providers) * (retry_count + 1))%Z
  ∧ (slept run.2
     ≤ Z.of_nat (List.length providers) * (2 ^ (retry_count + 1) - 2))%Z.
Proof.
  intros Hr.
  destruct (swap_face_run asyncio_sleep Image_open providers target source
              media_type retry_count webhook_url kwargs w)
    as [(d & -> & _)|(r & w' & tr & -> & _ & _ & _ & Hchain)]; cbn [snd].
  { assert (2 ^ 1 ≤ 2 ^ (retry_count + 1))%Z by (apply Z.pow_le_mono_r; lia).
    split; [|split]; [intros i; cbn; lia|cbn; nia..]. }
  destruct (chain_run_attempts _ _ _ _ _ _ _ _ _ _ _ _ _ Hchain)
    as (_ & Hslept & Htotal & Hcalls).
  rewrite slept_backoff_range in Hslept by done.
  split; [|split; [|done]].
  - intros i. specialize (Hcalls i). lia.
  - nia.
Qed.

(** X9: a negative retry count leaves no attempt to make: with valid
    inputs and a non-empty chain, the run calls no provider, awaits
    nothing and answers [ALL_PROVIDERS_FAILED]. *)
Theorem negative_retry_count_tries_nothing :
  (retry_count < 0)%Z → valid target media_type → valid source IMAGE →
  providers ≠ [] →
  run = (Return FaceSwapGateway.all_providers_failed, w, []).
Proof.
  intros Hr Htarget Hsource Hne.
  destruct (swap_face_run asyncio_sleep Image_open providers target source
              media_type retry_count webhook_url kwargs w)
    as [(d & _ & [?|[?|?]] & _)|(r & w' & tr & -> & _ & _ & _ & Hchain)];
    [done..|].
  assert (range (retry_count + 1) = []) as Hrange.
  { unfold range. by replace (Z.to_nat (retry_count + 1)) with 0 by lia. }
  assert (r = None ∧ w' = w ∧ tr = []) as (-> & -> & ->); [|done].
  clear Hne. induction Hchain as [i w0|i p ps w0 d w1 tr Hretry
                                 |i p ps w0 w1 tr1 r w2 tr2 Hretry Hrest IH].
  - done.
  - rewrite Hrange in Hretry. inversion Hretry.
  - rewrite Hrange in Hretry. inversion Hretry; subst.
    by destruct IH as (-> & -> & ->).
Qed.

(** X10: the first call that returns a successful result ends the run: it
    is the last event, and its result is what [swap_face] returns. *)
Theorem first_success_ends_the_run pre i n args d post :
  run.2 = pre ++ Call i n args (Return d) :: post →
  truthy (dict_get d "success") = true →
  post = [] ∧ run.1.1 = Return d.
Proof.
  intros Htr Hd.
  destruct (swap_face_run asyncio_sleep Image_open providers target source
              media_type retry_count webhook_url kwargs w)
    as [(d0 & Hrun & _)|(r & w' & tr & Hrun & _ & _ & _ & Hchain)];
    rewrite Hrun in *; cbn in Htr.
  { by destruct pre. }
  cbn. assert (post = [] ∧ r = Some d) as [-> ->]; [|done].
  clear Hrun. revert pre Htr.
  induction Hchain as [i0 w0|i0 p ps w0 d0 w1 tr Hretry
                      |i0 p ps w0 w1 tr1 r w2 tr2 Hretry Hrest IH];
    intros pre Htr.
  - by destruct pre.
  - destruct (retry_run_return _ _ _ _ _ _ _ _ _ _ _ _ _ _ _ Hretry Htr)
      as (-> & Hr). by rewrite Hd in Hr.
  - apply app_split_at in Htr as [(post1 & Heq & ->)|(pre2 & Heq & ->)].
    + destruct (retry_run_return _ _ _ _ _ _ _ _ _ _ _ _ _ _ _ Hretry Heq)
        as (_ & Hr). by rewrite Hd in Hr.
    + by eapply IH.
Qed.

(** X11: every call hands the provider the normalised target and source --
    each a URL or a data URI of the normaliser's pattern -- together with
    the media type and the keyword arguments of the request. *)
Theorem providers_receive_canonical_references pre i n args result post :
  run.2 = pre ++ Call i n args result :: post →
  arg_target args = _normalize_base64 Image_open target
  ∧ arg_source args = _normalize_base64 Image_open source
  ∧ canonical (arg_target args) ∧ canonical (arg_source args)
  ∧ arg_media_type args = media_type
  ∧ arg_kwargs args = kwargs.
Proof.
  intros Htr.
  destruct (swap_face_run asyncio_sleep Image_open providers target source
              media_type retry_count webhook_url kwargs w)
    as [(d0 & Hrun & _)|(r & w' & tr & Hrun & _ & _ & _ & Hchain)];
    rewrite Hrun in *; cbn in Htr.
  { by destruct pre. }
  destruct (chain_run_calls _ _ _ _ _ _ _ _ _ _ _ _ _ Hchain _ _ _ _ _ _ Htr)
    as (_ & _ & p & _ & ->).
  cbn. repeat split; try done; apply normalize_canonical.
Qed.

(** X12: the target is checked first, against the media type of the
    request; the source is checked second, always as an image.  Either
    failure is answered at once with the message of the check, without any
    event. *)
Theorem invalid_input_is_turned_away :
  (¬ valid target media_type →
   run = (Return {[ "success" := PyBool false;
                    "error" := PyStr ("Invalid input: must be URL or base64 encoded "
                                      +:+ media_value media_type) ]}, w, []))
  ∧ (valid target media_type → ¬ valid source IMAGE →
     run = (Return {[ "success" := PyBool false;
                      "error" := PyStr "Invalid input: must be URL or base64 encoded image" ]},
            w, [])).
Proof.
  unfold FaceSwapGateway.swap_face, valid. split.
  - intros Hbad.
    destruct (validation_error_names_the_kind target media_type)
      as [Hok|(Herr & _)]; [by rewrite Hok in Hbad|].
    by rewrite Herr.
  - intros Hok Hbad.
    destruct (_validate_input target media_type) as [[] target_error];
      [|done]. cbn [negb].
    destruct (validation_error_names_the_kind source IMAGE)
      as [Hok'|(Herr & _)]; [by rewrite Hok' in Hbad|].
    by rewrite Herr.
Qed.
End GatewayRuns.

Lemma attempts_and_backoff_are_bounded_witness :
  let tr :=
    (FaceSwapGateway.swap_face (λ _ (calls : nat), calls) sniff_magic
       [broken; broken] "https://example.com/a.jpg"
       "https://example.com/face.jpg" IMAGE 2%Z None ∅ 0).2 in
  (∀ i, Z.of_nat (calls_to i tr) ≤ 2 + 1)%Z
  ∧ (Z.of_nat (total_calls tr) ≤ Z.of_nat (List.length [broken; broken]) * (2 + 1))%Z
  ∧ (slept tr ≤ Z.of_nat (List.length [broken; broken]) * (2 ^ (2 + 1) - 2))%Z.
Proof.
  intros tr.
  apply (attempts_and_backoff_are_bounded (λ _ (calls : nat), calls)
           sniff_magic [broken; broken] "https://example.com/a.jpg"
           "https://example.com/face.jpg" IMAGE 2%Z None ∅ 0).
  lia.
Defined.

Lemma negative_retry_count_tries_nothing_witness :
  FaceSwapGateway.swap_face (λ _ (calls : nat), calls) sniff_magic
    [broken; broken] "https://example.com/a.jpg"
    "https://example.com/face.jpg" IMAGE (-1)%Z None ∅ 0
  = (Return FaceSwapGateway.all_providers_failed, 0, []).
Proof.
  apply (negative_retry_count_tries_nothing (λ _ (calls : nat), calls)
           sniff_magic [broken; broken] "https://example.com/a.jpg"
           "https://example.com/face.jpg" IMAGE (-1)%Z None ∅ 0).
  - lia.
  - reflexivity.
  - reflexivity.
  - discriminate.
Defined.

Lemma first_success_ends_the_run_witness :
  let ok : gmap string pyval :=
    {[ "success" := PyBool true; "result_url" := PyStr "https://cdn/x.jpg" ]} in
  ([] : list event) = []
  ∧ (FaceSwapGateway.swap_face (λ _ (calls : nat), calls) sniff_magic
       [flaky 1 ok; broken] "https://example.com/a.jpg"
       "https://example.com/face.jpg" IMAGE 2%Z None ∅ 0).1.1
    = Return ok.
Proof.
  intros ok.
  apply (first_success_ends_the_run (λ _ (calls : nat), calls) sniff_magic
           [flaky 1 ok; broken] "https://example.com/a.jpg"
           "https://example.com/face.jpg" IMAGE 2%Z None ∅ 0
           [Call 0 0
              (CallArgs "https://example.com/a.jpg"
                 "https://example.com/face.jpg" IMAGE None ∅)
              (Raise (Error "ConnectionError" "reset"));
            Sleep (2 ^ 1)]
           0 1%Z
           (CallArgs "https://example.com/a.jpg" "https://example.com/face.jpg"
              IMAGE None ∅)
           ok []).
  - vm_compute. reflexivity.
  - reflexivity.
Defined.

Lemma providers_receive_canonical_references_witness :
  let ok : gmap string pyval :=
    {[ "success" := PyBool true; "result_url" := PyStr "https://cdn/x.jpg" ]} in
  let args :=
    CallArgs "https://example.com/a.jpg" "data:image/png;base64,iVBORw0KGgo="
      IMAGE None ∅ in
  arg_target args = _normalize_base64 sniff_magic "https://example.com/a.jpg"
  ∧ arg_source args = _normalize_base64 sniff_magic "iVBORw0KGgo="
  ∧ canonical (arg_target args) ∧ canonical (arg_source args)
  ∧ arg_media_type args = IMAGE
  ∧ arg_kwargs args = ∅.
Proof.
  intros ok args.
  apply (providers_receive_canonical_references (λ _ (calls : nat), calls)
           sniff_magic [flaky 0 ok] "https://example.com/a.jpg" "iVBORw0KGgo="
           IMAGE 2%Z None ∅ 0 [] 0 0%Z args (Return ok) []).
  vm_compute. reflexivity.
Defined.

Lemma invalid_input_is_turned_away_witness :
  FaceSwapGateway.swap_face (λ _ (calls : nat), calls) sniff_magic [broken]
    "hello" "also not base64" VIDEO 2%Z None ∅ 0
  = (Return {[ "success" := PyBool false;
               "error" := PyStr "Invalid input: must be URL or base64 encoded video" ]},
     0, [])
  ∧ FaceSwapGateway.swap_face (λ _ (calls : nat), calls) sniff_magic [broken]
      "https://example.com/clip.mp4" "data:video/mp4;base64,AAAA" VIDEO 2%Z
      None ∅ 0
    = (Return {[ "success" := PyBool false;
                 "error" := PyStr "Invalid input: must be URL or base64 encoded image" ]},
       0, []).
Proof.
  split.
  - destruct (invalid_input_is_turned_away (λ _ (calls : nat), calls)
                sniff_magic [broken] "hello" "also not base64" VIDEO 2%Z None
                ∅ 0) as [Htarget _].
    apply Htarget. discriminate.
  - destruct (invalid_input_is_turned_away (λ _ (calls : nat), calls)
                sniff_magic [broken] "https://example.com/clip.mp4"
                "data:video/mp4;base64,AAAA" VIDEO 2%Z None ∅ 0)
      as [_ Hsource].
    apply Hsource; [reflexivity|discriminate].
Defined.

(** ** Providers that never raise *)

Section NeverRaise.
Context {World : Type}.
Variable asyncio_sleep : Z → World → World.

Lemma retry_run_never_raises (p : FaceSwapProvider World) i args attempts
    w r w' tr :
  never_raises p →
  retry_run asyncio_sleep p i args attempts w r w' tr →
  tr = []
  ∨ ∃ n rest d, attempts = n :: rest
                ∧ tr = backoff n ++ [Call i n args (Return d)].
Proof.
  intros Hp Hrun.
  destruct Hrun as [w|n rest w e w1 r w2 tr Hcall Hrun
                   |n rest w d w1 Hcall Hd|n rest w d w1 Hcall Hd].
  - by left.
  - destruct (Hp args (after_backoff asyncio_sleep n w)) as [d Hd].
    by rewrite Hcall in Hd.
  - right. by exists n, rest, d.
  - right. by exists n, rest, d.
Qed.

Lemma chain_run_never_raises target source media_type retry_count
    webhook_url kwargs i (ps : list (FaceSwapProvider World)) w r w' tr :
  Forall never_raises ps →
  chain_run asyncio_sleep target source media_type retry_count webhook_url
    kwargs i ps w r w' tr →
  Forall (λ ev, ∃ j a d, ev = Call j 0 a (Return d)) tr
  ∧ List.length tr ≤ List.length ps
  ∧ ∀ j, calls_to j tr ≤ 1.
Proof.
  intros Hps Hchain.
  assert (∀ (p : FaceSwapProvider World) i args w r w' tr,
            never_raises p →
            retry_run asyncio_sleep p i args (range (retry_count + 1)) w r w' tr →
            tr = [] ∨ ∃ d, tr = [Call i 0 args (Return d)]) as Hone.
  { intros p k args w0 r0 w0' tr0 Hp Hrun.
    destruct (retry_run_never_raises _ _ _ _ _ _ _ _ Hp Hrun)
      as [->|(n & rest & d & Hrange & ->)]; [by left|right].
    destruct (decide (0 ≤ retry_count)%Z) as [Hr|Hr].
    - rewrite range_succ in Hrange by done. injection Hrange as <- _.
      by exists d.
    - unfold range in Hrange.
      by replace (Z.to_nat (retry_count + 1)) with 0 in Hrange by lia. }
  induction Hchain as [i w|i p ps w d w1 tr Hretry
                      |i p ps w w1 tr1 r w2 tr2 Hretry Hrest IH].
  - split; [constructor|]. split; [done|]. intros j. cbn. lia.
  - apply Forall_cons in Hps as [Hp _].
    destruct (Hone _ _ _ _ _ _ _ Hp Hretry) as [->|[d0 ->]].
    + split; [constructor|]. split; [cbn; lia|]. intros j. cbn. lia.
    + split; [repeat constructor; eauto|]. split; [cbn; lia|].
      intros j. rewrite calls_to_call. case_bool_decide; lia.
  - apply Forall_cons in Hps as [Hp Hps].
    destruct (IH Hps) as (IHev & IHlen & IHcalls).
    destruct (Hone _ _ _ _ _ _ _ Hp Hretry) as [->|[d0 ->]].
    { split; [done|]. split; [cbn in *; lia|done]. }
    split; [constructor; eauto|]. split; [cbn in *; lia|].
    intros j. rewrite calls_to_app, calls_to_call. case_bool_decide as Hj.
    + subst j. rewrite (chain_run_no_calls_before _ _ _ _ _ _ _ _ _ _ _ _ _ _ Hrest);
        lia.
    + specialize (IHcalls j). lia.
Qed.

Lemma gateway_never_raises Image_open (providers : list (FaceSwapProvider World))
    target source media_type retry_count webhook_url kwargs w :
  Forall never_raises providers →
  let tr :=
    (FaceSwapGateway.swap_face asyncio_sleep Image_open providers target
       source media_type retry_count webhook_url kwargs w).2 in
  Forall (λ ev, ∃ j a d, ev = Call j 0 a (Return d)) tr
  ∧ List.length tr ≤ List.length providers
  ∧ ∀ j, calls_to j tr ≤ 1.
Proof.
  intros Hps.
  destruct (swap_face_run asyncio_sleep Image_open providers target source
              media_type retry_count webhook_url kwargs w)
    as [(d & -> & _)|(r & w' & tr & -> & _ & _ & _ & Hchain)]; cbn [snd].
  { split; [constructor|]. split; [cbn; lia|]. intros j. cbn. lia. }
  by eapply chain_run_never_raises.
Qed.

(** X13: providers that always return are never retried, whatever the
    retry count: every event of the run is a first attempt that returned
    (so no backoff is awaited), there are no more events than providers,
    and no provider is called twice. *)
Theorem returning_providers_are_never_retried Image_open
    (providers : list (FaceSwapProvider World)) target source media_type
    retry_count webhook_url kwargs w :
  Forall never_raises providers →
  let tr :=
    (FaceSwapGateway.swap_face asyncio_sleep Image_open providers target
       source media_type retry_count webhook_url kwargs w).2 in
  Forall (λ ev, ∃ j a d, ev = Call j 0 a (Return d)) tr
  ∧ List.length tr ≤ List.length providers
  ∧ ∀ j, calls_to j tr ≤ 1.
Proof. apply gateway_never_raises. Qed.
End NeverRaise.

Lemma returning_providers_are_never_retried_witness :
  let bad : gmap string pyval :=
    {[ "success" := PyBool false; "error" := PyStr "unsupported" ]} in
  let tr :=
    (FaceSwapGateway.swap_face (λ _ (calls : nat), calls) sniff_magic
       [flaky 0 bad; flaky 0 bad] "https://example.com/a.jpg"
       "https://example.com/face.jpg" IMAGE 3%Z None ∅ 0).2 in
  Forall (λ ev, ∃ j a d, ev = Call j 0 a (Return d)) tr
  ∧ List.length tr ≤ 2
  ∧ ∀ j, calls_to j tr ≤ 1.
Proof.
  intros bad.
  apply (returning_providers_are_never_retried (λ _ (calls : nat), calls)
           sniff_magic [flaky 0 bad; flaky 0 bad]).
  repeat constructor; intros args w; by eexists.
Defined.

(** ** The adapters as members of the chain *)

Lemma adapter_never_raises (m : call_args → M Net net_event (gmap string pyval))
    name timeout flag :
  (∀ args w, ∃ d w' evs, m args w = (Return d, w', evs)) →
  never_raises (Provider (λ args, run_adapter (m args)) name timeout flag).
Proof.
  intros Hm args w. cbn. unfold run_adapter.
  destruct (Hm args w) as (d & w' & evs & ->). by exists d.
Qed.

Lemma shipped_adapters_never_raise py_str sha256_hexdigest
    replicate_token piapi_key :
  Forall never_raises
    (FaceSwapGateway.__init__ py_str sha256_hexdigest replicate_token piapi_key).
Proof.
  assert (never_raises NanoBananaProvider.provider) as Hnano.
  { apply adapter_never_raises. intros args w.
    destruct (nano_banana_result (arg_target args) (arg_source args)
                (arg_media_type args) w) as (d & w' & evs & -> & _). eauto. }
  assert (never_raises ReplicateProvider.provider) as Hreplicate.
  { apply adapter_never_raises. intros args w.
    destruct (replicate_result (arg_target args) (arg_source args)
                (arg_media_type args) w) as (d & w' & evs & -> & _). eauto. }
  assert (∀ api_key,
            never_raises (PiAPIProvider.provider py_str sha256_hexdigest api_key))
    as Hpiapi.
  { intros api_key. apply adapter_never_raises. intros args w.
    destruct (piapi_result py_str sha256_hexdigest api_key (arg_target args)
                (arg_source args) (arg_media_type args) (arg_webhook_url args) w)
      as (d & w' & evs & -> & _). eauto. }
  unfold FaceSwapGateway.__init__.
  destruct (FaceSwapGateway.configured replicate_token),
    (FaceSwapGateway.configured piapi_key); cbn; repeat constructor; done.
Qed.

Lemma init_chain_length py_str sha256_hexdigest replicate_token piapi_key :
  List.length
    (FaceSwapGateway.__init__ py_str sha256_hexdigest replicate_token piapi_key)
  ≤ 3.
Proof.
  unfold FaceSwapGateway.__init__.
  destruct (FaceSwapGateway.configured replicate_token),
    (FaceSwapGateway.configured piapi_key); cbn; lia.
Qed.

(** X14: the gateway as [__init__] builds it never retries and never
    backs off, whatever credentials are configured and whatever the retry
    count: each of the three adapters catches every exception and returns a
    result, so a run is at most three calls, one first attempt per adapter
    of the chain. *)
Theorem shipped_gateway_never_retries py_str sha256_hexdigest
    replicate_token piapi_key Image_open target source media_type retry_count
    webhook_url kwargs (w : Net) :
  let tr :=
    (FaceSwapGateway.swap_face asyncio_sleep_net Image_open
       (FaceSwapGateway.__init__ py_str sha256_hexdigest replicate_token
          piapi_key)
       target source media_type retry_count webhook_url kwargs w).2 in
  Forall (λ ev, ∃ j a d, ev = Call j 0 a (Return d)) tr
  ∧ slept tr = 0%Z
  ∧ (∀ j, calls_to j tr ≤ 1)
  ∧ List.length tr ≤ 3.
Proof.
  intros tr.
  pose proof (shipped_adapters_never_raise py_str sha256_hexdigest
                replicate_token piapi_key) as Hps.
  destruct (gateway_never_raises asyncio_sleep_net Image_open _ target source
              media_type retry_count webhook_url kwargs w Hps)
    as (Hev & Hlen & Hcalls).
  fold tr in Hev, Hlen, Hcalls.
  split; [done|]. split; [|split; [done|]].
  - clear Hlen Hcalls. by induction Hev as [|ev tr0 (j & a & d & ->) _ IH].
  - pose proof (init_chain_length py_str sha256_hexdigest replicate_token
                  piapi_key). lia.
Qed.

Lemma run_adapter_silent (m : M Net net_event (gmap string pyval)) o (w : Net) :
  m w = (o, w, []) → run_adapter m w = (o, w).
Proof.
  unfold run_adapter. intros ->. destruct w. cbn. by rewrite app_nil_r.
Qed.

Lemma retry_loop_first_failure {World} (asyncio_sleep : Z → World → World)
    (p : FaceSwapProvider World) i args r w d w1 :
  (0 ≤ r)%Z →
  swap_face p args w = (Return d, w1) →
  truthy (dict_get d "success") = false →
  FaceSwapGateway.retry_loop asyncio_sleep p i args (range (r + 1)) w
  = (Return None, w1, [Call i 0 args (Return d)]).
Proof.
  intros Hr Hcall Hd. rewrite range_succ by done.
  cbn [FaceSwapGateway.retry_loop]. rewrite run_bind, attempt_body_run.
  unfold after_backoff, backoff. cbn [Z.ltb Z.compare].
  by rewrite Hcall, Hd.
Qed.

(** X15: video needs the PiAPI credential.  With the Replicate token alone,
    a valid video request is put to Nano-Banana and to Replicate once each,
    both refuse it without sending anything -- the network is left as it
    was -- and the answer is [ALL_PROVIDERS_FAILED]. *)
Theorem video_without_piapi_fails_offline py_str sha256_hexdigest Image_open
    replicate_token target source retry_count webhook_url kwargs (w : Net) :
  FaceSwapGateway.configured replicate_token = true →
  valid target VIDEO → valid source IMAGE → (0 ≤ retry_count)%Z →
  FaceSwapGateway.swap_face asyncio_sleep_net Image_open
    (FaceSwapGateway.__init__ py_str sha256_hexdigest replicate_token None)
    target source VIDEO retry_count webhook_url kwargs w
  = (Return FaceSwapGateway.all_providers_failed, w,
     [Call 0 0
        (CallArgs (_normalize_base64 Image_open target)
           (_normalize_base64 Image_open source) VIDEO None kwargs)
        (Return {[ "success" := PyBool false;
                   "error" := PyStr "Nano-Banana does not support video face swap";
                   "provider" := PyStr "Nano-Banana" ]});
      Call 1 0
        (CallArgs (_normalize_base64 Image_open target)
           (_normalize_base64 Image_open source) VIDEO None kwargs)
        (Return {[ "success" := PyBool false;
                   "error" :=
                     PyStr "Replicate provider does not support video face swap";
                   "provider" := PyStr "Replicate" ]})]).
Proof.
  unfold valid. intros Htoken Htarget Hsource Hr.
  unfold FaceSwapGateway.swap_face, FaceSwapGateway.__init__.
  rewrite Htoken.
  destruct (_validate_input target VIDEO) as [target_valid target_error].
  destruct (_validate_input source IMAGE) as [source_valid source_error].
  cbn in Htarget, Hsource. subst. cbn [negb app FaceSwapGateway.configured].
  rewrite run_bind. cbn [FaceSwapGateway.provider_loop].
  rewrite run_bind.
  erewrite retry_loop_first_failure;
    [|done|by apply run_adapter_silent|done].
  rewrite run_bind.
  erewrite retry_loop_first_failure;
    [|done|by apply run_adapter_silent|done].
  reflexivity.
Qed.

Lemma video_without_piapi_fails_offline_witness :
  FaceSwapGateway.swap_face asyncio_sleep_net sniff_magic
    (FaceSwapGateway.__init__ str_plain (λ s, s) (Some "r8_token") None)
    "https://example.com/clip.mp4" "https://example.com/face.jpg" VIDEO 2%Z
    (Some "https://example.com/hook") ∅ replicate_answers
  = (Return FaceSwapGateway.all_providers_failed, replicate_answers,
     [Call 0 0
        (CallArgs (_normalize_base64 sniff_magic "https://example.com/clip.mp4")
           (_normalize_base64 sniff_magic "https://example.com/face.jpg")
           VIDEO None ∅)
        (Return {[ "success" := PyBool false;
                   "error" := PyStr "Nano-Banana does not support video face swap";
                   "provider" := PyStr "Nano-Banana" ]});
      Call 1 0
        (CallArgs (_normalize_base64 sniff_magic "https://example.com/clip.mp4")
           (_normalize_base64 sniff_magic "https://example.com/face.jpg")
           VIDEO None ∅)
        (Return {[ "success" := PyBool false;
                   "error" :=
                     PyStr "Replicate provider does not support video face swap";
                   "provider" := PyStr "Replicate" ]})]).
Proof.
  apply (video_without_piapi_fails_offline str_plain (λ s, s) sniff_magic
           (Some "r8_token") "https://example.com/clip.mp4"
           "https://example.com/face.jpg" 2%Z (Some "https://example.com/hook")
           ∅ replicate_answers).
  - reflexivity.
  - reflexivity.
  - reflexivity.
  - lia.
Defined.

(** ** The chain of [__init__] *)

Lemma configured_false (value : option string) :
  FaceSwapGateway.configured value = false ↔ value = None ∨ value = Some "".
Proof.
  destruct value as [s|]; cbn; [|by split; [left|]].
  destruct (String.eqb_spec s "") as [->|Hs]; cbn.
  - split; [by right|done].
  - split; [done|]. by intros [[=]|[= ->]].
Qed.

(** X16: the chain [__init__] builds follows the two credentials: its
    names are a sublist of Nano-Banana, PiAPI, Replicate in this order;
    the Replicate token brings in Nano-Banana and Replicate together, the
    PiAPI key brings in PiAPI, the only provider handed a webhook URL; and
    the chain is empty exactly when each credential is unset or empty. *)
Theorem chain_follows_the_credentials py_str sha256_hexdigest
    replicate_token piapi_key :
  let chain :=
    FaceSwapGateway.__init__ py_str sha256_hexdigest replicate_token piapi_key in
  let names := get_name <$> chain in
  names `sublist_of` ["Nano-Banana"; "PiAPI"; "Replicate"]
  ∧ ("Nano-Banana" ∈ names ↔ FaceSwapGateway.configured replicate_token = true)
  ∧ ("Replicate" ∈ names ↔ FaceSwapGateway.configured replicate_token = true)
  ∧ ("PiAPI" ∈ names ↔ FaceSwapGateway.configured piapi_key = true)
  ∧ is_PiAPIProvider <$> chain = (λ name, bool_decide (name = "PiAPI")) <$> names
  ∧ (chain = [] ↔ (replicate_token = None ∨ replicate_token = Some "")
                  ∧ (piapi_key = None ∨ piapi_key = Some "")).
Proof.
  intros chain names. unfold names, chain, FaceSwapGateway.__init__.
  rewrite <- !configured_false.
  destruct (FaceSwapGateway.configured replicate_token),
    (FaceSwapGateway.configured piapi_key);
    cbn [app fmap list_fmap get_name is_PiAPIProvider NanoBananaProvider.provider
         ReplicateProvider.provider PiAPIProvider.provider];
    unfold NanoBananaProvider.get_name, ReplicateProvider.get_name,
      PiAPIProvider.get_name;
    (split; [by repeat first [apply sublist_nil | apply sublist_skip
                             | apply sublist_cons]|]);
    repeat split; try done;
    rewrite ?elem_of_cons, ?elem_of_nil; intuition congruence.
Qed.

(** ** The Replicate-backed adapters *)

(** X17: for an image the Nano-Banana adapter makes exactly one run of
    [google/nano-banana], with the target first and the source second in
    [image_input], and returns within its 60 seconds.  It reports success
    exactly when the run answered in time with a truthy output; an empty
    string, an empty list or [None] is a failure. *)
Theorem nano_banana_succeeds_iff_output_in_time target source (w : Net) :
  ∃ d w' params,
    NanoBananaProvider.swap_face target source IMAGE w
    = (Return d, w', [ReplicateRun "google/nano-banana" params])
    ∧ params !! "image_input" = Some (PyList [PyStr target; PyStr source])
    ∧ (clock w ≤ clock w' ≤ clock w + 60)%Z
    ∧ (d !! "success" = Some (PyBool true)
       ∨ d !! "success" = Some (PyBool false))
    ∧ (d !! "success" = Some (PyBool true)
       ↔ ∃ took output rest,
           replicate_replies w = (took, Return output) :: rest
           ∧ (Z.of_N took ≤ 60)%Z ∧ output_truthy output = true).
Proof.
  unfold NanoBananaProvider.swap_face. adapter_steps. unfold replicate_run.
  destruct (replicate_replies w) as [|[took reply] rest] eqn:Hreplies.
  { eexists _, _, _. split; [reflexivity|]. split; [done|].
    split; [lia|]. split; [by right|].
    split; [done|]. by intros (? & ? & ? & [=] & _). }
  unfold NanoBananaProvider.TIMEOUT.
  destruct (60 <? Z.of_N took)%Z eqn:Htook;
    [apply Z.ltb_lt in Htook|apply Z.ltb_ge in Htook].
  { eexists _, _, _. split; [reflexivity|]. split; [done|].
    split; [cbn [clock]; lia|]. split; [by right|].
    split; [done|]. intros (? & ? & ? & [= <- _ _] & ? & _). lia. }
  destruct reply as [output|e].
  - destruct (output_truthy output) eqn:Houtput.
    + eexists _, _, _. split; [reflexivity|]. split; [done|].
      split; [cbn [clock]; lia|]. split; [by left|].
      split; [|done]. intros _. by exists took, output, rest.
    + eexists _, _, _. split; [reflexivity|]. split; [done|].
      split; [cbn [clock]; lia|]. split; [by right|].
      split; [done|]. intros (? & ? & ? & [= _ <- _] & _ & ?). congruence.
  - destruct e; eexists _, _, _; (split; [reflexivity|]); (split; [done|]);
      (split; [cbn [clock]; lia|]); (split; [by right|]);
      (split; [done|]); by intros (? & ? & ? & [=] & _).
Qed.

Lemma sorted_models_eq :
  ReplicateProvider.sorted_models = ReplicateProvider.MODELS.
Proof. reflexivity. Qed.

Lemma prepare_params_easel target source :
  ReplicateProvider.prepare_params
    (ReplicateProvider.ModelConfig "easel/advanced-face-swap" None
       {[ "target_image" := PyNone; "swap_image" := PyNone;
          "hair_source" := PyStr "target" ]} 90 1) target source
  = {[ "target_image" := PyStr target; "swap_image" := PyStr source;
       "hair_source" := PyStr "target" ]}.
Proof. vm_compute. reflexivity. Qed.

Lemma prepare_params_omniedge target source :
  ReplicateProvider.prepare_params
    (ReplicateProvider.ModelConfig "omniedgeio/face-swap" None
       {[ "input_image" := PyNone; "target_image" := PyNone;
          "swap_image" := PyNone ]} 60 2) target source
  = {[ "input_image" := PyStr target; "target_image" := PyStr target;
       "swap_image" := PyStr source ]}.
Proof. vm_compute. reflexivity. Qed.

Ltac replicate_step :=
  match goal with
  | |- context [match replicate_replies ?w with _ => _ end] =>
      let H := fresh "Hreplies" in
      destruct (replicate_replies w) as [|[? [?|?]] ?] eqn:H
  | |- context [match ?l with [] => _ | _ :: _ => _ end] =>
      is_var l; destruct l as [|[? [?|?]] ?]
  | |- context [(?t <? Z.of_N ?x)%Z] =>
      let H := fresh "Htook" in
      destruct (t <? Z.of_N x)%Z eqn:H
  | |- context [output_truthy ?o] =>
      let H := fresh "Houtput" in
      destruct (output_truthy o) eqn:H
  end.

Ltac answer :=
  eexists _, _, _; split; [reflexivity|]; split; [lia|]; split; [done|reflexivity].

Ltac no_answer :=
  let Heq := fresh "Heq" in
  intros (? & ? & ? & ? & Heq & ? & ? & ?);
  first [ discriminate Heq
        | injection Heq as ? ? ?; subst; first [lia | congruence] ].

Ltac elapsed_facts :=
  match goal with
  | H : (_ <? _)%Z = false |- _ => apply Z.ltb_ge in H
  | H : (_ <? _)%Z = true |- _ => apply Z.ltb_lt in H
  end.

(** X18: for an image the Replicate adapter runs [easel/advanced-face-swap]
    first and [omniedgeio/face-swap] second, each with the target and the
    source under the parameter names of its model and no [None] value.  If
    the first run answers within its 90 seconds with a truthy output, that
    is the one run and the result is the success naming easel with the URL
    of the output.  Otherwise, and only then, the second run is made, on
    the replies that follow: if it answers within its 60 seconds the result
    is the success naming omniedge, and if not the result is that all
    models failed.  The call takes at most 90 + 60 seconds. *)
Theorem replicate_tries_easel_then_omniedge target source (w : Net) :
  let easel :=
    ReplicateRun "easel/advanced-face-swap"
      {[ "target_image" := PyStr target; "swap_image" := PyStr source;
         "hair_source" := PyStr "target" ]} in
  let omniedge :=
    ReplicateRun "omniedgeio/face-swap"
      {[ "input_image" := PyStr target; "target_image" := PyStr target;
         "swap_image" := PyStr source ]} in
  let answered (model url : string) : gmap string pyval :=
    {[ "success" := PyBool true;
       "result_url" := PyStr url;
       "message" := PyStr ("Face swap completed via " +:+ model);
       "provider" := PyStr "Replicate";
       "model" := PyStr model ]} in
  let first := replicate_replies w in
  let second := tail (replicate_replies w) in
  ∃ d w' evs,
    ReplicateProvider.swap_face target source IMAGE w = (Return d, w', evs)
    ∧ (clock w ≤ clock w' ≤ clock w + 150)%Z
    ∧ ((∃ url, answers_in_time 90 first url
               ∧ evs = [easel]
               ∧ d = answered "easel/advanced-face-swap" url)
       ∨ ((¬ ∃ url, answers_in_time 90 first url)
          ∧ evs = [easel; omniedge]
          ∧ ((∃ url, answers_in_time 60 second url
                     ∧ d = answered "omniedgeio/face-swap" url)
             ∨ ((¬ ∃ url, answers_in_time 60 second url)
                ∧ d = ReplicateProvider.all_models_failed)))).
Proof.
  intros easel omniedge answered first second. unfold first, second.
  unfold ReplicateProvider.swap_face. rewrite sorted_models_eq.
  unfold ReplicateProvider.MODELS. cbn [ReplicateProvider.try_models].
  rewrite prepare_params_easel, prepare_params_omniedge.
  cbn [ReplicateProvider.name ReplicateProvider.timeout].
  fold easel omniedge.
  adapter_steps. unfold replicate_run.
  repeat (replicate_step;
          cbn beta iota zeta delta
            [replicate_replies clock post_replies get_replies net_log tail]);
    try discriminate;
    (eexists _, _, _; split; [reflexivity|]);
    cbn [clock]; repeat elapsed_facts;
    (split; [lia|]);
    first [ left; eexists; split; [by answer|]; by split
          | right; split; [no_answer|]; split; [reflexivity|];
            first [ left; eexists; split; [by answer|]; reflexivity
                  | right; split; [no_answer|reflexivity] ] ].
Qed.

(** ** The PiAPI adapter *)

Lemma gets_get url headers (evs : list net_event) :
  gets (HttpGet url headers :: evs) = S (gets evs).
Proof. unfold gets. by rewrite filter_cons_True. Qed.

Lemma gets_slept seconds (evs : list net_event) :
  gets (Slept seconds :: evs) = gets evs.
Proof. unfold gets. by rewrite filter_cons_False. Qed.

Lemma gets_nil : gets [] = 0.
Proof. done. Qed.

Ltac no_polls :=
  rewrite gets_nil;
  match goal with
  | |- context [match ?m with IMAGE => _ | VIDEO => _ end] => destruct m; lia
  end.

Ltac piapi_failure :=
  match goal with
  | Hconfig : ?payload !! "config" = _ |- _ =>
      eexists _, _, payload, _; split; [reflexivity|]; split; [exact Hconfig|];
      cbn [app]; split;
      [ match goal with
        | |- context [if webhook_given ?u then _ else _] =>
            destruct (webhook_given u);
            [split; [done|]; right; by repeat split; eauto|done]
        end
      | split; [by exists EmptyString|no_polls] ]
  end.

Section PiAPIRequests.
Variable py_str : pyval → string.
Variable sha256_hexdigest : string → string.
Variable api_key : string.

Local Abbreviation poll_of task_id :=
  (HttpGet (PiAPIProvider.BASE_URL +:+ "/task/" +:+ py_str task_id)
     (PiAPIProvider.headers api_key)).

(** One pass of the polling loop asks once for the task, and sleeps three
    seconds when it goes round again. *)
Lemma poll_body_events media_type task_id w o w1 tr1 :
  PiAPIProvider.poll_body py_str api_key media_type task_id w = (o, w1, tr1) →
  (tr1 = [poll_of task_id] ∧ o ≠ Return None)
  ∨ (tr1 = [poll_of task_id; Slept 3] ∧ o = Return None
     ∧ (clock w + 3 ≤ clock w1)%Z).
Proof.
  unfold PiAPIProvider.poll_body, requests_get, net_sleep. adapter_steps.
  destruct (get_replies w) as [|[took reply] rest]; [by intros [= <- _ <-]; left|].
  destruct reply as [result|]; [|by intros [= <- _ <-]; left].
  destruct (subscript result "data") as [data|]; [|by intros [= <- _ <-]; left].
  destruct (subscript data "status") as [status|]; [|by intros [= <- _ <-]; left].
  destruct (py_eq_str status "completed").
  { destruct (subscript data "output") as [output|]; [|by intros [= <- _ <-]; left].
    destruct (method_get output _ PyNone) as [result_url|];
      by intros [= <- _ <-]; left. }
  destruct (py_eq_str status "failed").
  { destruct (method_get data "error" _) as [error|];
      by intros [= <- _ <-]; left. }
  intros [= <- <- <-]. right. split; [done|]. split; [done|]. cbn [clock]. lia.
Qed.

Lemma poll_events media_type task_id timeout start_time w :
  Forall (λ ev, ev = poll_of task_id ∨ ev = Slept 3)
    (PiAPIProvider.poll py_str api_key media_type task_id timeout
       start_time w).2
  ∧ (3 * Z.of_nat (gets (PiAPIProvider.poll py_str api_key media_type task_id
                           timeout start_time w).2)
     ≤ Z.max 0 (start_time + timeout - clock w) + 2)%Z.
Proof.
  funelim (PiAPIProvider.poll py_str api_key media_type task_id timeout
             start_time w); cbn [snd].
  - split; [constructor|]. cbn. lia.
  - match goal with
    | Hbody : PiAPIProvider.poll_body _ _ _ _ _ = _,
      Hcond : (_ <? _)%Z = true |- _ =>
        destruct (poll_body_events _ _ _ _ _ _ Hbody) as [[-> _]|(_ & [=] & _)];
        pose proof (proj1 (Z.ltb_lt _ _) Hcond)
    end.
    split; [repeat constructor|]. rewrite gets_get, gets_nil. lia.
  - match goal with
    | Hbody : PiAPIProvider.poll_body _ _ _ _ _ = _,
      Hcond : (_ <? _)%Z = true |- _ =>
        destruct (poll_body_events _ _ _ _ _ _ Hbody) as [[_ []]|(-> & _ & Hclock)];
        [done|]; pose proof (proj1 (Z.ltb_lt _ _) Hcond)
    end.
    destruct (PiAPIProvider.poll _ _ _ _ _ _ w1) as [[o w2] tr2].
    cbn [snd] in *.
    match goal with IH : _ ∧ _ |- _ => destruct IH as [IHev IHgets] end.
    split; [repeat constructor; done|].
    cbn [app]. rewrite gets_get, gets_slept. cbn [clock] in *. lia.
  - match goal with
    | Hbody : PiAPIProvider.poll_body _ _ _ _ _ = _,
      Hcond : (_ <? _)%Z = true |- _ =>
        destruct (poll_body_events _ _ _ _ _ _ Hbody) as [[-> _]|(_ & [=] & _)];
        pose proof (proj1 (Z.ltb_lt _ _) Hcond)
    end.
    split; [repeat constructor|]. rewrite gets_get, gets_nil. lia.
Qed.

Local Abbreviation piapi_swap_face :=
  (PiAPIProvider.swap_face py_str sha256_hexdigest api_key).

Local Abbreviation create_task payload :=
  (HttpPost (PiAPIProvider.BASE_URL +:+ "/task") (PyDict payload)
     (PiAPIProvider.headers api_key)).

(** The requests of one call: the task creation first, then polls of the
    task that was created, three seconds apart. *)
Lemma piapi_requests target source media_type webhook_url w :
  ∃ d w' payload rest,
    piapi_swap_face target source media_type webhook_url w
    = (Return d, w', create_task payload :: rest)
    ∧ payload !! "config"
      = (if webhook_given webhook_url
         then Some (PiAPIProvider.webhook_config py_str sha256_hexdigest
                      api_key (default "" webhook_url) (clock w))
         else None)
    ∧ (if webhook_given webhook_url
       then rest = [] ∧ (async_accepted d ∨ reported_failure d)
       else d !! "async" = None)
    ∧ (∃ url, Forall (λ ev, ev = Slept 3
                            ∨ ev = HttpGet url (PiAPIProvider.headers api_key))
                rest)
    ∧ (3 * Z.of_nat (gets rest)
       ≤ match media_type with IMAGE => 60 | VIDEO => 120 end + 2)%Z.
Proof.
  unfold PiAPIProvider.swap_face.
  assert (∃ config,
            PiAPIProvider.MODELS !! media_value media_type = Some config
            ∧ PiAPIProvider.timeout config
              = match media_type with IMAGE => 60 | VIDEO => 120 end)%Z
    as (config & -> & Htimeout) by (destruct media_type; eexists; done).
  unfold PiAPIProvider.create_and_wait, try_except.
  set (base := PiAPIProvider.base_payload config target source media_type).
  assert (base !! "config" = None) as Hbase by (by destruct media_type).
  assert (∃ payload,
            (match webhook_url with
             | Some url =>
                 if webhook_given webhook_url
                 then now ← time_time;
                      ret (<["config" := PiAPIProvider.webhook_config py_str
                                           sha256_hexdigest api_key url now]> base)
                 else ret base
             | None => ret base
             end : M Net net_event (gmap string pyval)) w
            = (Return payload, w, [])
            ∧ payload !! "config"
              = (if webhook_given webhook_url
                 then Some (PiAPIProvider.webhook_config py_str sha256_hexdigest
                              api_key (default "" webhook_url) (clock w))
                 else None)) as (payload & Hpayload & Hconfig).
  { destruct webhook_url as [url|]; [|by exists base].
    destruct (webhook_given (Some url)); [|by exists base].
    eexists. split; [reflexivity|]. by rewrite lookup_insert_eq. }
  rewrite run_bind, Hpayload. unfold requests_post. adapter_steps.
  destruct (post_replies w) as [|[took reply] rest].
  { piapi_failure. }
  destruct reply as [create_response|]; [|piapi_failure].
  destruct (method_get create_response "code" PyNone) as [code|];
    [|piapi_failure].
  destruct (py_eq_int code 200); cbn [negb]; [|piapi_failure].
  destruct (subscript create_response "data") as [data|]; [|piapi_failure].
  destruct (subscript data "task_id") as [task_id|]; [|piapi_failure].
  destruct (webhook_given webhook_url) eqn:Hgiven.
  { eexists _, _, payload, _. split; [reflexivity|]. split; [done|].
    cbn [app]. split; [|split; [by exists EmptyString|no_polls]].
    split; [done|]. left. by repeat split; eauto. }
  unfold time_time.
  match goal with |- context [PiAPIProvider.poll ?a ?b ?c ?d ?e ?f ?g] =>
    pose proof (poll_result a b c d e f g) as Hpoll;
    pose proof (poll_events c d e f g) as [Hev Hgets];
    destruct (PiAPIProvider.poll a b c d e f g) as [[[d0|e0] w2] evs2] end;
    cbn [fst snd clock] in *.
  - eexists _, _, payload, _. split; [reflexivity|]. split; [done|].
    cbn [app].
    destruct Hpoll as ([(_ & _ & Hasync)|(_ & _ & _ & Hasync)] & _);
      (split; [done|]); (split; [|rewrite Htimeout in Hgets; destruct media_type; lia]);
      eexists; (eapply Forall_impl; [exact Hev|]); intros ev [-> | ->]; eauto.
  - eexists _, _, payload, evs2. split; [by rewrite ?app_nil_r|].
    split; [done|].
    split; [done|]. split; [|rewrite Htimeout in Hgets; destruct media_type; lia].
    eexists. eapply Forall_impl; [exact Hev|]. intros ev [-> | ->]; eauto.
Qed.

(** X19: one call of the PiAPI adapter sends the task creation first and
    then nothing but status polls, all to one URL, and three-second
    sleeps; it polls at most 20 times for an image and 40 times for a
    video, whatever the service replies. *)
Theorem piapi_polls_within_its_budget target source media_type webhook_url w :
  ∃ d w' payload rest url,
    piapi_swap_face target source media_type webhook_url w
    = (Return d, w', create_task payload :: rest)
    ∧ Forall (λ ev, ev = Slept 3
                    ∨ ev = HttpGet url (PiAPIProvider.headers api_key)) rest
    ∧ gets rest ≤ match media_type with IMAGE => 20 | VIDEO => 40 end.
Proof.
  destruct (piapi_requests target source media_type webhook_url w)
    as (d & w' & payload & rest & Hrun & _ & _ & [url Hev] & Hgets).
  exists d, w', payload, rest, url. split; [done|]. split; [done|].
  destruct media_type; lia.
Qed.

(** X20: with a webhook URL the PiAPI adapter sends the task creation,
    carrying the webhook endpoint and a secret, and nothing else: it never
    polls or sleeps, whatever the service replies, and answers with an
    accepted asynchronous task or with a failure. *)
Theorem piapi_with_webhook_sends_one_request target source media_type url w :
  url ≠ "" →
  ∃ d w' payload,
    piapi_swap_face target source media_type (Some url) w
    = (Return d, w', [create_task payload])
    ∧ payload !! "config"
      = Some (PiAPIProvider.webhook_config py_str sha256_hexdigest api_key
                url (clock w))
    ∧ (async_accepted d ∨ reported_failure d).
Proof.
  intros Hurl.
  destruct (piapi_requests target source media_type (Some url) w)
    as (d & w' & payload & rest & Hrun & Hconfig & Hshape & _).
  assert (webhook_given (Some url) = true) as Hgiven.
  { cbn. by destruct (String.eqb_spec url ""). }
  rewrite Hgiven in Hconfig, Hshape. destruct Hshape as [-> Hshape].
  by exists d, w', payload.
Qed.

(** X21: without a webhook URL -- [None] or the empty string, which the
    adapter treats alike -- the task is created without a webhook
    configuration and the result is never an asynchronous one. *)
Theorem piapi_without_webhook_is_synchronous target source media_type
    webhook_url w :
  webhook_given webhook_url = false →
  piapi_swap_face target source media_type webhook_url w
  = piapi_swap_face target source media_type None w
  ∧ ∃ d w' payload rest,
      piapi_swap_face target source media_type webhook_url w
      = (Return d, w', create_task payload :: rest)
      ∧ payload !! "config" = None
      ∧ d !! "async" = None.
Proof.
  intros Hgiven. split.
  - unfold PiAPIProvider.swap_face, PiAPIProvider.create_and_wait.
    destruct webhook_url as [url|]; [|done]. by rewrite Hgiven.
  - destruct (piapi_requests target source media_type webhook_url w)
      as (d & w' & payload & rest & Hrun & Hconfig & Hshape & _).
    rewrite Hgiven in Hconfig, Hshape. by exists d, w', payload, rest.
Qed.
End PiAPIRequests.

Lemma piapi_with_webhook_sends_one_request_witness :
  ∃ d w' payload,
    PiAPIProvider.swap_face str_plain (λ s, s) "key" "https://example.com/a.jpg"
      "https://example.com/face.jpg" IMAGE (Some "https://example.com/hook")
      piapi_completes
    = (Return d, w',
       [HttpPost (PiAPIProvider.BASE_URL +:+ "/task") (PyDict payload)
          (PiAPIProvider.headers "key")])
    ∧ payload !! "config"
      = Some (PiAPIProvider.webhook_config str_plain (λ s, s) "key"
                "https://example.com/hook" (clock piapi_completes))
    ∧ (async_accepted d ∨ reported_failure d).
Proof.
  apply (piapi_with_webhook_sends_one_request str_plain (λ s, s) "key"
           "https://example.com/a.jpg" "https://example.com/face.jpg" IMAGE
           "https://example.com/hook" piapi_completes).
  discriminate.
Defined.

Lemma piapi_without_webhook_is_synchronous_witness :
  PiAPIProvider.swap_face str_plain (λ s, s) "key" "https://example.com/a.jpg"
    "https://example.com/face.jpg" IMAGE (Some "") piapi_completes
  = PiAPIProvider.swap_face str_plain (λ s, s) "key" "https://example.com/a.jpg"
      "https://example.com/face.jpg" IMAGE None piapi_completes
  ∧ ∃ d w' payload rest,
      PiAPIProvider.swap_face str_plain (λ s, s) "key"
        "https://example.com/a.jpg" "https://example.com/face.jpg" IMAGE
        (Some "") piapi_completes
      = (Return d, w',
         HttpPost (PiAPIProvider.BASE_URL +:+ "/task") (PyDict payload)
           (PiAPIProvider.headers "key") :: rest)
      ∧ payload !! "config" = None
      ∧ d !! "async" = None.
Proof.
  apply (piapi_without_webhook_is_synchronous str_plain (λ s, s) "key"
           "https://example.com/a.jpg" "https://example.com/face.jpg" IMAGE
           (Some "") piapi_completes).
  reflexivity.
Defined.
